(** * The MTA server updater (updater.py): a shallow embedding

    The script is sequential Python that threads three kinds of effect
    through its calls: a filesystem it mutates in place, the console it
    prints to, and abrupt termination (an exception, or [exit(n)] which
    raises [SystemExit]).  We model the filesystem as a finite map from
    paths to nodes, the console as the list of printed strings, and the
    control flow as a small state-and-outcome monad. *)

From stdpp Require Import base option list strings pretty gmap fin_maps.
From Stdlib Require Import ZArith.

Set Warnings "-register-all".

(** The line feed, Python's ["\n"]. *)
Definition nl : string :=
  String (Ascii.Ascii false true false true false false false false) "".

(** ** Outcomes of running a piece of Python *)

(** The exceptions the script can meet.  Each carries the text that
    [traceback.format_exc()] prints after the exception's name. *)
Inductive exn : Type :=
  | AttributeError (msg : string)
  | TypeError (msg : string)
  | KeyError (msg : string)
  | IndexError (msg : string)
  | FileNotFoundError (msg : string)
  | FileExistsError (msg : string)
  | IsADirectoryError (msg : string)
  | NotADirectoryError (msg : string)
  | OSError (msg : string)
  | HTTPError (msg : string)
  | ConnectionError (msg : string)
  | CalledProcessError (msg : string)
  | ReadError (msg : string)
  | SameFileError (msg : string)
  | EOFError (msg : string).

Definition exn_name (e : exn) : string :=
  match e with
  | AttributeError _ => "AttributeError"
  | TypeError _ => "TypeError"
  | KeyError _ => "KeyError"
  | IndexError _ => "IndexError"
  | FileNotFoundError _ => "FileNotFoundError"
  | FileExistsError _ => "FileExistsError"
  | IsADirectoryError _ => "IsADirectoryError"
  | NotADirectoryError _ => "NotADirectoryError"
  | OSError _ => "OSError"
  | HTTPError _ => "requests.exceptions.HTTPError"
  | ConnectionError _ => "requests.exceptions.ConnectionError"
  | CalledProcessError _ => "subprocess.CalledProcessError"
  | ReadError _ => "tarfile.ReadError"
  | SameFileError _ => "shutil.SameFileError"
  | EOFError _ => "EOFError"
  end.

Definition exn_msg (e : exn) : string :=
  match e with
  | AttributeError m | TypeError m | KeyError m | IndexError m
  | FileNotFoundError m | FileExistsError m | IsADirectoryError m
  | NotADirectoryError m | OSError m | HTTPError m | ConnectionError m
  | CalledProcessError m | ReadError m | SameFileError m | EOFError m => m
  end.

(** How a call ends: it returns a value, raises an [Exception], or calls
    [exit(code)].  [exit] raises [SystemExit], which is not an
    [Exception]: an [except Exception] clause lets it through. *)
Inductive outcome (A : Type) : Type :=
  | Ret (a : A)
  | Raise (e : exn)
  | Exit (code : Z).
Arguments Ret {A} a.
Arguments Raise {A} e.
Arguments Exit {A} code.

Definition is_ret {A} (o : outcome A) : bool :=
  match o with Ret _ => true | _ => false end.
Definition is_raise {A} (o : outcome A) : bool :=
  match o with Raise _ => true | _ => false end.

(** ** Paths and the filesystem *)

(** A path is the list of its components below the filesystem root. *)
Abbreviation path := (list string).

(** A regular file has its bytes; a directory has no data of its own,
    its entries are the paths one component longer.  Permissions,
    timestamps and links are not modelled. *)
Inductive node : Type :=
  | File (data : string)
  | Dir.

Global Instance node_eq_dec : EqDecision node.
Proof. solve_decision. Defined.

Abbreviation filesystem := (gmap path node).

(** The state the script runs in. *)
Record world : Type := World {
  fs : filesystem;          (* the disk *)
  out : list string         (* what [print] has written, oldest first *)
}.

(** ** The monad: state passing with abrupt termination *)

Definition M (A : Type) : Type := world → world * outcome A.

Definition raise {A} (e : exn) : M A := λ w, (w, Raise e).
Definition exit {A} (code : Z) : M A := λ w, (w, Exit code).

(** Sequencing stops at the first exception or [exit]. *)
Global Instance M_ret : MRet M := λ A a w, (w, Ret a).
Global Instance M_bind : MBind M := λ A B k m w,
  match m w with
  | (w', Ret a) => k a w'
  | (w', Raise e) => (w', Raise e)
  | (w', Exit c) => (w', Exit c)
  end.

Definition print (s : string) : M unit :=
  λ w, (World (fs w) (out w ++ [s]), Ret tt).

Definition get_fs : M filesystem := λ w, (w, Ret (fs w)).
Definition put_fs (f : filesystem) : M unit := λ w, (World f (out w), Ret tt).

(** ** Platform matrix (lines 23-104) *)

(** What [platform] and [sys] report about the host. *)
Record host : Type := Host {
  OS_SYSTEM : string;    (* platform.system() *)
  IS_64_BIT : bool;      (* sys.maxsize > 2**32 *)
  IS_ARM : bool          (* platform.machine().startswith('arm') *)
}.

(** The values stored in the tables: strings, and [False] for the one
    build that does not exist. *)
Inductive pyval : Type :=
  | PStr (s : string)
  | PBool (b : bool).

(** Python truthiness, as used by [if not BUILD_STRING]. *)
Definition truthy (v : pyval) : bool :=
  match v with
  | PStr s => negb (String.eqb s "")
  | PBool b => b
  end.

Abbreviation table := (gmap string (gmap string (gmap string pyval))).

Definition dict {V} (l : list (string * V)) : gmap string V := list_to_map l.

Definition BUILD_STRINGS : table :=
  dict [
    ("arm", dict [
      ("Windows", dict [
        ("64", PStr "Windows arm64 server");
        ("32", PBool false) ]);
      ("Linux", dict [
        ("64", PStr "Linux arm64 server");
        ("32", PStr "Linux arm server") ]) ]);
    ("x86", dict [
      ("Windows", dict [
        ("64", PStr "Windows 64 bit server");
        ("32", PStr "Windows nightly installer (Win10+)") ]);
      ("Linux", dict [
        ("64", PStr "Linux 64 bit server");
        ("32", PStr "Linux 32 bit server") ]) ]) ].

Definition EXEC_FILE_NAMES : table :=
  dict [
    ("arm", dict [
      ("Windows", dict [
        ("64", PStr "MTA Server ARM64.exe") ]);
      ("Linux", dict [
        ("64", PStr "mta-server-arm64");
        ("32", PStr "mta-server-arm") ]) ]);
    ("x86", dict [
      ("Windows", dict [
        ("64", PStr "MTA Server64.exe");
        ("32", PStr "MTA Server.exe") ]);
      ("Linux", dict [
        ("64", PStr "mta-server64");
        ("32", PStr "mta-server") ]) ]) ].

Definition SERVER_BINARIES_LOCATIONS : table :=
  dict [
    ("arm", dict [
      ("Windows", dict [
        ("64", PStr "arm64") ]);
      ("Linux", dict [
        ("64", PStr "arm64");
        ("32", PStr "arm") ]) ]);
    ("x86", dict [
      ("Windows", dict [
        ("64", PStr "x64");
        ("32", PStr "./") ]);
      ("Linux", dict [
        ("64", PStr "x64");
        ("32", PStr "./") ]) ]) ].

Definition cpu_arch (h : host) : string := if IS_ARM h then "arm" else "x86".
Definition os_name (h : host) : string :=
  if String.eqb (OS_SYSTEM h) "Windows" then "Windows" else "Linux".
Definition cpu_bits (h : host) : string := if IS_64_BIT h then "64" else "32".

(** [d[k]]: a missing key raises [KeyError]. *)
Definition subscript {V} (d : gmap string V) (k : string) : M V :=
  match d !! k with
  | Some v => mret v
  | None => raise (KeyError ("'" ++ k ++ "'"))
  end.

(** [T[cpu_arch][os_name][cpu_bits]] *)
Definition lookup3 (t : table) (h : host) : M pyval :=
  d1 ← subscript t (cpu_arch h);
  d2 ← subscript d1 (os_name h);
  subscript d2 (cpu_bits h).

(** The text of a table entry where the script uses it as a string. *)
Definition str_of (v : pyval) : string :=
  match v with
  | PStr s => s
  | PBool true => "True"
  | PBool false => "False"
  end.

(** The three module-level constants derived from the host. *)
Record profile : Type := Profile {
  BUILD_STRING : string;
  EXEC_FILE_NAME : string;
  SERVER_BINARIES_LOCATION : string
}.

(** Lines 55-104, in the order the module executes them: the build
    string is looked up and tested before the other two tables are
    touched. *)
Definition module_init (h : host) : M profile :=
  b ← lookup3 BUILD_STRINGS h;
  (if truthy b then mret tt
   else
     print ("This script is not compatible with your system ("
            ++ os_name h ++ " " ++ cpu_bits h ++ " bit).");;
     exit 1);;
  e ← lookup3 EXEC_FILE_NAMES h;
  l ← lookup3 SERVER_BINARIES_LOCATIONS h;
  mret (Profile (str_of b) (str_of e) (str_of l)).

(** The one combination with no build. *)
Definition unsupported (h : host) : bool :=
  IS_ARM h && String.eqb (OS_SYSTEM h) "Windows" && negb (IS_64_BIT h).

(** The table entry of a host, where there is one. *)
Definition entry (t : table) (h : host) : option pyval :=
  d1 ← t !! cpu_arch h; d2 ← d1 !! os_name h; d2 !! cpu_bits h.

Definition entry_str (t : table) (h : host) : string :=
  str_of (default (PBool false) (entry t h)).

(** ** Filesystem primitives ([os], [os.path], [shutil]) *)

Definition is_file (n : node) : bool :=
  match n with File _ => true | Dir => false end.

Definition parent (p : path) : path := take (length p - 1) p.
Definition basename (p : path) : string := default "" (last p).

(** On a real disk the root is a directory and every other entry lives
    in a directory. *)
Definition wf (f : filesystem) : Prop :=
  f !! [] = Some Dir ∧
  map_Forall (λ p _, p = [] ∨ f !! parent p = Some Dir) f.

Global Instance wf_dec f : Decision (wf f).
Proof. unfold wf. apply _. Defined.

Definition os_path_exists (p : path) : M bool :=
  λ w, (w, Ret (bool_decide (is_Some (fs w !! p)))).

Definition os_path_isdir (p : path) : M bool :=
  λ w, (w, Ret (bool_decide (fs w !! p = Some Dir))).

(** [for x in xs: body(x)] *)
Fixpoint for_ {A} (xs : list A) (body : A → M unit) : M unit :=
  match xs with
  | [] => mret tt
  | x :: xs' => body x;; for_ xs' body
  end.

(** Every name that occurs as the last component of some entry. *)
Definition names (f : filesystem) : gset string := set_omap last (dom f).

(** The names of the entries of kind [keep] directly inside [d]. *)
Definition entries_of (keep : node → bool) (f : filesystem) (d : path)
    : list string :=
  filter (λ c, from_option keep false (f !! (d ++ [c])) = true)
         (elements (names f)).

Definition files_in := entries_of is_file.
Definition dirs_in := entries_of (λ n, negb (is_file n)).

(** The directories at or below [top]. *)
Definition dirs_under (f : filesystem) (top : path) : list path :=
  filter (λ p, f !! p = Some Dir ∧ top `prefix_of` p) (elements (dom f)).

(** [os.walk(top)]: one triple (root, dirs, files) for each directory at
    or below [top]; nothing when [top] is not a directory (the listing
    error is swallowed).  Python produces the triples lazily and in
    top-down order; here the whole list is taken from the disk as it is
    when the loop starts, in the order of the map.  The loops of this
    script only add or remove regular files while they iterate, so on a
    well-formed disk the directories visited are the same. *)
Definition os_walk (top : path) : M (list (path * list string * list string)) :=
  λ w, (w, Ret (if bool_decide (fs w !! top = Some Dir)
                then (λ d, (d, dirs_in (fs w) d, files_in (fs w) d))
                       <$> dirs_under (fs w) top
                else [])).

(** [os.remove(p)] *)
Definition os_remove (p : path) : M unit :=
  λ w, match fs w !! p with
       | None => (w, Raise (FileNotFoundError "No such file or directory"))
       | Some Dir => (w, Raise (IsADirectoryError "Is a directory"))
       | Some (File _) => (World (delete p (fs w)) (out w), Ret tt)
       end.

(** [shutil.rmtree(p)]: [p] and everything below it. *)
Definition shutil_rmtree (p : path) : M unit :=
  λ w, match fs w !! p with
       | None => (w, Raise (FileNotFoundError "No such file or directory"))
       | Some (File _) => (w, Raise (NotADirectoryError "Not a directory"))
       | Some Dir =>
           (World (filter (λ qn : path * node, ¬ p `prefix_of` qn.1) (fs w))
                  (out w), Ret tt)
       end.

(** ** Staging manager (lines 214-222) *)

Definition delete_folder (folder : path) : M unit :=
  e ← os_path_exists folder;
  d ← (if e : bool then os_path_isdir folder else mret false);
  if d : bool then shutil_rmtree folder else mret tt.

Definition clear_folder (folder : path) : M unit :=
  e ← os_path_exists folder;
  d ← (if e : bool then os_path_isdir folder else mret false);
  if d : bool then
    triples ← os_walk folder;
    for_ triples (λ t : path * list string * list string,
      let '(root, dirs, files) := t in
      for_ files (λ file, os_remove (root ++ [file])))
  else mret tt.

(** The regular files that the loop of [clear_folder] removes: for each
    directory of the walk, its files. *)
Definition walk_files (f : filesystem) (top : path) : list path :=
  d ← dirs_under f top; (λ c, d ++ [c]) <$> files_in f d.

(** The disk after removing the entries [ps], first to last. *)
Definition delete_all (f : filesystem) (ps : list path) : filesystem :=
  foldl (λ m p, delete p m) f ps.

(** ** The network and the listing page *)

(** What [requests.get] can come back with: a response, whose body
    arrives in chunks and whose transfer may break after some of them,
    or no response at all. *)
Inductive http_result : Type :=
  | Response (status_code : Z) (chunks : list string) (broken : option exn)
  | NoResponse (e : exn).

(** A parsed document, as BeautifulSoup holds it: text nodes (including
    comments, which are strings too) and tags.  An attribute value is a
    string, or a list of strings for the multi-valued [class]. *)
Inductive attr : Type :=
  | AStr (s : string)
  | AList (l : list string).

Inductive html : Type :=
  | Text (s : string)
  | Tag (name : string) (attrs : gmap string attr) (contents : list html).

(** Everything outside the script that a run depends on. *)
Record env : Type := Env {
  the_host : host;
  http_get : string → http_result;     (* the web, by URL *)
  html_parser : string → html          (* BeautifulSoup(_, 'html.parser') *)
}.

(** The members of an archive, in the order they are stored, each with
    its path relative to the archive root. *)
Abbreviation archive := (list (path * node)).

(** A broken-down local time, as [datetime.now()] gives it. *)
Record datetime : Type := DateTime {
  year : N; month : N; day : N; hour : N; minute : N; second : N
}.

(** The machine the script runs on, besides its disk and console. *)
Record machine : Type := Machine {
  cwd : path;                              (* os.getcwd() *)
  has_7z : bool;                           (* shutil.which('7z') is not None *)
  untar_gz : string → option archive;      (* gzip + tar decoding of a file's bytes *)
  un7z : string → option archive;          (* what 7z reads from a file's bytes *)
  listdir_order : filesystem → path → list string;
                                           (* the order in which os.listdir answers *)
  now : datetime;                          (* the clock when the log line is written *)
  typed_folder : option string;            (* the answer to the folder prompt *)
  typed_confirm : option string            (* the answer to the confirmation prompt *)
}.

(** A node followed by its descendants, in document order. *)
Fixpoint preorder (n : html) : list html :=
  n :: match n with
       | Text _ => []
       | Tag _ _ cs =>
           (fix go (l : list html) : list html :=
              match l with
              | [] => []
              | c :: l' => preorder c ++ go l'
              end) cs
       end.

Definition descendants (n : html) : list html := tail (preorder n).

(** [tag.string]: the single string a tag wraps, possibly through a
    chain of only children. *)
Fixpoint tag_string (n : html) : option string :=
  match n with
  | Text s => Some s
  | Tag _ _ [c] => tag_string c
  | Tag _ _ _ => None
  end.

Definition tag_name (n : html) : option string :=
  match n with Text _ => None | Tag nm _ _ => Some nm end.

Definition get_attr (n : html) (k : string) : option attr :=
  match n with Text _ => None | Tag _ a _ => a !! k end.

(** Python's [' '.join(l)] *)
Fixpoint join_space (l : list string) : string :=
  match l with
  | [] => ""
  | [x] => x
  | x :: l' => x +:+ " " +:+ join_space l'
  end.

(** How BeautifulSoup matches an attribute against a wanted string: a
    list matches when one of its items or its space-joined text does; a
    missing attribute does not match. *)
Definition attr_matches (v : option attr) (want : string) : bool :=
  match v with
  | None => false
  | Some (AStr s) => String.eqb s want
  | Some (AList l) => existsb (λ x, String.eqb x want) l
                      || String.eqb (join_space l) want
  end.

Definition is_tag (nm : string) (n : html) : bool :=
  match tag_name n with Some x => String.eqb x nm | None => false end.

(** [find('td', string=label)]: a falsy [string] argument is no
    constraint at all. *)
Definition td_with (label : string) (n : html) : bool :=
  is_tag "td" n &&
  (String.eqb label "" ||
   match tag_string n with Some s => String.eqb s label | None => false end).

(** [find('tr', class_='file', style=lambda x: x is None)] *)
Definition visible_file_row (n : html) : bool :=
  is_tag "tr" n && attr_matches (get_attr n "class") "file"
  && bool_decide (get_attr n "style" = None).

(** [find]: the first match in document order, [None] without one. *)
Definition find_first (P : html → bool) (l : list html) : option (nat * html) :=
  list_find (λ n, P n = true) l.

Definition str_of_attr (a : attr) : string :=
  match a with
  | AStr s => s
  | AList l => "[" +:+ join_space ((λ x, "'" +:+ x +:+ "',") <$> l) +:+ "]"
  end.

Definition nightly_url : string := "https://nightly.multitheftauto.com/".

Definition no_attribute (what : string) : exn :=
  AttributeError ("'NoneType' object has no attribute '" +:+ what +:+ "'").

(** [requests.get(url)] without streaming: the whole body is read before
    the call returns, so a broken transfer raises here. *)
Definition requests_get (E : env) (url : string) : M (Z * string) :=
  match http_get E url with
  | NoResponse e => raise e
  | Response st chunks (Some e) => raise e
  | Response st chunks None => mret (st, fold_right String.append "" chunks)
  end.

(** Lines 131-140: the chain of lookups from the label cell to the
    link.  [find] and [find_next] answer [None] when nothing matches, and
    the next call on that [None] raises. *)
Definition latest_href (label : string) (soup : html) : M string :=
  let elems := descendants soup in
  match find_first (td_with label) elems with
  | None => raise (no_attribute "find_next")
  | Some (i, td) =>
    match find_first (is_tag "table") (drop (S i) elems) with
    | None => raise (no_attribute "find")
    | Some (_, table) =>
      match find_first visible_file_row (descendants table) with
      | None => raise (no_attribute "find")
      | Some (_, tr) =>
        match find_first (is_tag "a") (descendants tr) with
        | None => raise (TypeError "'NoneType' object is not subscriptable")
        | Some (_, a) =>
          match get_attr a "href" with
          | None => raise (KeyError "'href'")
          | Some href => mret (str_of_attr href)
          end
        end
      end
    end
  end.

Definition found_message (P : profile) (final_url : string) : string :=
  nl +:+ "Latest nightly build found: " +:+ BUILD_STRING P +:+ " @ " +:+ final_url.

(** Lines 122-145. *)
Definition fetch_exe_url (E : env) (P : profile) : M string :=
  response ← requests_get E nightly_url;
  (if bool_decide (response.1 ≠ 200%Z) then
     print ("Error fetching the nightly builds page: Website responded with code "
            +:+ pretty response.1);;
     exit 1
   else mret tt);;
  let soup := html_parser E response.2 in
  href ← latest_href (BUILD_STRING P) soup;
  let final_url := nightly_url +:+ href in
  print (found_message P final_url);;
  mret final_url.

(** The rows of a table that carry the class [file], in document order. *)
Definition file_rows (table : html) : list html :=
  filter (λ n, is_tag "tr" n && attr_matches (get_attr n "class") "file" = true)
         (descendants table).

(** A row is styled when it has an inline [style] attribute at all. *)
Definition styled (n : html) : Prop := get_attr n "style" ≠ None.

Definition space : Ascii.ascii :=
  Ascii.Ascii false false false false false true false false.

Fixpoint strip_spaces (s : string) : string :=
  match s with
  | EmptyString => EmptyString
  | String c s' =>
      if Ascii.eqb c space then strip_spaces s' else String c (strip_spaces s')
  end.

(** A row is hidden, in the sense of the listing page, when its inline
    style says [display: none]. *)
Definition hidden (n : html) : bool :=
  match get_attr n "style" with
  | Some (AStr st) =>
      match String.index 0 "display:none" (strip_spaces st) with
      | Some _ => true
      | None => false
      end
  | _ => false
  end.

(** ** Strings and paths as the script handles them *)

Definition slash : Ascii.ascii :=
  Ascii.Ascii true true true true false true false false.

(** [s.split('/')] *)
Fixpoint split_slash (s : string) : list string :=
  match s with
  | EmptyString => [EmptyString]
  | String c s' =>
      if Ascii.eqb c slash then EmptyString :: split_slash s'
      else match split_slash s' with
           | h :: t => String c h :: t
           | [] => [String c EmptyString]
           end
  end.

(** [url.split('/')[-1]] *)
Definition last_segment (url : string) : string :=
  default "" (last (split_slash url)).

(** [s.endswith(suffix)]: some tail of [s] is [suffix]. *)
Fixpoint endswith (s suffix : string) : bool :=
  String.eqb s suffix ||
  match s with
  | EmptyString => false
  | String _ s' => endswith s' suffix
  end.

(** Walking one more component from a directory: the empty component
    and [.] stay, [..] goes up. *)
Definition step (d : path) (c : string) : path :=
  if String.eqb c "" || String.eqb c "." then d
  else if String.eqb c ".." then parent d
  else d ++ [c].

(** [os.path.join(d, s)] as the operating system resolves it, for a
    relative [s]. *)
Definition os_path_join (d : path) (s : string) : path :=
  foldl step d (split_slash s).

(** ** Writing to the disk *)

Definition no_such_file : exn := FileNotFoundError "No such file or directory".

(** What stands in the way of creating or opening [p] for writing: a
    missing or non-directory parent, or a directory at [p] itself. *)
Definition write_obstacle (f : filesystem) (p : path) : option exn :=
  match p with
  | [] => Some (IsADirectoryError "Is a directory")
  | _ =>
    match f !! parent p with
    | None => Some no_such_file
    | Some (File _) => Some (NotADirectoryError "Not a directory")
    | Some Dir =>
      match f !! p with
      | Some Dir => Some (IsADirectoryError "Is a directory")
      | _ => None
      end
    end
  end.

(** [open(p, 'wb')]: the file exists and is empty afterwards. *)
Definition open_wb (p : path) : M unit :=
  λ w, match write_obstacle (fs w) p with
       | Some e => (w, Raise e)
       | None => (World (<[p := File ""]> (fs w)) (out w), Ret tt)
       end.

(** [f.write(data)] on a file opened for writing or appending: the data
    goes to the end. *)
Definition write_more (p : path) (data : string) : M unit :=
  λ w, match fs w !! p with
       | Some (File old) => (World (<[p := File (old +:+ data)]> (fs w)) (out w), Ret tt)
       | _ => (w, Raise (OSError "Bad file descriptor"))
       end.

(** [open(p, 'a')]: the file is created empty when it is missing and
    kept as it is otherwise. *)
Definition open_a (p : path) : M unit :=
  λ w, match write_obstacle (fs w) p with
       | Some e => (w, Raise e)
       | None =>
         match fs w !! p with
         | Some _ => (w, Ret tt)
         | None => (World (<[p := File ""]> (fs w)) (out w), Ret tt)
         end
       end.

(** [os.mkdir(p)] *)
Definition os_mkdir (p : path) : M unit :=
  λ w, match fs w !! p with
       | Some _ => (w, Raise (FileExistsError "File exists"))
       | None =>
         match p with
         | [] => (w, Raise (FileExistsError "File exists"))
         | _ =>
           match fs w !! parent p with
           | None => (w, Raise no_such_file)
           | Some (File _) => (w, Raise (NotADirectoryError "Not a directory"))
           | Some Dir => (World (<[p := Dir]> (fs w)) (out w), Ret tt)
           end
         end
       end.

(** The ancestors of [p] from the root down, [p] excluded. *)
Definition ancestors (p : path) : list path :=
  (λ k, take k p) <$> seq 0 (length p).

(** [os.makedirs(p, exist_ok)]: every missing ancestor is created, then
    [p]; an existing [p] is an error unless [exist_ok] and it is a
    directory. *)
Definition os_makedirs (exist_ok : bool) (p : path) : M unit :=
  for_ (ancestors p) (λ a,
    e ← os_path_exists a;
    if e : bool then mret tt else os_mkdir a);;
  d ← os_path_isdir p;
  if exist_ok && d then mret tt else os_mkdir p.

(** ** Downloading (lines 147-160) *)

Definition prepare_updateinfo_folder (server_folder : path) : M path :=
  let updateinfo_folder := server_folder ++ ["updateinfo"] in
  e ← os_path_exists updateinfo_folder;
  (if e : bool then mret tt else os_makedirs false updateinfo_folder);;
  mret updateinfo_folder.

(** [r.raise_for_status()]: only the 4xx and 5xx codes raise. *)
Definition raise_for_status (status_code : Z) : M unit :=
  if bool_decide (400 ≤ status_code < 500)%Z then
    raise (HTTPError (pretty status_code +:+ " Client Error"))
  else if bool_decide (500 ≤ status_code < 600)%Z then
    raise (HTTPError (pretty status_code +:+ " Server Error"))
  else mret tt.

(** The file is opened once the status has been checked, and grows chunk
    by chunk (each at most 8192 bytes); a transfer that breaks raises
    after the chunks that arrived have been written. *)
Definition download_file (E : env) (url : string) (dest_folder : path) : M path :=
  let local_filename := os_path_join dest_folder (last_segment url) in
  match http_get E url with
  | NoResponse e => raise e
  | Response status_code chunks broken =>
      raise_for_status status_code;;
      open_wb local_filename;;
      for_ chunks (λ chunk, write_more local_filename chunk);;
      match broken with
      | Some e => raise e
      | None => mret local_filename
      end
  end.

(** ** Extracting (lines 162-180) *)

(** A path as the script prints it. *)
Definition show_path (p : path) : string :=
  fold_right (λ c acc, "/" +:+ c +:+ acc) "" p.

(** What one member of an archive does to the disk below [dest]: missing
    parent directories are made; a directory member is made with
    [os.mkdir], whose [FileExistsError] is swallowed, so that nothing
    happens where something has the name already; a file member is
    written over whatever file is there.  The member's name is taken as
    the components it shows: for a name with an empty component, [.] or
    [..], which [tarfile] resolves on the disk or refuses, this is not
    what happens, and what is proved of an extraction is proved for
    [plain_member]s. *)
Definition extract_member (dest : path) (m : path * node) : M unit :=
  let target := dest ++ m.1 in
  e ← os_path_exists (parent target);
  (if e : bool then mret tt else os_makedirs true (parent target));;
  match m.2 with
  | Dir =>
      e ← os_path_exists target;
      if e : bool then mret tt else os_mkdir target
  | File data => open_wb target;; write_more target data
  end.

(** [tarfile.open(file_path, 'r:gz')] *)
Definition tarfile_open (K : machine) (file_path : path) : M archive :=
  λ w, match fs w !! file_path with
       | None => (w, Raise no_such_file)
       | Some Dir => (w, Raise (IsADirectoryError "Is a directory"))
       | Some (File data) =>
         match untar_gz K data with
         | None => (w, Raise (ReadError "not a gzip file"))
         | Some members => (w, Ret members)
         end
       end.

(** [os.listdir(d)] *)
Definition os_listdir (K : machine) (d : path) : M (list string) :=
  λ w, match fs w !! d with
       | None => (w, Raise no_such_file)
       | Some (File _) => (w, Raise (NotADirectoryError "Not a directory"))
       | Some Dir => (w, Ret (listdir_order K (fs w) d))
       end.

(** [l[0]] *)
Definition first_item {A} (l : list A) : M A :=
  match l with
  | x :: _ => mret x
  | [] => raise (IndexError "list index out of range")
  end.

(** The disk with the entry [src] and everything below it moved to
    [dst], whatever was at or below [dst] being replaced. *)
Definition moved (f : filesystem) (src dst : path) : filesystem :=
  map_imap (λ q _,
      if bool_decide (dst `prefix_of` q) then f !! (src ++ drop (length dst) q)
      else if bool_decide (src `prefix_of` q) then None
      else f !! q)
    (gset_to_gmap () (dom f ∪ set_map (λ q, dst ++ drop (length src) q) (dom f))).

(** Whether directory [d] has any entry. *)
Definition is_empty_dir (f : filesystem) (d : path) : bool :=
  bool_decide (entries_of (λ _, true) f d = []).

(** [os.rename(src, dst)], as on Linux. *)
Definition os_rename (src dst : path) : M unit :=
  λ w,
    let f := fs w in
    match f !! src with
    | None => (w, Raise no_such_file)
    | Some s =>
      if bool_decide (src = dst) then (w, Ret tt)
      else if bool_decide (src `prefix_of` dst) then (w, Raise (OSError "Invalid argument"))
      else
        match dst with
        | [] => (w, Raise (OSError "Device or resource busy"))
        | _ =>
          match f !! parent dst with
          | None => (w, Raise no_such_file)
          | Some (File _) => (w, Raise (NotADirectoryError "Not a directory"))
          | Some Dir =>
            match s, f !! dst with
            | File _, Some Dir => (w, Raise (IsADirectoryError "Is a directory"))
            | Dir, Some (File _) => (w, Raise (NotADirectoryError "Not a directory"))
            | Dir, Some Dir =>
                if is_empty_dir f dst
                then (World (moved f src dst) (out w), Ret tt)
                else (w, Raise (OSError "Directory not empty"))
            | _, _ => (World (moved f src dst) (out w), Ret tt)
            end
          end
        end
    end.

(** [subprocess.run(..., check=True)]: whatever goes wrong inside the
    child process shows as a non-zero exit status. *)
Definition as_process (m : M unit) : M unit :=
  λ w, match m w with
       | (w', Raise _) =>
           (w', Raise (CalledProcessError "returned non-zero exit status 2."))
       | r => r
       end.

(** [7z x file_path server/* -o<dest_folder> -y]: the members at or
    below [server] are written, with their paths, over what is there. *)
Definition run_7z (K : machine) (file_path dest_folder : path) : M unit :=
  as_process (λ w,
    match fs w !! file_path with
    | Some (File data) =>
      match un7z K data with
      | Some members =>
          for_ (filter (λ m : path * node, ["server"] `prefix_of` m.1) members)
               (extract_member dest_folder) w
      | None => (w, Raise (OSError "Cannot open the file as archive"))
      end
    | _ => (w, Raise no_such_file)
    end).

Definition extract_files (K : machine) (file_path dest_folder : path) : M unit :=
  if endswith (basename file_path) ".exe" then
    (if has_7z K then mret tt
     else
       print "7z is required to extract the downloaded file. Please install 7z and add it to PATH.";;
       exit 1);;
    run_7z K file_path dest_folder
  else if endswith (basename file_path) ".tar.gz" then
    members ← tarfile_open K file_path;
    for_ members (extract_member dest_folder);;
    listing ← os_listdir K dest_folder;
    first ← first_item listing;
    let extracted_folder := dest_folder ++ [first] in
    os_rename extracted_folder (dest_folder ++ ["server"])
  else
    print ("Unsupported file format: " +:+ show_path file_path);;
    exit 1.

(** ** Installing (lines 182-204) *)

(** [shutil.copy2(src, dst)]: into the directory [dst] when it is one;
    the source is opened before the destination. *)
Definition shutil_copy2 (src dst : path) : M unit :=
  d ← os_path_isdir dst;
  let dst := if d : bool then dst ++ [basename src] else dst in
  f ← (λ w, (w, Ret (fs w)));
  match f !! src with
  | None => raise no_such_file
  | Some n =>
    if bool_decide (src = dst) then
      raise (SameFileError "are the same file")
    else
      match n with
      | Dir => raise (IsADirectoryError "Is a directory")
      | File data => open_wb dst;; write_more dst data
      end
  end.

(** [file.endswith(('.dll', '.so'))] *)
Definition is_library (file : string) : bool :=
  endswith file ".dll" || endswith file ".so".

(** [os.path.relpath(p, base)] for a [p] at or below [base]. *)
Definition relpath (p base : path) : path := drop (length base) p.

Definition update_server (P : profile) (updateinfo_folder server_folder : path) : M unit :=
  let source_folder := updateinfo_folder ++ ["server"] in
  let binaries_folder := os_path_join source_folder (SERVER_BINARIES_LOCATION P) in
  let server_exe := os_path_join source_folder (EXEC_FILE_NAME P) in
  let dest_binaries_folder := os_path_join server_folder (SERVER_BINARIES_LOCATION P) in
  triples ← os_walk binaries_folder;
  for_ triples (λ t : path * list string * list string,
    let '(root, dirs, files) := t in
    for_ files (λ file,
      if negb (is_library file) then mret tt
      else
        let src_file := root ++ [file] in
        let dest_file := dest_binaries_folder ++ relpath src_file binaries_folder in
        e ← os_path_exists (parent dest_file);
        (if e : bool then mret tt else os_makedirs false (parent dest_file));;
        shutil_copy2 src_file dest_file));;
  let dest_server_exe := os_path_join server_folder (EXEC_FILE_NAME P) in
  e ← os_path_exists dest_server_exe;
  (if e : bool then os_remove dest_server_exe else mret tt);;
  shutil_copy2 server_exe dest_server_exe.

(** ** Logging (lines 206-212) *)

Definition pad2 (n : N) : string :=
  if (n <? 10)%N then "0" +:+ pretty n else pretty n.

Definition pad4 (n : N) : string :=
  if (n <? 10)%N then "000" +:+ pretty n
  else if (n <? 100)%N then "00" +:+ pretty n
  else if (n <? 1000)%N then "0" +:+ pretty n
  else pretty n.

(** [strftime("%Y-%m-%d %H:%M:%S")] *)
Definition strftime (t : datetime) : string :=
  pad4 (year t) +:+ "-" +:+ pad2 (month t) +:+ "-" +:+ pad2 (day t) +:+ " "
  +:+ pad2 (hour t) +:+ ":" +:+ pad2 (minute t) +:+ ":" +:+ pad2 (second t).

Definition log_line (K : machine) (url : string) : string :=
  strftime (now K) +:+ " - Server updated with " +:+ last_segment url
  +:+ " | Python MTA Server Updater" +:+ nl.

Definition log_update (K : machine) (server_folder : path) (url : string) : M unit :=
  let log_file := server_folder ++ ["updates.log"] in
  open_a log_file;;
  write_more log_file (log_line K url).

(** ** The main run (lines 106-120 and 224-263) *)

(** How the system looks a typed path up: it walks the components on
    the disk, and every one of them -- the empty one, [.] and [..]
    included -- is searched in a directory.  A component that would be
    searched in a missing entry or in a regular file is not found,
    whatever follows it: [/srv/missing/..] leads nowhere although
    [/srv] is there. *)
Fixpoint resolve_from (f : filesystem) (d : path) (cs : list string) : option path :=
  match cs with
  | [] => Some d
  | c :: cs' =>
      match f !! d with
      | Some Dir => resolve_from f (step d c) cs'
      | _ => None
      end
  end.

(** The entry that a typed path names, if it names one: the walk starts
    at the root or at the working directory, and the place it ends at
    has to exist.  The empty string names nothing. *)
Definition locate (K : machine) (f : filesystem) (s : string) : option path :=
  match s with
  | String c _ =>
      p ← resolve_from f (if Ascii.eqb c slash then [] else cwd K) (split_slash s);
      if bool_decide (is_Some (f !! p)) then Some p else None
  | EmptyString => None
  end.

(** Where a typed path leads once the system has found its entry
    ([located_at] below): the place reached by going through the
    components as written, absolute or relative to the working
    directory. *)
Definition abspath (K : machine) (s : string) : path :=
  match s with
  | String c _ =>
      if Ascii.eqb c slash then foldl step [] (split_slash s)
      else foldl step (cwd K) (split_slash s)
  | EmptyString => cwd K
  end.

(** [os.path.exists(s)] on a typed path. *)
Definition exists_typed (K : machine) (s : string) : M bool :=
  λ w, (w, Ret (bool_decide (is_Some (locate K (fs w) s)))).

(** [input(prompt)] *)
Definition input (prompt : string) (answer : option string) : M string :=
  print prompt;;
  match answer with
  | Some s => mret s
  | None => raise (EOFError "EOF when reading a line")
  end.

Definition lower_char (c : Ascii.ascii) : Ascii.ascii :=
  let n := Ascii.nat_of_ascii c in
  if (65 <=? n)%nat && (n <=? 90)%nat then Ascii.ascii_of_nat (n + 32) else c.

(** [s.lower()], on ASCII. *)
Fixpoint lower (s : string) : string :=
  match s with
  | EmptyString => EmptyString
  | String c s' => String (lower_char c) (lower s')
  end.

Definition ask_for_server_folder (K : machine) (P : profile) : M path :=
  typed ← input (nl +:+ "Enter the server folder path, where MTA Server 64.exe is (leave empty to use current folder): ")
                (typed_folder K);
  let server_folder := if String.eqb typed "" then cwd K else abspath K typed in
  e ← (if String.eqb typed "" then os_path_exists (cwd K) else exists_typed K typed);
  (if e : bool then mret tt
   else print "That folder path does not exist.";; exit 1);;
  let server_exe := os_path_join server_folder (EXEC_FILE_NAME P) in
  e ← os_path_exists server_exe;
  (if e : bool then mret tt
   else
     print (nl +:+ EXEC_FILE_NAME P +:+ " not found in the specified folder. Are you sure you specified the right folder?");;
     answer ← input "   Type 'yes' to continue: " (typed_confirm K);
     if String.eqb (lower answer) "yes" then mret tt else exit 0);;
  mret server_folder.

Definition show_bool (b : bool) : string := if b then "True" else "False".

(** Lines 230-239: the folder named on the command line, or asked
    for. *)
Definition choose_server_folder (K : machine) (P : profile) (args : list string)
    : M path :=
  match args with
  | provided :: _ =>
    if String.eqb provided "" then ask_for_server_folder K P
    else
      e ← exists_typed K provided;
      (if e : bool then mret tt
       else
         print ("The provided server folder path does not exist: " +:+ provided);;
         exit 1);;
      print (nl +:+ "Using provided server folder: " +:+ provided);;
      mret (abspath K provided)
  | [] => ask_for_server_folder K P
  end.

(** Lines 248-260: from the download to the farewell. *)
Definition install_build (E : env) (K : machine) (P : profile)
    (server_folder : path) (url : string) (updateinfo_folder : path) : M unit :=
  print (nl +:+ "Downloading file...");;
  downloaded_file ← download_file E url updateinfo_folder;
  print (nl +:+ "Extracting the downloaded file...");;
  extract_files K downloaded_file updateinfo_folder;;
  update_server P updateinfo_folder server_folder;;
  log_update K server_folder url;;
  delete_folder updateinfo_folder;;
  print (nl +:+ "Server binaries were successfully updated. Bye!" +:+ nl).

(** The body of the [try]. *)
Definition main_body (E : env) (K : machine) (P : profile) (args : list string) : M unit :=
  print (nl +:+ "---- MTA Server Updater by Fernando ----");;
  print (nl +:+ "OS: " +:+ OS_SYSTEM (the_host E) +:+ " | 64-bit: "
         +:+ show_bool (IS_64_BIT (the_host E)) +:+ " | ARM: "
         +:+ show_bool (IS_ARM (the_host E)));;
  server_folder ← choose_server_folder K P args;
  print (nl +:+ "Beginning the update process...");;
  url ← fetch_exe_url E P;
  updateinfo_folder ← prepare_updateinfo_folder server_folder;
  clear_folder updateinfo_folder;;
  install_build E K P server_folder url updateinfo_folder.

(** [traceback.format_exc()]: the header, the stack frames (not
    modelled), then the exception's name and text. *)
Definition format_exc (e : exn) : string :=
  "Traceback (most recent call last):" +:+ nl
  +:+ exn_name e +:+ ": " +:+ exn_msg e +:+ nl.

(** [try: ... except Exception as e: print(traceback.format_exc())]:
    after the handler the script is over, with nothing left to run. *)
Definition main (E : env) (K : machine) (P : profile) (args : list string) : M unit :=
  λ w, match main_body E K P args w with
       | (w', Raise e) => print (format_exc e) w'
       | r => r
       end.

(** The whole script: the module-level code, then the main block. *)
Definition script (E : env) (K : machine) (args : list string) : M unit :=
  P ← module_init (the_host E);
  main E K P args.

(** The exit status of the interpreter: 0 when the script runs to its
    end, the argument of [exit], 1 for an exception nobody caught. *)
Definition exit_status {A} (o : outcome A) : Z :=
  match o with
  | Ret _ => 0
  | Exit code => code
  | Raise _ => 1
  end.

(** ** Sample listing pages *)

Definition cell (label : string) : html := Tag "td" ∅ [Text label].

Definition row (style : option string) (href : string) : html :=
  Tag "tr"
      (match style with
       | Some st => <["style" := AStr st]> {["class" := AList ["file"]]}
       | None => {["class" := AList ["file"]]}
       end)
      [Tag "td" ∅ [Tag "a" {["href" := AStr href]} [Text href]]].

Definition page (sections : list (string * list html)) : html :=
  Tag "[document]" ∅
    [Tag "table" ∅
       (flat_map (λ sec : string * list html,
                    [Tag "tr" ∅ [cell sec.1]; Tag "table" ∅ sec.2])
                 sections)].

(** A page with one superseded (hidden) build before the current one. *)
Definition page_current : html :=
  page [("Linux 64 bit server",
         [row (Some "display: none;") "multitheftauto_linux_x64-1.6-rc-22000.tar.gz";
          row None "multitheftauto_linux_x64-1.6-rc-22741.tar.gz"])].

(** A page whose current build row is highlighted with an inline style. *)
Definition page_highlighted : html :=
  page [("Linux 64 bit server",
         [row (Some "font-weight: bold;") "multitheftauto_linux_x64-1.6-rc-22741.tar.gz";
          row (Some "display: none;") "multitheftauto_linux_x64-1.6-rc-22000.tar.gz"])].

(** A page without the section of the platform. *)
Definition page_other : html :=
  page [("Windows 64 bit server", [row None "mtasa-1.6-rc-22741.exe"])].

Definition linux64 : host := Host "Linux" true false.

Definition linux64_profile : profile :=
  Profile "Linux 64 bit server" "mta-server64" "x64".

(** A web that serves one body at every URL, and a parser that knows the
    sample pages by their body. *)
Definition sample_parser (body : string) : html :=
  if String.eqb body "current" then page_current
  else if String.eqb body "highlighted" then page_highlighted
  else page_other.

Definition serving (body : string) : env :=
  Env linux64 (λ _, Response 200 [body] None) sample_parser.

(** ** Well-formed tarballs *)

(** An archive with the single top-level directory [top]: no path is
    stored twice, every member lies at or below [top], [top] itself is
    not a regular file, and no regular file is also the parent of a
    member. *)
Definition tar_ok (top : string) (members : archive) : Prop :=
  NoDup members.*1 ∧
  members ≠ [] ∧
  Forall (λ m : path * node,
            [top] `prefix_of` m.1 ∧
            (is_file m.2 = true → m.1 ≠ [top] ∧
               Forall (λ m' : path * node, m'.1 = m.1 ∨ ¬ m.1 `prefix_of` m'.1) members))
         members.

Global Instance tar_ok_dec top members : Decision (tar_ok top members).
Proof. unfold tar_ok. apply _. Defined.

(** The member paths that reach down to [rel] or below. *)
Definition covers (members : archive) (rel : path) : Prop :=
  Exists (λ m : path * node, rel `prefix_of` m.1) members.

(** What is at [q] once [members] have been unpacked below [dest] on the
    disk [f0]: at or above a member's place, the member's node, or a
    directory where only deeper members are stored; elsewhere what was
    there. *)
Definition unpacked (f0 : filesystem) (dest : path) (members : archive) (q : path)
    : option node :=
  if decide (dest `prefix_of` q ∧ drop (length dest) q ≠ []
             ∧ covers members (drop (length dest) q))
  then Some (default Dir ((list_to_map members : gmap path node)
                            !! drop (length dest) q))
  else f0 !! q.

(** ** The installer's loop, flattened *)

(** The components of the library folder below a server folder. *)
Definition loc_of (P : profile) : path :=
  os_path_join [] (SERVER_BINARIES_LOCATION P).

(** The library files that the walk of [binaries_folder] meets. *)
Definition lib_sources (f : filesystem) (binaries_folder : path) : list path :=
  if bool_decide (f !! binaries_folder = Some Dir)
  then filter (λ s, is_library (basename s) = true) (walk_files f binaries_folder)
  else [].

(** Lines 194-198, for one library file. *)
Definition copy_library (binaries_folder dest_binaries_folder src_file : path)
    : M unit :=
  let dest_file := dest_binaries_folder ++ relpath src_file binaries_folder in
  e ← os_path_exists (parent dest_file);
  (if e : bool then mret tt else os_makedirs false (parent dest_file));;
  shutil_copy2 src_file dest_file.

(** Lines 200-204. *)
Definition copy_executable (server_exe dest_server_exe : path) : M unit :=
  e ← os_path_exists dest_server_exe;
  (if e : bool then os_remove dest_server_exe else mret tt);;
  shutil_copy2 server_exe dest_server_exe.

(** ** The main run in three stages *)

(** Everything up to the announcement of the extraction: the chosen
    server folder, the URL, the staging folder and the downloaded file. *)
Definition reach_extraction (E : env) (K : machine) (P : profile) (args : list string)
    : M (path * string * path * path) :=
  print (nl +:+ "---- MTA Server Updater by Fernando ----");;
  print (nl +:+ "OS: " +:+ OS_SYSTEM (the_host E) +:+ " | 64-bit: "
         +:+ show_bool (IS_64_BIT (the_host E)) +:+ " | ARM: "
         +:+ show_bool (IS_ARM (the_host E)));;
  server_folder ← choose_server_folder K P args;
  print (nl +:+ "Beginning the update process...");;
  url ← fetch_exe_url E P;
  updateinfo_folder ← prepare_updateinfo_folder server_folder;
  clear_folder updateinfo_folder;;
  print (nl +:+ "Downloading file...");;
  downloaded_file ← download_file E url updateinfo_folder;
  print (nl +:+ "Extracting the downloaded file...");;
  mret (server_folder, url, updateinfo_folder, downloaded_file).

(** Everything after the extraction. *)
Definition finish_install (K : machine) (P : profile)
    (server_folder : path) (url : string) (updateinfo_folder : path) : M unit :=
  update_server P updateinfo_folder server_folder;;
  log_update K server_folder url;;
  delete_folder updateinfo_folder;;
  print (nl +:+ "Server binaries were successfully updated. Bye!" +:+ nl).

(** The text of the log before a run: empty when there is no log. *)
Definition log_text (o : option node) : string :=
  match o with
  | Some (File s) => s
  | _ => ""
  end.

(** ** The shape of a log line *)





(** The clock readings on which every platform's [%Y] prints four
    digits. *)
Definition valid_clock (t : datetime) : Prop :=
  (1000 ≤ year t < 10000)%N ∧ (month t < 100)%N ∧ (day t < 100)%N ∧
  (hour t < 100)%N ∧ (minute t < 100)%N ∧ (second t < 100)%N.

Global Instance valid_clock_dec t : Decision (valid_clock t).
Proof. unfold valid_clock. apply _. Defined.

(** ** What a call leaves alone *)

(** A call relates the disk before to the disk after by [R], however it
    ends. *)
Definition holds {A : Type} (R : filesystem → filesystem → Prop) (m : M A) : Prop :=
  ∀ w w' o, m w = (w', o) → R (fs w) (fs w').

(** The entry at [q] is the same on both disks. *)
Definition same_at (q : path) (f f' : filesystem) : Prop := f' !! q = f !! q.

(** The entry at [q] is kept: it is what it was, or a directory has been
    made where there was nothing. *)
Definition kept_at (q : path) (f f' : filesystem) : Prop :=
  f' !! q = f !! q ∨ (f !! q = None ∧ f' !! q = Some Dir).

(** A directory at [q] is still one. *)
Definition dir_at (q : path) (f f' : filesystem) : Prop :=
  f !! q = Some Dir → f' !! q = Some Dir.

(** The whole disk is the same. *)
Definition same_disk (f f' : filesystem) : Prop := f' = f.

(** What a call promises about the value it returns. *)
Definition returns {A : Type} (m : M A) (R : A → Prop) : Prop :=
  ∀ w w' a, m w = (w', Ret a) → R a.

(** ** A sample build and a sample machine *)

Definition build_22741 : archive :=
  [ (["multitheftauto_linux_x64-1.6-rc-22741"], Dir);
    (["multitheftauto_linux_x64-1.6-rc-22741"; "mta-server64"], File "ELF1");
    (["multitheftauto_linux_x64-1.6-rc-22741"; "x64"], Dir);
    (["multitheftauto_linux_x64-1.6-rc-22741"; "x64"; "a.so"], File "SO1");
    (["multitheftauto_linux_x64-1.6-rc-22741"; "x64"; "readme.txt"], File "hello") ].

(** The synthetic tarball of the round-trip test. *)
Definition build_xyz : archive :=
  [ (["buildXYZ"], Dir);
    (["buildXYZ"; "a.so"], File "SO1");
    (["buildXYZ"; "mta-server64"], File "ELF1") ].

(** The same files under a top-level directory already called
    [server]. *)
Definition build_server : archive :=
  [ (["server"], Dir);
    (["server"; "a.so"], File "SO1");
    (["server"; "mta-server64"], File "ELF1") ].

(** A codec that knows three files by their bytes. *)
Definition sample_untar (data : string) : option archive :=
  if String.eqb data "TGZ22741" then Some build_22741
  else if String.eqb data "TGZxyz" then Some build_xyz
  else if String.eqb data "TGZserver" then Some build_server
  else None.

(** A machine that lists directories before files. *)
Definition sample_machine : machine :=
  Machine ["srv"] false sample_untar (λ _, None)
          (λ f d, dirs_in f d ++ files_in f d)
          (DateTime 2024 10 10 9 5 0)
          None None.

(** The web of a good day: the listing page and the build behind its
    link, delivered in two chunks. *)
Definition sample_web (url : string) : http_result :=
  if String.eqb url nightly_url then Response 200 ["current"] None
  else if String.eqb url (nightly_url +:+ "multitheftauto_linux_x64-1.6-rc-22741.tar.gz")
  then Response 200 ["TGZ"; "22741"] None
  else Response 404 [] None.

Definition sample_env : env := Env linux64 sample_web sample_parser.

(** A server folder with an older build installed and no staging
    folder. *)
Definition installed_disk : filesystem :=
  list_to_map [
    ([], Dir);
    (["srv"], Dir);
    (["srv"; "config.xml"], File "<config/>");
    (["srv"; "mta-server64"], File "ELF0");
    (["srv"; "updates.log"], File "");
    (["srv"; "x64"], Dir);
    (["srv"; "x64"; "a.so"], File "SO0") ].

Definition installed_world : world := World installed_disk [].

(** ** Why a download fails *)

(** The ways in which [download_file] can meet an error, each with the
    exception and the world it leaves: no response, an error status, a
    local file that cannot be opened, a transfer that breaks. *)
Inductive download_fault (E : env) (url : string) (dest_folder : path)
    (w : world) : exn → world → Prop :=
  | fault_no_response e :
      http_get E url = NoResponse e →
      download_fault E url dest_folder w e w
  | fault_client st chunks broken :
      http_get E url = Response st chunks broken →
      (400 ≤ st < 500)%Z →
      download_fault E url dest_folder w
        (HTTPError (pretty st +:+ " Client Error")) w
  | fault_server st chunks broken :
      http_get E url = Response st chunks broken →
      (500 ≤ st < 600)%Z →
      download_fault E url dest_folder w
        (HTTPError (pretty st +:+ " Server Error")) w
  | fault_open st chunks broken e :
      http_get E url = Response st chunks broken →
      ¬ (400 ≤ st < 600)%Z →
      write_obstacle (fs w) (os_path_join dest_folder (last_segment url)) = Some e →
      download_fault E url dest_folder w e w
  | fault_broken st chunks e :
      http_get E url = Response st chunks (Some e) →
      ¬ (400 ≤ st < 600)%Z →
      write_obstacle (fs w) (os_path_join dest_folder (last_segment url)) = None →
      download_fault E url dest_folder w e
        (World (<[os_path_join dest_folder (last_segment url)
                  := File (fold_right String.append "" chunks)]> (fs w))
               (out w)).

(** A server that answers the build's URL with [304 Not Modified]. *)
Definition web_304 (url : string) : http_result :=
  if String.eqb url nightly_url then Response 200 ["current"] None
  else Response 304 [] None.

(** A disk with an empty staging folder and two tarballs kept
    elsewhere. *)
Definition fresh_disk : filesystem :=
  list_to_map [
    ([], Dir);
    (["dl"], Dir);
    (["dl"; "build.tar.gz"], File "TGZxyz");
    (["dl"; "server.tar.gz"], File "TGZserver");
    (["srv"], Dir);
    (["srv"; "updateinfo"], Dir) ].

(** A disk on which the tarball lies in the staging folder itself, as
    the main run leaves it after the download. *)
Definition downloaded_disk : filesystem :=
  list_to_map [
    ([], Dir);
    (["srv"], Dir);
    (["srv"; "updateinfo"], Dir);
    (["srv"; "updateinfo"; "build.tar.gz"], File "TGZxyz") ].

(** A machine that lists files before directories. *)
Definition files_first_machine : machine :=
  Machine ["srv"] false sample_untar (λ _, None)
          (λ f d, files_in f d ++ dirs_in f d)
          (DateTime 2024 10 10 9 5 0)
          None None.

(** A server folder with an older build installed and a newer one
    staged. *)
Definition staged_disk : filesystem :=
  list_to_map [
    ([], Dir);
    (["srv"], Dir);
    (["srv"; "config.xml"], File "<config/>");
    (["srv"; "mta-server64"], File "ELF0");
    (["srv"; "x64"], Dir);
    (["srv"; "x64"; "a.so"], File "SO0");
    (["srv"; "updateinfo"], Dir);
    (["srv"; "updateinfo"; "server"], Dir);
    (["srv"; "updateinfo"; "server"; "mta-server64"], File "ELF1");
    (["srv"; "updateinfo"; "server"; "x64"], Dir);
    (["srv"; "updateinfo"; "server"; "x64"; "a.so"], File "SO1");
    (["srv"; "updateinfo"; "server"; "x64"; "readme.txt"], File "hello") ].

(** ** A small disk to run the staging manager on *)

Definition demo_disk : filesystem :=
  list_to_map [
    ([], Dir);
    (["srv"], Dir);
    (["srv"; "config.xml"], File "<config/>");
    (["srv"; "updateinfo"], Dir);
    (["srv"; "updateinfo"; "old.tar.gz"], File "stale");
    (["srv"; "updateinfo"; "server"], Dir);
    (["srv"; "updateinfo"; "server"; "mta-server64"], File "ELF0");
    (["srv"; "updateinfo"; "server"; "x64"], Dir);
    (["srv"; "updateinfo"; "server"; "x64"; "a.so"], File "SO0") ].

Definition demo_world : world := World demo_disk [].

(** ** Further notions and samples *)

(** A host that reports a system other than Windows or Linux. *)
Definition darwin64 : host := Host "Darwin" true false.

(** The folder that the prompt stands for: the working directory for an
    empty answer, the typed path otherwise. *)
Definition asked_folder (K : machine) (typed : string) : path :=
  if String.eqb typed "" then cwd K else abspath K typed.

(** Whether the answer to the prompt names an entry of the disk: the
    working directory for an empty answer, what the system finds under
    the typed path otherwise. *)
Definition answer_found (K : machine) (f : filesystem) (typed : string) : Prop :=
  if String.eqb typed "" then is_Some (f !! cwd K) else is_Some (locate K f typed).

Global Instance answer_found_dec K f typed : Decision (answer_found K f typed).
Proof. unfold answer_found. destruct (String.eqb typed ""); apply _. Defined.

(** A user who names a folder without the executable and confirms in
    capitals. *)
Definition confirming_machine : machine :=
  Machine ["srv"] false sample_untar (λ _, None)
          (λ f d, dirs_in f d ++ files_in f d)
          (DateTime 2024 10 10 9 5 0)
          (Some "/srv/x64") (Some "YES").

(** A listing server in maintenance: its page comes with status 503. *)
Definition web_503 (url : string) : http_result :=
  Response 503 ["<html>maintenance</html>"] None.

(** What 7z finds in a Windows installer: the server tree beside the
    game client's files. *)
Definition installer_members : archive :=
  [ (["MTA"], Dir);
    (["MTA"; "cgui.dll"], File "GUI1");
    (["server"], Dir);
    (["server"; "MTA Server64.exe"], File "PE1");
    (["server"; "x64"], Dir);
    (["server"; "x64"; "core.dll"], File "DLL1");
    (["Multi Theft Auto.exe"], File "PE0") ].

(** A Windows machine with 7z installed. *)
Definition windows_machine : machine :=
  Machine ["srv"] true (λ _, None)
          (λ data, if String.eqb data "NSIS1" then Some installer_members else None)
          (λ f d, dirs_in f d ++ files_in f d)
          (DateTime 2024 10 10 9 5 0)
          None None.

(** The staging folder after the installer has been downloaded. *)
Definition installer_disk : filesystem :=
  list_to_map [
    ([], Dir);
    (["srv"], Dir);
    (["srv"; "updateinfo"], Dir);
    (["srv"; "updateinfo"; "mtasa-1.6-rc-22741-setup.exe"], File "NSIS1") ].

(** A member name as archives are expected to hold them: components
    that are names, none of them empty, [.] or [..], so that the member
    lands at that very path below the destination. *)
Definition plain_member (m : path * node) : Prop :=
  Forall (λ c, (c ∉ [""; "."; ".."]) ∧ split_slash c = [c]) m.1.

(** A machine whose archives have plain member names only. *)
Definition plain_archives (K : machine) : Prop :=
  ∀ data members,
    untar_gz K data = Some members ∨ un7z K data = Some members →
    Forall plain_member members.

(** A staged build without its executable, beside an installed older
    build. *)
Definition headless_disk : filesystem :=
  delete ["srv"; "updateinfo"; "server"; "mta-server64"] staged_disk.

(** Whenever the call ends in [exit], the code is one of [C]. *)
Definition exits_within {A : Type} (C : Z → Prop) (m : M A) : Prop :=
  ∀ w w' c, m w = (w', Exit c) → C c.

(** The server folder a run works on, when it gets that far: the first
    argument if there is a non-empty one, the answer to the prompt
    otherwise. *)
Definition chosen_folder (K : machine) (args : list string) : path :=
  match args with
  | provided :: _ =>
      if String.eqb provided "" then asked_folder K (default "" (typed_folder K))
      else abspath K provided
  | [] => asked_folder K (default "" (typed_folder K))
  end.

(** A build whose archive lacks the executable, the machine that can
    read it and the web that serves it. *)
Definition build_headless : archive :=
  [ (["multitheftauto_linux_x64-1.6-rc-22741"], Dir);
    (["multitheftauto_linux_x64-1.6-rc-22741"; "x64"], Dir);
    (["multitheftauto_linux_x64-1.6-rc-22741"; "x64"; "a.so"], File "SO1") ].

Definition headless_machine : machine :=
  Machine ["srv"] false
          (λ data, if String.eqb data "TGZheadless" then Some build_headless else None)
          (λ _, None)
          (λ f d, dirs_in f d ++ files_in f d)
          (DateTime 2024 10 10 9 5 0)
          None None.

Definition headless_web (url : string) : http_result :=
  if String.eqb url nightly_url then Response 200 ["current"] None
  else Response 200 ["TGZheadless"] None.

(** What is at [q], a path that is no library's place, once the
    libraries [srcs] have been copied from [binaries] to [dest]: a
    directory made on the way where there was nothing, and what was
    there otherwise. *)
Definition beside_libraries (f0 : filesystem) (binaries dest : path)
    (srcs : list path) (q : path) : option node :=
  if decide (f0 !! q = None
             ∧ Exists (λ s, q `prefix_of` dest ++ relpath s binaries) srcs)
  then Some Dir else f0 !! q.

(** A build staged beside a server folder that is still empty. *)
Definition first_install_disk : filesystem :=
  list_to_map [
    ([], Dir);
    (["srv"], Dir);
    (["srv"; "updateinfo"], Dir);
    (["srv"; "updateinfo"; "server"], Dir);
    (["srv"; "updateinfo"; "server"; "mta-server64"], File "ELF1");
    (["srv"; "updateinfo"; "server"; "x64"], Dir);
    (["srv"; "updateinfo"; "server"; "x64"; "a.so"], File "SO1");
    (["srv"; "updateinfo"; "server"; "x64"; "modules"], Dir);
    (["srv"; "updateinfo"; "server"; "x64"; "modules"; "b.so"], File "SO2");
    (["srv"; "updateinfo"; "server"; "x64"; "readme.txt"], File "hello") ].

(** A staging folder in which an earlier run has left the directories
    of its [server] tree, with the next build's tarball downloaded
    beside them. *)
Definition leftover_disk : filesystem :=
  list_to_map [
    ([], Dir);
    (["srv"], Dir);
    (["srv"; "updateinfo"], Dir);
    (["srv"; "updateinfo"; "build.tar.gz"], File "TGZxyz");
    (["srv"; "updateinfo"; "server"], Dir);
    (["srv"; "updateinfo"; "server"; "x64"], Dir) ].

(** A machine that lists directories in the opposite order. *)
Definition backwards_machine : machine :=
  Machine ["srv"] false sample_untar (λ _, None)
          (λ f d, reverse (dirs_in f d) ++ files_in f d)
          (DateTime 2024 10 10 9 5 0)
          None None.

(** * Theorems *)

Section platform_matrix.

(** The eight keys, each resolved on an arbitrary console and disk. *)
Lemma module_init_cases (h : host) (w : world) :
  module_init h w =
    if unsupported h
    then (World (fs w) (out w ++ ["This script is not compatible with your system (Windows 32 bit)."]),
          Exit 1)
    else (w, Ret (Profile (entry_str BUILD_STRINGS h) (entry_str EXEC_FILE_NAMES h)
                          (entry_str SERVER_BINARIES_LOCATIONS h))).
Proof.
  destruct h as [os b64 arm].
  unfold unsupported, entry_str, entry, module_init, lookup3, cpu_arch, os_name, cpu_bits.
  simpl.
  destruct arm, (String.eqb os "Windows"), b64; vm_compute; reflexivity.
Qed.

Lemma entry_nonempty (t : table) (h : host) :
  t = BUILD_STRINGS ∨ t = EXEC_FILE_NAMES ∨ t = SERVER_BINARIES_LOCATIONS →
  unsupported h = false → entry_str t h ≠ "".
Proof.
  destruct h as [os b64 arm].
  unfold unsupported, entry_str, entry, cpu_arch, os_name, cpu_bits. simpl.
  intros [-> | [-> | ->]] Hs;
    destruct arm, (String.eqb os "Windows"), b64; try discriminate Hs;
    vm_compute; discriminate.
Qed.

(** C5: for every host, module initialisation either resolves the three
    constants, none of them empty, or -- exactly for 32-bit ARM on
    Windows -- prints the incompatibility message and exits with code 1.
    It never raises (no [KeyError] from the two sparser tables). *)
Theorem platform_resolution_total (h : host) (w : world) :
  if unsupported h
  then ∃ msg, module_init h w = (World (fs w) (out w ++ [msg]), Exit 1)
  else ∃ p, module_init h w = (w, Ret p) ∧
            BUILD_STRING p ≠ "" ∧ EXEC_FILE_NAME p ≠ "" ∧
            SERVER_BINARIES_LOCATION p ≠ "".
Proof.
  rewrite module_init_cases. destruct (unsupported h) eqn:Hu.
  - eauto.
  - eexists. split; [done|]. simpl. split_and!; apply entry_nonempty; auto.
Qed.

End platform_matrix.

(** ** Running the monad *)

Section running.
Context {A B : Type}.
Implicit Types (m : M A) (k : A → M B) (w : world).

Lemma run_bind_ret m k w w' a :
  m w = (w', Ret a) → (m ≫= k) w = k a w'.
Proof. unfold mbind, M_bind. by intros ->. Qed.

Lemma run_bind_raise m k w w' e :
  m w = (w', Raise e) → (m ≫= k) w = (w', Raise e).
Proof. unfold mbind, M_bind. by intros ->. Qed.

Lemma run_bind_exit m k w w' c :
  m w = (w', Exit c) → (m ≫= k) w = (w', Exit c).
Proof. unfold mbind, M_bind. by intros ->. Qed.

Lemma run_bind_inv m k w w2 (b : B) :
  (m ≫= k) w = (w2, Ret b) →
  ∃ w1 a, m w = (w1, Ret a) ∧ k a w1 = (w2, Ret b).
Proof.
  unfold mbind, M_bind. destruct (m w) as [w1 [a|e|c]]; [eauto | done | done].
Qed.

End running.

(** One step of a run whose first call returns: [tac] proves what it
    returns. *)
Tactic Notation "run_ret" "by" tactic3(tac) :=
  erewrite run_bind_ret by tac; cbv beta iota.
Tactic Notation "run_raise" "by" tactic3(tac) :=
  erewrite run_bind_raise by tac; cbv beta iota.
Tactic Notation "run_exit" "by" tactic3(tac) :=
  erewrite run_bind_exit by tac; cbv beta iota.

Lemma run_bind_ext {A B} (m1 m2 : M A) (k1 k2 : A → M B) w :
  m1 w = m2 w → (∀ a w1, k1 a w1 = k2 a w1) → (m1 ≫= k1) w = (m2 ≫= k2) w.
Proof.
  intros Hm Hk. unfold mbind, M_bind. rewrite Hm.
  destruct (m2 w) as [w1 [a|e|c]]; [apply Hk | done | done].
Qed.

(** A run is given by its final world and its outcome. *)
Lemma run_outcome {A} (m : M A) w o : (m w).2 = o → m w = ((m w).1, o).
Proof. intros <-. apply surjective_pairing. Qed.

Lemma run_bind_assoc {A B C} (m : M A) (k : A → M B) (h : B → M C) w :
  ((m ≫= k) ≫= h) w = (m ≫= λ a, k a ≫= h) w.
Proof.
  unfold mbind, M_bind. by destruct (m w) as [w1 [a|e|c]].
Qed.

Lemma for_app {A} (xs ys : list A) (body : A → M unit) w :
  for_ (xs ++ ys) body w = (for_ xs body ;; for_ ys body) w.
Proof.
  revert w. induction xs as [|x xs IH]; intros w; simpl.
  - done.
  - unfold mbind, M_bind in *. destruct (body x w) as [w1 [[]|e|c]]; [|done..].
    apply IH.
Qed.

Lemma for_one {A} (x : A) (body : A → M unit) w : for_ [x] body w = body x w.
Proof.
  simpl. unfold mbind, M_bind. by destruct (body x w) as [w' [[]|e|c]].
Qed.

(** ** Listing directories *)

Section listing.
Implicit Types (f : filesystem) (p d top : path) (c : string).

Lemma parent_snoc p c : parent (p ++ [c]) = p.
Proof.
  unfold parent. rewrite length_app. simpl.
  replace (length p + 1 - 1)%nat with (length p) by lia.
  by rewrite take_app_length.
Qed.

Lemma elem_of_names f p c : is_Some (f !! (p ++ [c])) → c ∈ names f.
Proof.
  intros H. unfold names. apply elem_of_set_omap. exists (p ++ [c]).
  split; [by apply elem_of_dom | by rewrite last_snoc].
Qed.

Lemma elem_of_files_in f d c :
  c ∈ files_in f d ↔ ∃ data, f !! (d ++ [c]) = Some (File data).
Proof.
  unfold files_in, entries_of. rewrite list_elem_of_filter, elem_of_elements.
  split.
  - intros [H _]. destruct (f !! (d ++ [c])) as [[data|]|]; [eauto | done | done].
  - intros [data H]. split; [by rewrite H|]. eapply elem_of_names. eauto.
Qed.

Lemma NoDup_files_in f d : NoDup (files_in f d).
Proof. apply NoDup_filter, NoDup_elements. Qed.

Lemma elem_of_dirs_under f top d :
  d ∈ dirs_under f top ↔ f !! d = Some Dir ∧ top `prefix_of` d.
Proof.
  unfold dirs_under. rewrite list_elem_of_filter, elem_of_elements, elem_of_dom.
  split; [by intros [? _] | intros [Hd ?]; by rewrite Hd].
Qed.

Lemma NoDup_dirs_under f top : NoDup (dirs_under f top).
Proof. apply NoDup_filter, NoDup_elements. Qed.

Lemma elem_of_walk_files f top p :
  p ∈ walk_files f top ↔
  ∃ d c data, p = d ++ [c] ∧ f !! p = Some (File data) ∧
              f !! d = Some Dir ∧ top `prefix_of` d.
Proof.
  unfold walk_files. rewrite list_elem_of_bind. split.
  - intros (d & Hp & Hd). apply list_elem_of_fmap in Hp as (c & -> & Hc).
    apply elem_of_files_in in Hc as [data Hc].
    apply elem_of_dirs_under in Hd as [??]. by exists d, c, data.
  - intros (d & c & data & -> & Hf & Hd & Hpre). exists d. split.
    + apply list_elem_of_fmap. exists c. split; [done|].
      apply elem_of_files_in. eauto.
    + by apply elem_of_dirs_under.
Qed.

Lemma NoDup_walk_files f top : NoDup (walk_files f top).
Proof.
  unfold walk_files. apply NoDup_bind.
  - intros d1 d2 p _ _ H1 H2.
    apply list_elem_of_fmap in H1 as (c1 & -> & _).
    apply list_elem_of_fmap in H2 as (c2 & Heq & _).
    by apply app_inj_tail in Heq as [-> _].
  - intros d _. apply NoDup_fmap_2; [|apply NoDup_files_in].
    intros c1 c2 Heq. by apply app_inj_tail in Heq as [_ ->].
  - apply NoDup_dirs_under.
Qed.

End listing.

(** ** Clearing and deleting the staging folder *)

Section staging.
Implicit Types (f : filesystem) (p q folder : path) (w : world).

Lemma lookup_delete_all f ps q :
  delete_all f ps !! q = if decide (q ∈ ps) then None else f !! q.
Proof.
  unfold delete_all. revert f. induction ps as [|p ps IH]; intros f.
  - destruct (decide (q ∈ [])) as [H|H]; [by apply not_elem_of_nil in H | done].
  - cbn [foldl]. rewrite IH.
    destruct (decide (q ∈ ps)) as [Hin|Hin].
    + rewrite decide_True; [done | by apply list_elem_of_further].
    + destruct (decide (q = p)) as [->|Hne].
      * rewrite lookup_delete_eq, decide_True; [done | apply list_elem_of_here].
      * rewrite lookup_delete_ne, decide_False; [done | | done].
        intros [?|?]%elem_of_cons; done.
Qed.

(** Removing a duplicate-free list of regular files one by one succeeds
    and deletes exactly those files. *)
Lemma remove_files ps w :
  NoDup ps →
  (∀ p, p ∈ ps → ∃ data, fs w !! p = Some (File data)) →
  for_ ps os_remove w = (World (delete_all (fs w) ps) (out w), Ret tt).
Proof.
  revert w. induction ps as [|p ps IH]; intros [f o] Hnd Hfiles; simpl.
  - done.
  - apply NoDup_cons in Hnd as [Hnotin Hnd].
    destruct (Hfiles p) as [data Hp]; [apply list_elem_of_here|].
    simpl in Hp.
    erewrite run_bind_ret; last by (unfold os_remove; simpl; rewrite Hp).
    rewrite IH; [done | done |].
    intros q Hq. simpl. rewrite lookup_delete_ne by set_solver.
    apply Hfiles. by apply list_elem_of_further.
Qed.

(** The two nested loops of [clear_folder] remove the files of the walk. *)
Lemma clear_loops f ds w :
  for_ ((λ d, (d, dirs_in f d, files_in f d)) <$> ds)
       (λ t : path * list string * list string,
          let '(root, dirs, files) := t in
          for_ files (λ file, os_remove (root ++ [file]))) w
  = for_ (d ← ds; (λ c, d ++ [c]) <$> files_in f d) os_remove w.
Proof.
  revert w. induction ds as [|d ds IH]; intros w; [done|].
  simpl. rewrite for_app.
  assert (Hinner : ∀ cs w0, for_ cs (λ file, os_remove (d ++ [file])) w0
            = for_ ((λ c, d ++ [c]) <$> cs) os_remove w0).
  { induction cs as [|c cs IHc]; intros w0; [done|]. simpl.
    unfold mbind, M_bind. destruct (os_remove (d ++ [c]) w0) as [w1 [[]|e|x]];
      [apply IHc | done | done]. }
  unfold mbind, M_bind. rewrite Hinner.
  destruct (for_ _ os_remove w) as [w1 [[]|e|x]]; [apply IH | done | done].
Qed.

Lemma clear_folder_run folder w :
  fs w !! folder = Some Dir →
  clear_folder folder w
  = (World (delete_all (fs w) (walk_files (fs w) folder)) (out w), Ret tt).
Proof.
  intros Hdir.
  assert (He : bool_decide (is_Some (fs w !! folder)) = true)
    by (apply bool_decide_eq_true_2; rewrite Hdir; eauto).
  assert (Hd : bool_decide (fs w !! folder = Some Dir) = true)
    by by apply bool_decide_eq_true_2.
  unfold clear_folder.
  run_ret by (unfold os_path_exists; by rewrite He).
  run_ret by (unfold os_path_isdir; by rewrite Hd).
  run_ret by (unfold os_walk; by rewrite Hd).
  rewrite clear_loops. apply remove_files.
  - apply NoDup_walk_files.
  - intros p Hp. apply elem_of_walk_files in Hp as (? & ? & data & _ & ? & _).
    by exists data.
Qed.

Lemma not_a_folder_isdir folder w :
  fs w !! folder ≠ Some Dir →
  (e ← os_path_exists folder;
   if e : bool then os_path_isdir folder else mret false) w = (w, Ret false).
Proof.
  intros Hnd. unfold mbind, M_bind, os_path_exists, os_path_isdir, mret, M_ret.
  case_bool_decide; [|done]. by rewrite bool_decide_eq_false_2.
Qed.

End staging.

Section staging_claims.
Implicit Types (f : filesystem) (p q folder : path) (w : world).

Lemma wf_parent f p c : wf f → is_Some (f !! (p ++ [c])) → f !! p = Some Dir.
Proof.
  intros [_ Hall] [n Hn]. destruct (Hall _ _ Hn) as [Hnil|Hpar].
  - by destruct p.
  - by rewrite parent_snoc in Hpar.
Qed.

(** C9: on an existing staging directory, [clear_folder] returns
    normally, prints nothing, removes every regular file at any depth
    below the directory, and keeps the directory itself and every
    subdirectory; nothing outside the directory changes and the disk
    stays well formed. *)
Theorem clear_folder_removes_all_files w folder :
  wf (fs w) →
  fs w !! folder = Some Dir →
  ∃ f', clear_folder folder w = (World f' (out w), Ret tt) ∧
        f' !! folder = Some Dir ∧
        (∀ p data, folder `prefix_of` p → f' !! p ≠ Some (File data)) ∧
        (∀ p, fs w !! p = Some Dir → f' !! p = Some Dir) ∧
        (∀ p, ¬ folder `prefix_of` p → f' !! p = fs w !! p) ∧
        wf f'.
Proof.
  intros Hwf Hdir. eexists. split; [by apply clear_folder_run|].
  set (ps := walk_files (fs w) folder).
  assert (Hdirs : ∀ p, fs w !! p = Some Dir → delete_all (fs w) ps !! p = Some Dir).
  { intros p Hp. rewrite lookup_delete_all. case_decide as Hin; [|done].
    apply elem_of_walk_files in Hin as (d & c & data & -> & Hf & _). congruence. }
  split_and!.
  - by apply Hdirs.
  - intros p data Hpre. rewrite lookup_delete_all. case_decide as Hin; [done|].
    intros Hf. apply Hin, elem_of_walk_files.
    destruct (decide (p = folder)) as [->|Hne]; [congruence|].
    destruct p as [|c0 p0] using rev_ind; [by apply prefix_nil_inv in Hpre; subst|].
    clear IHp0. exists p0, c0, data. split_and!; [done | done | |].
    + eapply wf_parent; [done | by rewrite Hf].
    + destruct Hpre as [k Hk]. destruct k as [|ck k] using rev_ind.
      * rewrite app_nil_r in Hk. done.
      * clear IHk. rewrite app_assoc in Hk. apply app_inj_tail in Hk as [-> _].
        by apply prefix_app_r.
  - done.
  - intros p Hpre. rewrite lookup_delete_all. case_decide as Hin; [|done].
    apply elem_of_walk_files in Hin as (d & c & data & -> & _ & _ & Hd).
    exfalso. apply Hpre. by apply prefix_app_r.
  - split; [apply Hdirs, Hwf|].
    intros p n Hp. rewrite lookup_delete_all in Hp. case_decide; [done|].
    destruct Hwf as [_ Hall]. destruct (Hall _ _ Hp) as [?|?]; [by left|].
    right. by apply Hdirs.
Qed.

(** C10: on a path that does not exist, or that is not a directory,
    [clear_folder] and [delete_folder] return normally and change
    neither the disk nor the console. *)
Theorem staging_noop_without_directory w folder :
  fs w !! folder ≠ Some Dir →
  clear_folder folder w = (w, Ret tt) ∧ delete_folder folder w = (w, Ret tt).
Proof.
  intros Hnd. unfold clear_folder, delete_folder.
  pose proof (not_a_folder_isdir folder w Hnd) as Hrun.
  unfold mbind at 1 3, M_bind at 1 3.
  unfold os_path_exists, os_path_isdir, mbind, M_bind, mret, M_ret in *.
  by case_bool_decide; [rewrite bool_decide_eq_false_2 by done|].
Qed.

Lemma clear_folder_removes_all_files_witness :
  ∃ f', clear_folder ["srv"; "updateinfo"] demo_world = (World f' [], Ret tt) ∧
        f' !! ["srv"; "updateinfo"] = Some Dir ∧
        (∀ p data, ["srv"; "updateinfo"] `prefix_of` p → f' !! p ≠ Some (File data)) ∧
        (∀ p, demo_disk !! p = Some Dir → f' !! p = Some Dir) ∧
        (∀ p, ¬ ["srv"; "updateinfo"] `prefix_of` p → f' !! p = demo_disk !! p) ∧
        wf f'.
Proof.
  apply (clear_folder_removes_all_files demo_world ["srv"; "updateinfo"]).
  - apply (bool_decide_unpack _). vm_compute. reflexivity.
  - vm_compute. reflexivity.
Defined.

Lemma staging_noop_without_directory_witness :
  clear_folder ["srv"; "config.xml"] demo_world = (demo_world, Ret tt) ∧
  delete_folder ["srv"; "config.xml"] demo_world = (demo_world, Ret tt).
Proof.
  apply (staging_noop_without_directory demo_world ["srv"; "config.xml"]).
  vm_compute. discriminate.
Defined.

End staging_claims.

(** ** Finding the latest build on the listing page *)

Section listing_page.
Implicit Types (E : env) (P : profile) (w : world) (n r a table : html).

(** The chain of lookups reads the document only: it returns or raises,
    and leaves disk and console alone. *)
Lemma latest_href_pure label soup :
  ∃ o : outcome string, (∀ c, o ≠ Exit c) ∧ ∀ w, latest_href label soup w = (w, o).
Proof.
  unfold latest_href.
  repeat (match goal with
          | |- context [match ?x with _ => _ end] => destruct x as [[??]|]
          end;
          [|eexists; split; [|intros w; reflexivity]; done]).
  destruct (get_attr _ _); (eexists; split; [|intros w; reflexivity]; done).
Qed.

(** With the page served, the function is the lookup chain followed by
    the report of what it found. *)
Lemma fetch_exe_url_served E P w chunks :
  http_get E nightly_url = Response 200 chunks None →
  fetch_exe_url E P w =
    (href ← latest_href (BUILD_STRING P)
              (html_parser E (fold_right String.append "" chunks));
     print (found_message P (nightly_url +:+ href));;
     mret (nightly_url +:+ href)) w.
Proof.
  intros Hget. unfold fetch_exe_url.
  run_ret by (unfold requests_get; rewrite Hget; reflexivity).
  simpl. run_ret by reflexivity. reflexivity.
Qed.

Lemma fetch_exe_url_raises E P w chunks e :
  http_get E nightly_url = Response 200 chunks None →
  latest_href (BUILD_STRING P)
     (html_parser E (fold_right String.append "" chunks)) w = (w, Raise e) →
  fetch_exe_url E P w = (w, Raise e).
Proof.
  intros Hget Hraise. rewrite (fetch_exe_url_served _ _ _ _ Hget).
  by run_raise by exact Hraise.
Qed.

Lemma find_first_None (Q : html → bool) l :
  find_first Q l = None ↔ Forall (λ n, Q n = false) l.
Proof.
  unfold find_first. rewrite list_find_None. apply Forall_proper; [|done].
  intros n. by destruct (Q n).
Qed.

Lemma find_first_cons (Q : html → bool) y l :
  find_first Q (y :: l)
  = if Q y then Some (0%nat, y) else prod_map S id <$> find_first Q l.
Proof.
  unfold find_first. cbn [list_find]. destruct (Q y); by case_decide.
Qed.

(** Finding the first element with two properties, seen through the
    sublist of the elements with the first one. *)
Lemma find_first_filter (Q1 Q2 : html → bool) l k x :
  find_first (λ n, Q1 n && Q2 n) l = Some (k, x) →
  ∃ before after,
    filter (λ n, Q1 n = true) l = before ++ x :: after ∧
    Forall (λ n, Q2 n = false) before ∧ Q1 x = true ∧ Q2 x = true.
Proof.
  revert k. induction l as [|y l IH]; intros k; [done|].
  rewrite find_first_cons. destruct (Q1 y) eqn:Hq1, (Q2 y) eqn:Hq2; simpl.
  - intros [= <- <-]. exists [], (filter (λ n, Q1 n = true) l).
    by rewrite filter_cons_True.
  - destruct (find_first _ l) as [[k' x']|]; [|done]. intros [= <- <-].
    destruct (IH _ eq_refl) as (before & after & Hf & Hb & H1 & H2).
    exists (y :: before), after. rewrite filter_cons_True, Hf by done.
    split_and!; [done | by constructor | done | done].
  - destruct (find_first _ l) as [[k' x']|]; [|done]. intros [= <- <-].
    destruct (IH _ eq_refl) as (before & after & Hf & Hb & H1 & H2).
    exists before, after. by rewrite filter_cons_False by congruence.
  - destruct (find_first _ l) as [[k' x']|]; [|done]. intros [= <- <-].
    destruct (IH _ eq_refl) as (before & after & Hf & Hb & H1 & H2).
    exists before, after. by rewrite filter_cons_False by congruence.
Qed.

Lemma filter_find_first (Q1 Q2 : html → bool) l before x after :
  filter (λ n, Q1 n = true) l = before ++ x :: after →
  Forall (λ n, Q2 n = false) before → Q2 x = true →
  ∃ k, find_first (λ n, Q1 n && Q2 n) l = Some (k, x).
Proof.
  revert before. induction l as [|y l IH]; intros before.
  - by destruct before.
  - rewrite find_first_cons. destruct (Q1 y) eqn:Hq1; simpl.
    + rewrite filter_cons_True by done. destruct before as [|b before].
      * intros [= -> Hf] _ H2. rewrite H2. eauto.
      * intros [= -> Hf] [Hb Hrest]%Forall_cons H2. rewrite Hb.
        destruct (IH _ Hf Hrest H2) as [k ->]. simpl. eauto.
    + rewrite filter_cons_False by congruence. intros Hf Hb H2.
      destruct (IH _ Hf Hb H2) as [k ->]. simpl. eauto.
Qed.

Lemma visible_file_row_split n :
  visible_file_row n
  = (is_tag "tr" n && attr_matches (get_attr n "class") "file")
    && bool_decide (get_attr n "style" = None).
Proof. done. Qed.

Lemma hidden_styled n : hidden n = true → styled n.
Proof. unfold hidden, styled. by destruct (get_attr n "style"). Qed.

(** C2, as the code has it: when the page is served but the label cell,
    the table after it, an unstyled file row, the row's link or the
    link's [href] is missing, [fetch_exe_url] raises -- [AttributeError]
    for the first three, [TypeError] for the link, [KeyError] for the
    [href] -- with disk and console as they were and no URL returned. *)
Theorem listing_absence_raises E P w chunks :
  http_get E nightly_url = Response 200 chunks None →
  let elems := descendants (html_parser E (fold_right String.append "" chunks)) in
  (Forall (λ n, td_with (BUILD_STRING P) n = false) elems →
   fetch_exe_url E P w = (w, Raise (no_attribute "find_next"))) ∧
  (∀ i td, find_first (td_with (BUILD_STRING P)) elems = Some (i, td) →
   (Forall (λ n, is_tag "table" n = false) (drop (S i) elems) →
    fetch_exe_url E P w = (w, Raise (no_attribute "find"))) ∧
   (∀ j table, find_first (is_tag "table") (drop (S i) elems) = Some (j, table) →
    (Forall (λ n, visible_file_row n = false) (descendants table) →
     fetch_exe_url E P w = (w, Raise (no_attribute "find"))) ∧
    (∀ k tr, find_first visible_file_row (descendants table) = Some (k, tr) →
     (Forall (λ n, is_tag "a" n = false) (descendants tr) →
      fetch_exe_url E P w
      = (w, Raise (TypeError "'NoneType' object is not subscriptable"))) ∧
     (∀ m a, find_first (is_tag "a") (descendants tr) = Some (m, a) →
      get_attr a "href" = None →
      fetch_exe_url E P w = (w, Raise (KeyError "'href'")))))).
Proof.
  intros Hget elems. split.
  { intros Hno%find_first_None. apply (fetch_exe_url_raises _ _ _ _ _ Hget).
    unfold latest_href. fold elems. by rewrite Hno. }
  intros i td Htd. split.
  { intros Hno%find_first_None. apply (fetch_exe_url_raises _ _ _ _ _ Hget).
    unfold latest_href. fold elems. by rewrite Htd, Hno. }
  intros j table Htable. split.
  { intros Hno%find_first_None. apply (fetch_exe_url_raises _ _ _ _ _ Hget).
    unfold latest_href. fold elems. by rewrite Htd, Htable, Hno. }
  intros k tr Htr. split.
  { intros Hno%find_first_None. apply (fetch_exe_url_raises _ _ _ _ _ Hget).
    unfold latest_href. fold elems. by rewrite Htd, Htable, Htr, Hno. }
  intros m a Ha Hhref. apply (fetch_exe_url_raises _ _ _ _ _ Hget).
  unfold latest_href. fold elems. by rewrite Htd, Htable, Htr, Ha, Hhref.
Qed.

Lemma listing_absence_raises_witness :
  fetch_exe_url (serving "other") linux64_profile demo_world
  = (demo_world, Raise (no_attribute "find_next")).
Proof.
  apply (listing_absence_raises (serving "other") linux64_profile demo_world ["other"]).
  - reflexivity.
  - apply (bool_decide_unpack _). vm_compute. reflexivity.
Defined.

(** C2 as stated fails: on a page without the platform's section the
    function does not return an outcome at all, it raises. *)
Lemma missing_section_is_raised :
  Forall (λ n, td_with "Linux 64 bit server" n = false) (descendants page_other) ∧
  ∀ r : string,
    (fetch_exe_url (serving "other") linux64_profile demo_world).2 ≠ Ret r.
Proof.
  split.
  - apply (bool_decide_unpack _). vm_compute. reflexivity.
  - intros r. vm_compute. discriminate.
Qed.

(** X30: which row [fetch_exe_url] takes.  Below the table that follows
    the label cell, the row chosen is the first file row without any
    inline [style] attribute, and the URL returned is built from the
    first link of that row; a URL that is returned never comes from a
    styled row, hence never from a hidden one. *)
Theorem first_unstyled_file_row_selected E P w chunks i td j table :
  http_get E nightly_url = Response 200 chunks None →
  let elems := descendants (html_parser E (fold_right String.append "" chunks)) in
  find_first (td_with (BUILD_STRING P)) elems = Some (i, td) →
  find_first (is_tag "table") (drop (S i) elems) = Some (j, table) →
  (∀ before r after m a href,
     file_rows table = before ++ r :: after →
     Forall styled before → ¬ styled r →
     find_first (is_tag "a") (descendants r) = Some (m, a) →
     get_attr a "href" = Some href →
     fetch_exe_url E P w
     = (World (fs w) (out w ++ [found_message P (nightly_url +:+ str_of_attr href)]),
        Ret (nightly_url +:+ str_of_attr href))) ∧
  (∀ w' url, fetch_exe_url E P w = (w', Ret url) →
     ∃ r m a href,
       r ∈ file_rows table ∧ ¬ styled r ∧ hidden r = false ∧
       find_first (is_tag "a") (descendants r) = Some (m, a) ∧
       get_attr a "href" = Some href ∧
       url = nightly_url +:+ str_of_attr href).
Proof.
  intros Hget elems Htd Htable. split.
  - intros before r after m a href Hrows Hbefore Hr Ha Hhref.
    destruct (filter_find_first
                (λ n, is_tag "tr" n && attr_matches (get_attr n "class") "file")
                (λ n, bool_decide (get_attr n "style" = None))
                (descendants table) before r after) as [k Hk].
    + exact Hrows.
    + eapply Forall_impl; [exact Hbefore|]. intros n Hn. by apply bool_decide_eq_false_2.
    + apply bool_decide_eq_true_2. unfold styled in Hr. by destruct (get_attr r "style"); [destruct Hr|].
    + rewrite (fetch_exe_url_served _ _ _ _ Hget).
      run_ret by (unfold latest_href; fold elems;
                  rewrite Htd, Htable; unfold visible_file_row; rewrite Hk, Ha, Hhref;
                  reflexivity).
      reflexivity.
  - intros w' url. rewrite (fetch_exe_url_served _ _ _ _ Hget).
    intros (w1 & href & Hrun & Hrest)%run_bind_inv.
    unfold latest_href in Hrun. fold elems in Hrun. rewrite Htd, Htable in Hrun.
    destruct (find_first visible_file_row (descendants table)) as [[k r]|] eqn:Hrow;
      [|done].
    destruct (find_first (is_tag "a") (descendants r)) as [[m a]|] eqn:Ha; [|done].
    destruct (get_attr a "href") as [h|] eqn:Hh; [|done].
    injection Hrun as <- <-.
    apply find_first_filter in Hrow as (before & after & Hrows & _ & _ & Hst).
    apply bool_decide_eq_true_1 in Hst.
    exists r, m, a, h. split_and!; try done.
    + unfold file_rows. rewrite Hrows. apply elem_of_app. right. apply list_elem_of_here.
    + unfold styled. rewrite Hst. intros Hne. by apply Hne.
    + unfold hidden. by rewrite Hst.
    + unfold mbind, M_bind, print, mret, M_ret in Hrest. by injection Hrest as _ <-.
Qed.

Lemma first_unstyled_file_row_selected_witness :
  fetch_exe_url (serving "current") linux64_profile demo_world
  = (World demo_disk
       [found_message linux64_profile
          (nightly_url +:+ "multitheftauto_linux_x64-1.6-rc-22741.tar.gz")],
     Ret (nightly_url +:+ "multitheftauto_linux_x64-1.6-rc-22741.tar.gz")).
Proof.
  pose (old := row (Some "display: none;") "multitheftauto_linux_x64-1.6-rc-22000.tar.gz").
  pose (new := row None "multitheftauto_linux_x64-1.6-rc-22741.tar.gz").
  pose (link := Tag "a" {["href" := AStr "multitheftauto_linux_x64-1.6-rc-22741.tar.gz"]}
                    [Text "multitheftauto_linux_x64-1.6-rc-22741.tar.gz"]).
  refine (proj1 (first_unstyled_file_row_selected
                   (serving "current") linux64_profile demo_world ["current"]
                   2%nat (cell "Linux 64 bit server") 1%nat (Tag "table" ∅ [old; new])
                   _ _ _)
                [old] new [] 1%nat link
                (AStr "multitheftauto_linux_x64-1.6-rc-22741.tar.gz") _ _ _ _ _).
  - reflexivity.
  - vm_compute. reflexivity.
  - vm_compute. reflexivity.
  - vm_compute. reflexivity.
  - repeat constructor. vm_compute. discriminate.
  - vm_compute. intros Hne. by apply Hne.
  - vm_compute. reflexivity.
  - vm_compute. reflexivity.
Defined.

(** C6, evaluated: the comment of line 135 asks for the first file row
    without [display: none], line 136 for the first one without any
    [style] attribute.  On a page with one visible file row, highlighted
    by an inline style, and one hidden row, the visible row is passed
    over like the hidden one and, with no unstyled row left, the
    function raises instead of returning the visible row's link. *)
Lemma highlighted_row_not_selected :
  hidden <$> file_rows page_highlighted = [false; true] ∧
  (fetch_exe_url (serving "highlighted") linux64_profile demo_world).2
  = Raise (no_attribute "find").
Proof. split; vm_compute; reflexivity. Qed.

End listing_page.

(** ** The top-level handler *)

Section top_level.
Implicit Types (E : env) (K : machine) (P : profile) (w : world).

(** Whatever is raised inside the [try] is printed as a traceback, and
    the script then ends normally. *)
Lemma main_catches E K P args w w' e :
  main_body E K P args w = (w', Raise e) →
  main E K P args w = (World (fs w') (out w' ++ [format_exc e]), Ret tt).
Proof. unfold main. by intros ->. Qed.

Lemma main_exit E K P args w w' c :
  main_body E K P args w = (w', Exit c) →
  main E K P args w = (w', Exit c).
Proof. unfold main. by intros ->. Qed.

(** C1, evaluated: on a listing page without the platform's section the
    lookup raises [AttributeError]; the handler prints the traceback with
    the fault's name and text, and the script ends with status 0. *)
Theorem caught_fault_exit_status :
  let r := script (serving "other") sample_machine ["/srv"] installed_world in
  (main_body (serving "other") sample_machine linux64_profile ["/srv"]
             installed_world).2 = Raise (no_attribute "find_next") ∧
  last (out r.1) = Some (format_exc (no_attribute "find_next")) ∧
  fs r.1 = installed_disk ∧
  exit_status r.2 = 0%Z.
Proof.
  cbv zeta. split; [|split; [|split]].
  - vm_compute. reflexivity.
  - vm_compute. reflexivity.
  - apply (bool_decide_unpack _). vm_compute. reflexivity.
  - vm_compute. reflexivity.
Qed.

End top_level.

(** ** Downloading the build *)

Section downloading.
Implicit Types (E : env) (K : machine) (P : profile) (w : world) (p : path).

Lemma append_assoc (a b c : string) : (a +:+ b) +:+ c = a +:+ (b +:+ c).
Proof.
  induction a as [|x a IH]; [done|].
  change (String x ((a +:+ b) +:+ c) = String x (a +:+ (b +:+ c))). by rewrite IH.
Qed.

Lemma append_empty_r (a : string) : a +:+ "" = a.
Proof.
  induction a as [|x a IH]; [done|].
  change (String x (a +:+ "") = String x a). by rewrite IH.
Qed.

(** Writing chunk after chunk leaves their concatenation at the end of
    the file. *)
Lemma write_chunks p chunks w old :
  fs w !! p = Some (File old) →
  for_ chunks (write_more p) w
  = (World (<[p := File (old +:+ fold_right String.append "" chunks)]> (fs w))
           (out w), Ret tt).
Proof.
  revert w old. induction chunks as [|c chunks IH]; intros [f o] old Hp; simpl in *.
  - rewrite append_empty_r, insert_id by done. done.
  - run_ret by (unfold write_more; simpl; rewrite Hp; reflexivity).
    rewrite (IH _ (old +:+ c)) by (simpl; apply lookup_insert_eq).
    simpl. by rewrite insert_insert_eq, append_assoc.
Qed.

Lemma raise_for_status_ok st w :
  ¬ (400 ≤ st < 600)%Z → raise_for_status st w = (w, Ret tt).
Proof.
  intros Hst. unfold raise_for_status.
  rewrite !bool_decide_eq_false_2 by lia. done.
Qed.

(** Every cause of failure makes the function raise. *)
Lemma download_fault_raises E url dest w e w' :
  download_fault E url dest w e w' →
  download_file E url dest w = (w', Raise e).
Proof.
  unfold download_file.
  destruct 1 as [e Hget | st chunks broken Hget Hst | st chunks broken Hget Hst
                | st chunks broken e Hget Hst Hobs | st chunks e Hget Hst Hobs];
    rewrite Hget.
  - done.
  - run_raise by (unfold raise_for_status; rewrite bool_decide_eq_true_2 by done;
                  reflexivity).
    done.
  - run_raise by (unfold raise_for_status; rewrite bool_decide_eq_false_2 by lia;
                  rewrite bool_decide_eq_true_2 by done; reflexivity).
    done.
  - run_ret by (by apply raise_for_status_ok).
    run_raise by (unfold open_wb; rewrite Hobs; reflexivity).
    done.
  - run_ret by (by apply raise_for_status_ok).
    run_ret by (unfold open_wb; rewrite Hobs; reflexivity).
    run_ret by (apply write_chunks with (old := ""); simpl; apply lookup_insert_eq).
    simpl. by rewrite insert_insert_eq.
Qed.

(** And it raises for no other reason: in particular not for a status
    outside 400-599. *)
Lemma download_raises_fault E url dest w e w' :
  download_file E url dest w = (w', Raise e) →
  download_fault E url dest w e w'.
Proof.
  unfold download_file. destruct (http_get E url) as [st chunks broken|e0] eqn:Hget.
  - destruct (decide (400 ≤ st < 500)%Z) as [Hc|Hc].
    { run_raise by (unfold raise_for_status; rewrite bool_decide_eq_true_2 by done;
                    reflexivity).
      intros [= <- <-]. by eapply fault_client. }
    destruct (decide (500 ≤ st < 600)%Z) as [Hs|Hs].
    { run_raise by (unfold raise_for_status; rewrite bool_decide_eq_false_2 by done;
                    rewrite bool_decide_eq_true_2 by done; reflexivity).
      intros [= <- <-]. by eapply fault_server. }
    assert (Hst : ¬ (400 ≤ st < 600)%Z) by lia.
    run_ret by (by apply raise_for_status_ok).
    destruct (write_obstacle (fs w) (os_path_join dest (last_segment url)))
      as [e1|] eqn:Hobs.
    { run_raise by (unfold open_wb; rewrite Hobs; reflexivity).
      intros [= <- <-]. by eapply fault_open. }
    run_ret by (unfold open_wb; rewrite Hobs; reflexivity).
    run_ret by (apply write_chunks with (old := ""); simpl; apply lookup_insert_eq).
    simpl. rewrite insert_insert_eq. destruct broken as [e1|]; [|done].
    intros [= <- <-]. by eapply fault_broken.
  - intros [= <- <-]. by apply fault_no_response.
Qed.

(** C8, as the code has it: a download that gets no response, a 4xx or
    5xx status, cannot open its local file, or breaks off, raises; and
    once it has raised, the rest of the run -- extraction, installation,
    log entry, cleanup, farewell -- does not happen: the run ends at
    the world the download left, with that exception. *)
Theorem failed_download_stops_the_run E K P server_folder url dest w e w' :
  download_fault E url dest (print (nl +:+ "Downloading file...") w).1 e w' →
  download_file E url dest (print (nl +:+ "Downloading file...") w).1 = (w', Raise e) ∧
  install_build E K P server_folder url dest w = (w', Raise e).
Proof.
  intros Hfault%download_fault_raises. split; [done|].
  unfold install_build. run_ret by reflexivity. by run_raise by exact Hfault.
Qed.

Lemma failed_download_stops_the_run_witness :
  let w1 := (print (nl +:+ "Downloading file...") demo_world).1 in
  download_file sample_env "https://nightly.multitheftauto.com/gone.tar.gz"
                ["srv"; "updateinfo"] w1
  = (w1, Raise (HTTPError "404 Client Error")) ∧
  install_build sample_env sample_machine linux64_profile ["srv"]
                "https://nightly.multitheftauto.com/gone.tar.gz"
                ["srv"; "updateinfo"] demo_world
  = (w1, Raise (HTTPError "404 Client Error")).
Proof.
  apply (failed_download_stops_the_run sample_env sample_machine linux64_profile
           ["srv"] "https://nightly.multitheftauto.com/gone.tar.gz"
           ["srv"; "updateinfo"] demo_world).
  apply (fault_client _ _ _ _ 404 [] None); [reflexivity | lia].
Defined.

(** C8 as stated fails: [304 Not Modified] is not a success status, yet
    the download returns the name of the (empty) file it wrote. *)
Lemma not_modified_status_is_accepted :
  let E := Env linux64 web_304 sample_parser in
  let url := nightly_url +:+ "multitheftauto_linux_x64-1.6-rc-22741.tar.gz" in
  http_get E url = Response 304 [] None ∧
  (download_file E url ["srv"; "updateinfo"] demo_world).2
  = Ret ["srv"; "updateinfo"; "multitheftauto_linux_x64-1.6-rc-22741.tar.gz"].
Proof. split; vm_compute; reflexivity. Qed.

End downloading.

(** ** What the disk primitives do *)

Section disk.
Implicit Types (f : filesystem) (p q d : path) (w : world) (c : string).

Lemma parent_prefix p : parent p `prefix_of` p.
Proof. unfold parent. apply prefix_take. Qed.

Lemma prefix_snoc_inv q p c : q `prefix_of` p ++ [c] → q = p ++ [c] ∨ q `prefix_of` p.
Proof.
  intros [k Hk]. destruct k as [|x k _] using rev_ind.
  - left. by rewrite app_nil_r in Hk.
  - right. rewrite app_assoc in Hk. apply app_inj_tail in Hk as [-> _].
    by apply prefix_app_r.
Qed.

Lemma prefix_length_eq_take q p : q `prefix_of` p → q = take (length q) p.
Proof. intros [k ->]. by rewrite take_app_length. Qed.

(** On a well-formed disk everything above an entry is a directory. *)
Lemma wf_above f q k : wf f → is_Some (f !! (q ++ k)) → k ≠ [] → f !! q = Some Dir.
Proof.
  intros Hwf. induction k as [|c k IH] using rev_ind; [done|].
  intros Hsome _. rewrite app_assoc in Hsome.
  apply (wf_parent _ _ _ Hwf) in Hsome.
  destruct k as [|c' k']; [by rewrite app_nil_r in Hsome|].
  apply IH; [by rewrite Hsome | done].
Qed.

Lemma wf_prefix f q p : wf f → is_Some (f !! p) → q `prefix_of` p → q ≠ p → f !! q = Some Dir.
Proof.
  intros Hwf Hp [k ->] Hne. apply (wf_above f q k); [done..|].
  intros ->. by rewrite app_nil_r in Hne.
Qed.

Lemma wf_insert_dir f p : wf f → (p = [] ∨ f !! parent p = Some Dir) → wf (<[p := Dir]> f).
Proof.
  intros [Hroot Hall] Hp. split.
  - rewrite lookup_insert. by case_decide.
  - apply map_Forall_insert_2.
    + destruct Hp as [?|Hp]; [by left|right].
      rewrite lookup_insert. by case_decide.
    + intros q n Hq. destruct (Hall _ _ Hq) as [?|Hpar]; [by left|right].
      rewrite lookup_insert. by case_decide.
Qed.

Lemma wf_insert_file f p data :
  wf f → f !! parent p = Some Dir → p ≠ [] → f !! p ≠ Some Dir →
  wf (<[p := File data]> f).
Proof.
  intros [Hroot Hall] Hp Hne Hnd. split.
  - by rewrite lookup_insert_ne.
  - assert (Hpp : parent p ≠ p) by (intros Heq; rewrite Heq in Hp; done).
    apply map_Forall_insert_2.
    + right. by rewrite lookup_insert_ne.
    + intros q n Hq. destruct (Hall _ _ Hq) as [?|Hpar]; [by left|right].
      rewrite lookup_insert_ne; [done|]. intros Heq. rewrite <- Heq in Hpar. congruence.
Qed.

Lemma wf_delete_file f p data : wf f → f !! p = Some (File data) → wf (delete p f).
Proof.
  intros [Hroot Hall] Hp. split.
  - rewrite lookup_delete_ne; [done|]. intros ->. congruence.
  - intros q n Hq. apply lookup_delete_Some in Hq as [Hne Hq].
    destruct (Hall _ _ Hq) as [?|Hpar]; [by left|right].
    rewrite lookup_delete_ne; [done|]. intros Heq. rewrite <- Heq in Hpar. congruence.
Qed.

(** The write primitives, by cases on how they end. *)
Lemma os_mkdir_ret p w :
  fs w !! p = None → p ≠ [] → fs w !! parent p = Some Dir →
  os_mkdir p w = (World (<[p := Dir]> (fs w)) (out w), Ret tt).
Proof.
  intros Hp Hne Hpar. unfold os_mkdir. rewrite Hp, Hpar. by destruct p.
Qed.

Lemma write_obstacle_None f p :
  p ≠ [] → f !! parent p = Some Dir → f !! p ≠ Some Dir →
  write_obstacle f p = None.
Proof.
  intros Hne Hpar Hnd. unfold write_obstacle. destruct p as [|c p']; [done|].
  rewrite Hpar. by destruct (f !! (c :: p')) as [[|]|].
Qed.

Lemma write_obstacle_None_inv f p :
  write_obstacle f p = None →
  p ≠ [] ∧ f !! parent p = Some Dir ∧ f !! p ≠ Some Dir.
Proof.
  unfold write_obstacle. destruct p as [|c p']; [done|].
  destruct (f !! parent (c :: p')) as [[|]|]; [done | | done].
  by destruct (f !! (c :: p')) as [[|]|].
Qed.

(** Writing a whole file: open it afresh, then write the data. *)
Lemma write_whole_file p data w :
  write_obstacle (fs w) p = None →
  (open_wb p;; write_more p data) w
  = (World (<[p := File data]> (fs w)) (out w), Ret tt).
Proof.
  intros Hobs. run_ret by (unfold open_wb; rewrite Hobs; reflexivity).
  unfold write_more. simpl. rewrite lookup_insert_eq, insert_insert_eq. done.
Qed.

Lemma write_whole_file_fails p data w e :
  write_obstacle (fs w) p = Some e →
  (open_wb p;; write_more p data) w = (w, Raise e).
Proof.
  intros Hobs. by run_raise by (unfold open_wb; rewrite Hobs; reflexivity).
Qed.

End disk.

Section making_directories.
Implicit Types (f : filesystem) (p q d : path) (w : world).

Lemma prefix_take_iff q d n :
  (n ≤ length d)%nat → q `prefix_of` d ∧ length q = n ↔ q = take n d.
Proof.
  intros Hn. split.
  - intros [Hpre <-]. by apply prefix_length_eq_take.
  - intros ->. split; [apply prefix_take|]. rewrite length_take. lia.
Qed.

(** The loop of [os.makedirs] over the first [n] ancestors. *)
Lemma makedirs_loop d w n :
  (n ≤ length d)%nat →
  fs w !! [] = Some Dir →
  (∀ q data, q `prefix_of` d → q ≠ d → fs w !! q ≠ Some (File data)) →
  ∃ f', for_ ((λ k, take k d) <$> seq 0 n)
             (λ a, e ← os_path_exists a; if e : bool then mret tt else os_mkdir a) w
        = (World f' (out w), Ret tt) ∧
        ∀ q, f' !! q = if decide (q `prefix_of` d ∧ (length q < n)%nat)
                       then Some Dir else fs w !! q.
Proof.
  intros Hn Hroot Hnofile. induction n as [|n IH].
  - exists (fs w). split; [by destruct w|]. intros q.
    rewrite decide_False; [done | lia].
  - destruct IH as (fn & Hrun & Hfn); [lia|].
    rewrite seq_S, fmap_app, for_app. cbn [fmap list_fmap plus].
    run_ret by exact Hrun. rewrite for_one.
    assert (Hlen : length (take n d) = n) by (rewrite length_take; lia).
    assert (Hcur : fn !! take n d = fs w !! take n d).
    { rewrite Hfn, decide_False; [done|]. rewrite Hlen. lia. }
    assert (Hne : take n d ≠ d).
    { intros Heq. rewrite Heq in Hlen. lia. }
    destruct (fs w !! take n d) as [x|] eqn:Hx.
    + (* already there: it is a directory *)
      assert (x = Dir) as ->.
      { destruct x as [data|]; [|done].
        by destruct (Hnofile (take n d) data (prefix_take _ _) Hne). }
      exists fn. split.
      * run_ret by (unfold os_path_exists; simpl; rewrite Hcur;
                    rewrite bool_decide_eq_true_2 by eauto; reflexivity).
        reflexivity.
      * intros q. rewrite Hfn.
        destruct (decide (q `prefix_of` d ∧ (length q < n)%nat)) as [[??]|Hno].
        { rewrite decide_True; [done | split; [done | lia]]. }
        destruct (decide (q `prefix_of` d ∧ (length q < S n)%nat)) as [[Hpre Hl]|?];
          [|done].
        assert (q = take n d) as ->; [|done].
        apply prefix_take_iff; [lia|]. split; [done|].
        destruct (decide (length q < n)%nat); [|lia]. destruct Hno. done.
    + (* missing: make it *)
      assert (Hnil : take n d ≠ []).
      { intros Heq. rewrite Heq in Hx. congruence. }
      assert (Hn0 : (0 < n)%nat).
      { destruct n; [by destruct d|lia]. }
      assert (Hpar : fn !! parent (take n d) = Some Dir).
      { unfold parent. rewrite Hlen, take_take, Hfn.
        rewrite decide_True; [done|]. split; [apply prefix_take|].
        rewrite length_take. lia. }
      exists (<[take n d := Dir]> fn). split.
      * run_ret by (unfold os_path_exists; simpl; rewrite Hcur;
                    rewrite bool_decide_eq_false_2 by (by intros [??]); reflexivity).
        rewrite os_mkdir_ret; [done | exact Hcur | done | exact Hpar].
      * intros q. rewrite lookup_insert. case_decide as Hq.
        { subst q. rewrite decide_True; [done|]. split; [apply prefix_take | lia]. }
        rewrite Hfn.
        destruct (decide (q `prefix_of` d ∧ (length q < n)%nat)) as [[??]|Hno].
        { rewrite decide_True; [done | split; [done | lia]]. }
        rewrite decide_False; [done|]. intros [Hpre Hl]. apply Hq. symmetry.
        apply prefix_take_iff; [lia|]. split; [done|].
        destruct (decide (length q < n)%nat); [|lia]. destruct Hno. done.
Qed.

(** [os.makedirs] succeeds when nothing above the target is a regular
    file and the target is free (or a directory, with [exist_ok]);
    afterwards the target and everything above it are directories and
    nothing else has changed. *)
Lemma os_makedirs_ok exist_ok d w :
  fs w !! [] = Some Dir →
  (∀ q data, q `prefix_of` d → q ≠ d → fs w !! q ≠ Some (File data)) →
  fs w !! d = None ∨ (exist_ok = true ∧ fs w !! d = Some Dir) →
  ∃ f', os_makedirs exist_ok d w = (World f' (out w), Ret tt) ∧
        ∀ q, f' !! q = if decide (q `prefix_of` d) then Some Dir else fs w !! q.
Proof.
  intros Hroot Hnofile Hd.
  destruct (makedirs_loop d w (length d)) as (fn & Hrun & Hfn); [done..|].
  assert (Hcur : fn !! d = fs w !! d).
  { rewrite Hfn, decide_False; [done | lia]. }
  assert (Hspec : ∀ q, q ≠ d →
            fn !! q = if decide (q `prefix_of` d) then Some Dir else fs w !! q).
  { intros q Hq. rewrite Hfn.
    destruct (decide (q `prefix_of` d)) as [Hpre|Hpre].
    - rewrite decide_True; [done|]. split; [done|].
      pose proof (prefix_length _ _ Hpre).
      destruct (decide (length q = length d)) as [Heq|]; [|lia].
      destruct Hq. rewrite (prefix_length_eq_take _ _ Hpre), Heq. apply firstn_all.
    - rewrite decide_False; [done|]. by intros [??]. }
  unfold os_makedirs, ancestors.
  run_ret by exact Hrun.
  destruct Hd as [Hnone | [-> Hdir]].
  - assert (Hdne : d ≠ []) by (intros ->; congruence).
    exists (<[d := Dir]> fn). split.
    + run_ret by (unfold os_path_isdir; simpl; rewrite Hcur, Hnone;
                  rewrite bool_decide_eq_false_2 by done; reflexivity).
      rewrite andb_false_r.
      rewrite os_mkdir_ret; [done | by simpl; rewrite Hcur | done | simpl].
      rewrite Hspec.
      * rewrite decide_True; [done | apply parent_prefix].
      * unfold parent. intros Heq. apply (f_equal length) in Heq.
        rewrite length_take in Heq. destruct d; [done | simpl in Heq; lia].
    + intros q. rewrite lookup_insert. case_decide as Hq.
      * subst q. by rewrite decide_True.
      * by apply Hspec.
  - exists fn. split.
    + run_ret by (unfold os_path_isdir; simpl; rewrite Hcur, Hdir;
                  rewrite bool_decide_eq_true_2 by done; reflexivity).
      reflexivity.
    + intros q. destruct (decide (q = d)) as [->|Hq]; [|by apply Hspec].
      by rewrite Hcur, Hdir, decide_True.
Qed.

End making_directories.

(** ** Unpacking an archive *)

Section unpacking.
Implicit Types (f : filesystem) (p q d dest rel : path) (w : world)
  (m : path * node) (members todo : archive).

Lemma parent_app dest rel : rel ≠ [] → parent (dest ++ rel) = dest ++ parent rel.
Proof.
  intros Hne. destruct rel as [|c r _] using rev_ind; [done|].
  by rewrite app_assoc, !parent_snoc.
Qed.

Lemma parent_ne p : p ≠ [] → parent p ≠ p.
Proof.
  intros Hne Heq. apply (f_equal length) in Heq. unfold parent in Heq.
  rewrite length_take in Heq. destruct p; [done | simpl in Heq; lia].
Qed.

Lemma prefix_parent_iff q p :
  p ≠ [] → q `prefix_of` p ↔ q = p ∨ q `prefix_of` parent p.
Proof.
  intros Hne. destruct p as [|c r _] using rev_ind; [done|].
  rewrite parent_snoc. split.
  - apply prefix_snoc_inv.
  - intros [->|Hpre]; [done | by apply prefix_app_r].
Qed.

Lemma prefix_app_split q dest rel :
  q `prefix_of` dest ++ rel →
  q `prefix_of` dest ∨ ∃ r, r ≠ [] ∧ q = dest ++ r ∧ r `prefix_of` rel.
Proof.
  revert q. induction dest as [|c dest IH]; intros q Hpre; simpl in *.
  - destruct q as [|x q]; [left; apply prefix_nil|].
    right. exists (x :: q). done.
  - destruct q as [|x q]; [left; apply prefix_nil|].
    apply prefix_cons_inv_1 in Hpre as Hx. subst x.
    apply prefix_cons_inv_2 in Hpre. destruct (IH _ Hpre) as [Hd|(r & Hr & -> & Hrel)].
    + left. by apply prefix_cons.
    + right. exists r. done.
Qed.

Lemma covers_snoc members m rel :
  covers (members ++ [m]) rel ↔ covers members rel ∨ rel `prefix_of` m.1.
Proof.
  unfold covers. rewrite Exists_app, Exists_cons, Exists_nil. tauto.
Qed.

Lemma stored_snoc members m rel :
  m.1 ∉ members.*1 →
  (list_to_map (members ++ [m]) : gmap path node) !! rel
  = if decide (rel = m.1) then Some m.2 else (list_to_map members : gmap path node) !! rel.
Proof.
  intros Hfresh. rewrite list_to_map_app, lookup_union. destruct m as [k v]. simpl.
  case_decide as Hk.
  - subst rel. rewrite (not_elem_of_list_to_map_1 _ _ Hfresh).
    by rewrite lookup_insert_eq.
  - rewrite lookup_insert_ne, lookup_empty by done.
    by destruct (list_to_map members !! rel).
Qed.

Lemma stored_elem members rel n :
  (list_to_map members : gmap path node) !! rel = Some n → (rel, n) ∈ members.
Proof. apply elem_of_list_to_map_2. Qed.

Lemma nonempty_elem {A} (l : list A) : l ≠ [] → ∃ x, x ∈ l.
Proof. destruct l as [|x l]; [done|]. exists x. apply list_elem_of_here. Qed.

(** Unpacking into a staging directory [dest] of the disk [f0] in
    which the archive's top-level name is free. *)
Section one_member.
Context (f0 : filesystem) (dest : path) (top : string) (members : archive).
Hypothesis (Hwf : wf f0) (Hdest : f0 !! dest = Some Dir).
Hypothesis (Hfree : f0 !! (dest ++ [top]) = None) (Hok : tar_ok top members).

Lemma region_free rel : [top] `prefix_of` rel → f0 !! (dest ++ rel) = None.
Proof.
  intros [k ->]. destruct (f0 !! (dest ++ [top] ++ k)) as [n|] eqn:Hn; [|done].
  destruct k as [|c k].
  - rewrite app_nil_r in Hn. congruence.
  - assert (f0 !! (dest ++ [top]) = Some Dir); [|congruence].
    apply (wf_above f0 _ (c :: k)); [done | | done].
    rewrite <- app_assoc. by rewrite Hn.
Qed.

Lemma above_dest q : q `prefix_of` dest → f0 !! q = Some Dir.
Proof.
  intros Hpre. destruct (decide (q = dest)) as [->|Hne]; [done|].
  apply (wf_prefix f0 q dest); [done | by rewrite Hdest | done | done].
Qed.

Lemma member_under_top m : m ∈ members → [top] `prefix_of` m.1.
Proof.
  intros Hm. destruct Hok as (_ & _ & Hall).
  rewrite Forall_forall in Hall. by apply Hall.
Qed.

Lemma file_member_is_leaf m m' :
  m ∈ members → is_file m.2 = true → m' ∈ members → m.1 `prefix_of` m'.1 →
  m'.1 = m.1.
Proof.
  intros Hm Hfile Hm' Hpre. destruct Hok as (_ & _ & Hall).
  rewrite Forall_forall in Hall. destruct (Hall _ Hm) as [_ Hleaf].
  destruct (Hleaf Hfile) as [_ Hothers]. rewrite Forall_forall in Hothers.
  by destruct (Hothers _ Hm') as [?|?].
Qed.

Lemma nonempty_prefix_under_top r rel :
  r ≠ [] → r `prefix_of` rel → [top] `prefix_of` rel → [top] `prefix_of` r.
Proof.
  intros Hr [k ->] [k' Hk']. destruct r as [|c r]; [done|].
  simpl in Hk'. injection Hk' as -> _. by apply prefix_cons, prefix_nil.
Qed.

Section step.
Context (done_ todo : archive) (m : path * node) (f : filesystem).
Hypothesis (Hsplit : members = done_ ++ m :: todo).
Hypothesis (Hinv : ∀ q, f !! q = unpacked f0 dest done_ q).

Let rel := m.1.
Let target := dest ++ m.1.

Lemma done_member m' : m' ∈ done_ → m' ∈ members.
Proof. rewrite Hsplit. intros ?. apply elem_of_app. by left. Qed.

Lemma this_member : m ∈ members.
Proof. rewrite Hsplit. apply elem_of_app. right. apply list_elem_of_here. Qed.

Lemma this_fresh : m.1 ∉ done_.*1.
Proof.
  destruct Hok as (Hnd & _). rewrite Hsplit, fmap_app in Hnd.
  apply NoDup_app in Hnd as (_ & Hdisj & _). intros Hin.
  apply (Hdisj _ Hin). simpl. apply list_elem_of_here.
Qed.

Lemma rel_nonempty : m.1 ≠ [].
Proof.
  pose proof (member_under_top m this_member) as [k Hk]. by rewrite Hk.
Qed.

Lemma inv_above q : q `prefix_of` dest → f !! q = Some Dir.
Proof.
  intros Hpre. rewrite Hinv. unfold unpacked. rewrite decide_False; [by apply above_dest|].
  intros (Hd & Hne & _). apply Hne.
  assert (q = dest) as -> by (by apply (anti_symm prefix)).
  by rewrite drop_all.
Qed.

Lemma inv_below r :
  r ≠ [] → [top] `prefix_of` r →
  f !! (dest ++ r)
  = if decide (covers done_ r)
    then Some (default Dir ((list_to_map done_ : gmap path node) !! r))
    else None.
Proof.
  intros Hr Htop. rewrite Hinv. unfold unpacked. rewrite drop_app_length.
  destruct (decide (covers done_ r)) as [Hc|Hc].
  - rewrite decide_True; [done|]. split_and!; [by apply prefix_app_r | done | done].
  - rewrite decide_False; [by apply region_free|]. by intros (_ & _ & ?).
Qed.

(** Above the member's place there is no regular file. *)
Lemma inv_no_file_above r :
  r ≠ [] → r `prefix_of` m.1 → r ≠ m.1 →
  f !! (dest ++ r) = Some Dir ∨ f !! (dest ++ r) = None.
Proof.
  intros Hr Hpre Hne.
  rewrite inv_below by eauto using nonempty_prefix_under_top, member_under_top, this_member.
  case_decide; [|by right]. left.
  destruct (list_to_map done_ !! r) as [[data|]|] eqn:Hst; [|done..].
  apply stored_elem in Hst.
  pose proof (file_member_is_leaf (r, File data) m
                (done_member _ Hst) eq_refl this_member Hpre) as Heq.
  simpl in Heq. congruence.
Qed.

Lemma inv_target :
  f !! target = if decide (covers done_ m.1) then Some Dir else None.
Proof.
  unfold target. rewrite inv_below by eauto using rel_nonempty, member_under_top, this_member.
  case_decide; [|done].
  by rewrite (not_elem_of_list_to_map_1 _ _ this_fresh).
Qed.

Lemma inv_prefix_of_parent q :
  q `prefix_of` parent target → f !! q = Some Dir ∨ f !! q = None.
Proof.
  unfold target. rewrite parent_app by apply rel_nonempty.
  intros [Hd|(r & Hr & -> & Hrel)]%prefix_app_split.
  - left. by apply inv_above.
  - apply inv_no_file_above; [done | |].
    + etrans; [done | apply parent_prefix].
    + intros Heq. rewrite Heq in Hrel.
      apply (parent_ne _ rel_nonempty). by apply (anti_symm prefix); [apply parent_prefix|].
Qed.

(** What exists on the way to the member's parent has everything above
    it in place. *)
Lemma inv_closed q :
  is_Some (f !! parent target) → q `prefix_of` parent target → f !! q = Some Dir.
Proof.
  intros Hsome Hq. destruct (inv_prefix_of_parent q Hq) as [?|Hnone]; [done|].
  exfalso. revert Hsome Hq Hnone. unfold target.
  rewrite parent_app by apply rel_nonempty.
  intros Hsome [Hd|(r & Hr & -> & Hrel)]%prefix_app_split Hnone.
  { rewrite inv_above in Hnone by done. done. }
  assert (Htop : [top] `prefix_of` r).
  { eapply nonempty_prefix_under_top; [done | |apply (member_under_top m this_member)].
    etrans; [done | apply parent_prefix]. }
  assert (Hpne : parent m.1 ≠ []) by (intros Heq; rewrite Heq in Hrel; by apply prefix_nil_inv in Hrel).
  rewrite inv_below in Hnone by done.
  rewrite inv_below in Hsome.
  - case_decide as Hc; [done|]. case_decide as Hc'; [|by destruct Hsome].
    apply Hc. unfold covers in *. eapply Exists_impl; [exact Hc'|].
    intros m' Hm'. simpl in *. by etrans.
  - done.
  - eapply nonempty_prefix_under_top; [done | apply parent_prefix |].
    apply (member_under_top m this_member).
Qed.

(** First the directories down to the member's parent are in place. *)
Lemma parents_made {B} (k : M B) o :
  ∃ f1, (e ← os_path_exists (parent target);
         (if e : bool then mret tt else os_makedirs true (parent target));; k)
          (World f o) = k (World f1 o) ∧
        ∀ q, f1 !! q = if decide (q `prefix_of` parent target)
                       then Some Dir else f !! q.
Proof.
  destruct (f !! parent target) as [n|] eqn:Hpar.
  - exists f. split.
    + run_ret by (unfold os_path_exists; simpl; rewrite Hpar;
                  rewrite bool_decide_eq_true_2 by eauto; reflexivity).
      by run_ret by reflexivity.
    + intros q. case_decide as Hq; [|done].
      apply inv_closed; [by rewrite Hpar | done].
  - destruct (os_makedirs_ok true (parent target) (World f o)) as (f1 & Hrun & Hf1).
    + simpl. apply inv_above, prefix_nil.
    + simpl. intros q data Hq _ Hfile.
      destruct (inv_prefix_of_parent q Hq); congruence.
    + by left.
    + exists f1. split; [|exact Hf1].
      run_ret by (unfold os_path_exists; simpl; rewrite Hpar;
                  rewrite bool_decide_eq_false_2 by (by intros [??]); reflexivity).
      by run_ret by exact Hrun.
Qed.

Lemma target_not_above_parent : ¬ target `prefix_of` parent target.
Proof.
  intros Hpre. apply prefix_length in Hpre. unfold parent in Hpre.
  rewrite length_take in Hpre. unfold target in Hpre.
  rewrite length_app in Hpre. pose proof rel_nonempty.
  destruct m.1; [done | simpl in Hpre; lia].
Qed.

Lemma target_nonempty : target ≠ [].
Proof.
  unfold target. pose proof rel_nonempty. by destruct dest, m.1.
Qed.

(** One member is unpacked without error, and changes the disk at its
    own place and above it only. *)
Lemma extract_member_run o :
  ∃ f', extract_member dest m (World f o) = (World f' o, Ret tt) ∧
        ∀ q, f' !! q = if decide (q = target) then Some m.2
                       else if decide (q `prefix_of` parent target) then Some Dir
                       else f !! q.
Proof.
  unfold extract_member. fold target.
  destruct (parents_made
              (match m.2 with
               | Dir => e ← os_path_exists target;
                        if e : bool then mret tt else os_mkdir target
               | File data => open_wb target;; write_more target data
               end) o) as (f1 & Hrun1 & Hf1).
  rewrite Hrun1. clear Hrun1.
  assert (Htarget1 : f1 !! target = f !! target).
  { rewrite Hf1, decide_False; [done | apply target_not_above_parent]. }
  assert (Hparent1 : f1 !! parent target = Some Dir).
  { by rewrite Hf1, decide_True. }
  destruct m.2 as [data|] eqn:Hkind.
  - (* a regular file *)
    assert (Hnone : f !! target = None).
    { rewrite inv_target. case_decide as Hc; [|done]. exfalso.
      apply Exists_exists in Hc as (m' & Hm' & Hpre).
      apply this_fresh. apply list_elem_of_fmap. exists m'. split; [|done].
      symmetry. apply (file_member_is_leaf m m'); [apply this_member | | | done].
      + by rewrite Hkind.
      + by apply done_member. }
    exists (<[target := File data]> f1). split.
    + rewrite write_whole_file; [done|]. simpl.
      apply write_obstacle_None; [apply target_nonempty | done |].
      rewrite Htarget1, Hnone. done.
    + intros q. rewrite lookup_insert. case_decide as Hq.
      * subst q. by rewrite decide_True.
      * rewrite decide_False by done. apply Hf1.
  - (* a directory *)
    destruct (f !! target) as [n|] eqn:Hcur.
    + assert (n = Dir) as ->.
      { rewrite inv_target in Hcur. case_decide; congruence. }
      exists f1. split.
      * run_ret by (unfold os_path_exists; simpl; rewrite Htarget1;
                    rewrite bool_decide_eq_true_2 by eauto; reflexivity).
        reflexivity.
      * intros q. case_decide as Hq; [subst q; by rewrite Htarget1|]. apply Hf1.
    + exists (<[target := Dir]> f1). split.
      * run_ret by (unfold os_path_exists; simpl; rewrite Htarget1;
                    rewrite bool_decide_eq_false_2 by (by intros [??]); reflexivity).
        rewrite os_mkdir_ret; [done | by simpl; rewrite Htarget1
                               | apply target_nonempty | done].
      * intros q. rewrite lookup_insert. case_decide as Hq.
        -- subst q. by rewrite decide_True.
        -- rewrite decide_False by done. apply Hf1.
Qed.

(** After that member the disk is the unpacking of one member more. *)
Lemma extract_member_step o :
  ∃ f', extract_member dest m (World f o) = (World f' o, Ret tt) ∧
        ∀ q, f' !! q = unpacked f0 dest (done_ ++ [m]) q.
Proof.
  destruct (extract_member_run o) as (f' & Hrun & Hf'). exists f'.
  split; [done|]. intros q. rewrite Hf'.
  pose proof rel_nonempty as Hrel. pose proof (member_under_top m this_member) as Htop.
  unfold unpacked at 1.
  destruct (decide (dest `prefix_of` q ∧ drop (length dest) q ≠ []
                    ∧ covers (done_ ++ [m]) (drop (length dest) q)))
    as [(Hd & Hne & Hcov)|Hno].
  - (* a place the members reach *)
    destruct Hd as [r ->]. rewrite drop_app_length in *.
    rewrite stored_snoc by apply this_fresh.
    apply covers_snoc in Hcov.
    destruct (decide (r = m.1)) as [->|Hr].
    { rewrite decide_True by done. done. }
    rewrite decide_False by (unfold target; intros ?%(inj (app dest)); done).
    destruct (decide (r `prefix_of` m.1)) as [Hpre|Hpre].
    + (* above the member *)
      rewrite decide_True.
      * destruct (list_to_map done_ !! r) as [[data|]|] eqn:Hst; [|done..].
        apply stored_elem in Hst.
        pose proof (file_member_is_leaf (r, File data) m
                      (done_member _ Hst) eq_refl this_member Hpre) as Heq.
        simpl in Heq. congruence.
      * unfold target. rewrite parent_app by done. apply prefix_app.
        apply (prefix_parent_iff r m.1 Hrel) in Hpre as [?|?]; done.
    + rewrite decide_False.
      * destruct Hcov as [Hcov|?]; [|done].
        rewrite inv_below; [by rewrite decide_True | done |].
        apply Exists_exists in Hcov as (m' & Hm' & Hpre').
        eapply nonempty_prefix_under_top; [done | exact Hpre' |].
        apply member_under_top. by eapply done_member.
      * unfold target. rewrite parent_app by done. intros ?%prefix_app_inv.
        apply Hpre. etrans; [done | apply parent_prefix].
  - (* a place they do not reach *)
    assert (Hq : q ≠ target).
    { intros ->. apply Hno. unfold target. rewrite drop_app_length.
      split_and!; [by apply prefix_app_r | done |].
      apply covers_snoc. by right. }
    rewrite decide_False by done.
    destruct (decide (q `prefix_of` parent target)) as [Hpre|Hpre].
    + revert Hpre. unfold target. rewrite parent_app by done.
      intros [Hd|(r & Hr & -> & Hrr)]%prefix_app_split.
      * symmetry. by apply above_dest.
      * exfalso. apply Hno. rewrite drop_app_length.
        split_and!; [by apply prefix_app_r | done |].
        apply covers_snoc. right. etrans; [done | apply parent_prefix].
    + rewrite Hinv. unfold unpacked. rewrite decide_False; [done|].
      intros (Hd & Hne & Hcov). apply Hno. split_and!; [done..|].
      apply covers_snoc. by left.
Qed.

End step.

(** The whole archive is unpacked without error. *)
Lemma extract_members_run done_ todo f o :
  members = done_ ++ todo →
  (∀ q, f !! q = unpacked f0 dest done_ q) →
  ∃ f', for_ todo (extract_member dest) (World f o) = (World f' o, Ret tt) ∧
        ∀ q, f' !! q = unpacked f0 dest members q.
Proof.
  revert done_ f. induction todo as [|m todo IH]; intros done_ f Hsplit Hinv.
  - exists f. rewrite app_nil_r in Hsplit. by subst.
  - destruct (extract_member_step done_ todo m f Hsplit Hinv o) as (f1 & Hrun1 & Hf1).
    destruct (IH (done_ ++ [m]) f1) as (f' & Hrun & Hf'); [|done|].
    { by rewrite <- app_assoc. }
    exists f'. split; [|done]. simpl. by run_ret by exact Hrun1.
Qed.

Lemma unpacked_nil q : unpacked f0 dest [] q = f0 !! q.
Proof.
  unfold unpacked. rewrite decide_False; [done|].
  intros (_ & _ & Hc). by apply Exists_nil in Hc.
Qed.

Lemma extractall_run o :
  ∃ f', for_ members (extract_member dest) (World f0 o) = (World f' o, Ret tt) ∧
        ∀ q, f' !! q = unpacked f0 dest members q.
Proof.
  apply (extract_members_run []); [done|]. intros q. by rewrite unpacked_nil.
Qed.

(** Below the staging directory, the regular files after unpacking are
    the file members, with their bytes. *)
Lemma unpacked_file rel data :
  [top] `prefix_of` rel →
  unpacked f0 dest members (dest ++ rel) = Some (File data) ↔ (rel, File data) ∈ members.
Proof.
  intros Htop. pose proof Hok as (Hnd & _ & _).
  assert (Hrel : rel ≠ []) by (destruct Htop as [k ->]; done).
  unfold unpacked. rewrite drop_app_length. split.
  - case_decide as Hc.
    + intros [= Hst]. apply (elem_of_list_to_map _ _ _ Hnd).
      by destruct (list_to_map members !! rel) as [[?|]|]; simplify_eq/=.
    + by rewrite region_free.
  - intros Hin. rewrite decide_True.
    + by rewrite (elem_of_list_to_map_1 _ _ _ Hnd Hin).
    + split_and!; [by apply prefix_app_r | done |].
      apply Exists_exists. by exists (rel, File data).
Qed.

Lemma unpacked_top : unpacked f0 dest members (dest ++ [top]) = Some Dir.
Proof.
  pose proof Hok as (Hnd & Hne & Hall).
  unfold unpacked. rewrite drop_app_length. rewrite decide_True.
  - destruct (list_to_map members !! [top]) as [[data|]|] eqn:Hst; [|done..].
    apply stored_elem in Hst. rewrite Forall_forall in Hall.
    destruct (Hall _ Hst) as [_ Hleaf]. by destruct (Hleaf eq_refl) as [? _].
  - split_and!; [by apply prefix_app_r | done |].
    destruct (nonempty_elem _ Hne) as [m Hm]. apply Exists_exists.
    exists m. split; [done | by apply member_under_top].
Qed.

Lemma unpacked_outside q :
  ¬ (dest ++ [top]) `prefix_of` q → unpacked f0 dest members q = f0 !! q.
Proof.
  intros Hq. unfold unpacked. case_decide as Hc; [|done]. exfalso.
  destruct Hc as ([r ->] & Hr & Hcov). rewrite drop_app_length in *.
  apply Hq, prefix_app. apply Exists_exists in Hcov as (m & Hm & Hpre).
  eapply nonempty_prefix_under_top; [done | done |]. by apply member_under_top.
Qed.

End one_member.

Lemma lookup_moved f src dst q :
  moved f src dst !! q
  = if decide (dst `prefix_of` q) then f !! (src ++ drop (length dst) q)
    else if decide (src `prefix_of` q) then None
    else f !! q.
Proof.
  unfold moved. rewrite map_lookup_imap, lookup_gset_to_gmap.
  set (X := dom f ∪ set_map (λ q0, dst ++ drop (length src) q0) (dom f)).
  assert (Hin : ∀ n, (if decide (dst `prefix_of` q)
                      then f !! (src ++ drop (length dst) q)
                      else if decide (src `prefix_of` q) then None else f !! q)
                     = Some n → q ∈ X).
  { intros n. unfold X. destruct (decide (dst `prefix_of` q)) as [Hd|Hd].
    - intros Hn. apply elem_of_union. right. apply elem_of_map.
      exists (src ++ drop (length dst) q). split.
      + rewrite drop_app_length. destruct Hd as [k ->]. by rewrite drop_app_length.
      + apply elem_of_dom. by rewrite Hn.
    - case_decide; [done|]. intros Hn. apply elem_of_union. left.
      apply elem_of_dom. by rewrite Hn. }
  assert (Hbody : (if bool_decide (dst `prefix_of` q)
                   then f !! (src ++ drop (length dst) q)
                   else if bool_decide (src `prefix_of` q) then None else f !! q)
                  = (if decide (dst `prefix_of` q)
                     then f !! (src ++ drop (length dst) q)
                     else if decide (src `prefix_of` q) then None else f !! q)).
  { repeat case_bool_decide; repeat case_decide; done. }
  case_guard as Hq; simpl.
  - exact Hbody.
  - destruct (if decide (dst `prefix_of` q) then _ else _) as [n|] eqn:Hn; [|done].
    destruct Hq. by apply (Hin n).
Qed.

Lemma endswith_cons c s suffix :
  endswith (String c s) suffix = String.eqb (String c s) suffix || endswith s suffix.
Proof. done. Qed.

(** A name that ends in [.tar.gz] does not end in [.exe]. *)
Lemma endswith_tar_not_exe s : endswith s ".tar.gz" = true → endswith s ".exe" = false.
Proof.
  induction s as [|c s IH]; [done|].
  rewrite !endswith_cons. intros [Heq|Hend]%orb_true_iff.
  - apply String.eqb_eq in Heq. injection Heq as -> ->. reflexivity.
  - rewrite (IH Hend), orb_false_r. apply String.eqb_neq. intros Heq.
    injection Heq as _ ->. done.
Qed.

(** X29: where the listing favours it, the tarball becomes [server].  A
    tarball with plain member names and the single top-level directory
    [top], unpacked into a staging directory where neither [top] nor
    [server] exists yet and where the listing taken after unpacking
    names [top] first, ends as a directory [server] holding exactly the
    archive's files with their bytes; the name [top] is gone unless it
    is [server] itself, and nothing outside the two names has
    changed. *)
Theorem tarball_becomes_server K file_path dest w bytes members top others :
  wf (fs w) →
  fs w !! dest = Some Dir →
  fs w !! (dest ++ [top]) = None →
  fs w !! (dest ++ ["server"]) = None →
  fs w !! file_path = Some (File bytes) →
  endswith (basename file_path) ".tar.gz" = true →
  untar_gz K bytes = Some members →
  Forall plain_member members →
  tar_ok top members →
  listdir_order K (fs (for_ members (extract_member dest) w).1) dest = top :: others →
  ∃ f', extract_files K file_path dest w = (World f' (out w), Ret tt) ∧
        f' !! (dest ++ ["server"]) = Some Dir ∧
        (∀ r data, f' !! (dest ++ "server" :: r) = Some (File data)
                   ↔ (top :: r, File data) ∈ members) ∧
        (top ≠ "server" → ∀ q, (dest ++ [top]) `prefix_of` q → f' !! q = None) ∧
        (∀ q, ¬ (dest ++ [top]) `prefix_of` q → ¬ (dest ++ ["server"]) `prefix_of` q →
              f' !! q = fs w !! q).
Proof.
  destruct w as [f0 o]. simpl.
  intros Hwf Hdest Hfree Hfree' Hfile Hname Huntar _ Hok Hlist.
  destruct (extractall_run f0 dest top members Hwf Hdest Hfree Hok o)
    as (f1 & Hrun1 & Hf1).
  rewrite Hrun1 in Hlist. simpl in Hlist.
  assert (Hdest1 : f1 !! dest = Some Dir).
  { rewrite Hf1, (unpacked_outside f0 dest top members); [done..|].
    intros Hpre%prefix_length. rewrite length_app in Hpre. simpl in Hpre. lia. }
  assert (Htop1 : f1 !! (dest ++ [top]) = Some Dir).
  { rewrite Hf1. by apply (unpacked_top f0 dest top members). }
  assert (Hfiles1 : ∀ r data, f1 !! (dest ++ top :: r) = Some (File data)
                              ↔ (top :: r, File data) ∈ members).
  { intros r data. rewrite Hf1. apply (unpacked_file f0 dest top members); [done..|].
    by apply prefix_cons, prefix_nil. }
  assert (Hstart : extract_files K file_path dest (World f0 o)
                   = os_rename (dest ++ [top]) (dest ++ ["server"]) (World f1 o)).
  { unfold extract_files. rewrite (endswith_tar_not_exe _ Hname), Hname.
    run_ret by (unfold tarfile_open; simpl; rewrite Hfile, Huntar; reflexivity).
    run_ret by exact Hrun1.
    run_ret by (unfold os_listdir; simpl; rewrite Hdest1, Hlist; reflexivity).
    run_ret by reflexivity. reflexivity. }
  rewrite Hstart. unfold os_rename. simpl. rewrite Htop1.
  destruct (decide (top = "server")) as [->|Hne].
  - (* the directory already has the canonical name *)
    rewrite bool_decide_eq_true_2 by done. exists f1.
    split_and!; [done | done | done | done |].
    intros q Hq _. rewrite Hf1. by apply (unpacked_outside f0 dest "server" members).
  - assert (Hdiff : dest ++ [top] ≠ dest ++ ["server"]).
    { intros Heq%(inj (app dest)). congruence. }
    assert (Hnp : ¬ (dest ++ [top]) `prefix_of` dest ++ ["server"]).
    { intros [Heq|Hpre]%prefix_snoc_inv; [done|].
      apply prefix_length in Hpre. rewrite length_app in Hpre. simpl in Hpre. lia. }
    assert (Hnp' : ¬ (dest ++ ["server"]) `prefix_of` dest ++ [top]).
    { intros [Heq|Hpre]%prefix_snoc_inv; [done|].
      apply prefix_length in Hpre. rewrite length_app in Hpre. simpl in Hpre. lia. }
    assert (Hserver1 : ∀ k, f1 !! (dest ++ "server" :: k) = None).
    { intros k. rewrite Hf1, (unpacked_outside f0 dest top members); [|done..|].
      - change (f0 !! (dest ++ ["server"] ++ k) = None).
        apply (region_free f0 dest "server"); [done..|]. by apply prefix_app_r.
      - intros [k' Hk']. rewrite <- app_assoc in Hk'. apply (inj (app dest)) in Hk'.
        simpl in Hk'. congruence. }
    rewrite bool_decide_eq_false_2 by done.
    rewrite bool_decide_eq_false_2 by done.
    destruct (dest ++ ["server"]) as [|c0 l0] eqn:Hds; [by destruct dest|].
    rewrite <- Hds in *. rewrite parent_snoc, Hdest1, (Hserver1 []).
    exists (moved f1 (dest ++ [top]) (dest ++ ["server"])).
    split; [done|].
    assert (Hlen : length (dest ++ ["server"]) = length (dest ++ [top])).
    { by rewrite !length_app. }
    split_and!.
    + rewrite lookup_moved, decide_True by done.
      by rewrite drop_all, app_nil_r.
    + intros r data.
      assert (Heq : dest ++ "server" :: r = (dest ++ ["server"]) ++ r)
        by (by rewrite <- app_assoc).
      rewrite Heq, lookup_moved, decide_True by (by apply prefix_app_r).
      rewrite drop_app_length, <- app_assoc. apply Hfiles1.
    + intros _ q Hq. rewrite lookup_moved.
      rewrite decide_False.
      * by rewrite decide_True.
      * intros Hq'. destruct (prefix_weak_total _ _ _ Hq Hq') as [?|?]; done.
    + intros q Hq Hq'. rewrite lookup_moved, !decide_False by done.
      rewrite Hf1. by apply (unpacked_outside f0 dest top members).
Qed.

Lemma tarball_becomes_server_witness :
  ∃ f', extract_files sample_machine ["dl"; "build.tar.gz"] ["srv"; "updateinfo"]
                      (World fresh_disk [])
        = (World f' [], Ret tt) ∧
        f' !! (["srv"; "updateinfo"] ++ ["server"]) = Some Dir ∧
        (∀ r data, f' !! (["srv"; "updateinfo"] ++ "server" :: r) = Some (File data)
                   ↔ ("buildXYZ" :: r, File data) ∈ build_xyz) ∧
        ("buildXYZ" ≠ "server" →
         ∀ q, (["srv"; "updateinfo"] ++ ["buildXYZ"]) `prefix_of` q → f' !! q = None) ∧
        (∀ q, ¬ (["srv"; "updateinfo"] ++ ["buildXYZ"]) `prefix_of` q →
              ¬ (["srv"; "updateinfo"] ++ ["server"]) `prefix_of` q →
              f' !! q = fresh_disk !! q).
Proof.
  apply (tarball_becomes_server sample_machine ["dl"; "build.tar.gz"]
           ["srv"; "updateinfo"] (World fresh_disk []) "TGZxyz" build_xyz
           "buildXYZ" []).
  - apply (bool_decide_unpack _). vm_compute. reflexivity.
  - vm_compute. reflexivity.
  - vm_compute. reflexivity.
  - vm_compute. reflexivity.
  - vm_compute. reflexivity.
  - vm_compute. reflexivity.
  - vm_compute. reflexivity.
  - apply (bool_decide_unpack _). vm_compute. reflexivity.
  - apply (bool_decide_unpack _). vm_compute. reflexivity.
  - vm_compute. reflexivity.
Defined.

(** A tarball whose single top-level directory is itself called
    [server] is unpacked without error, and its top-level name still
    exists afterwards. *)
Lemma server_named_tarball_keeps_its_name :
  let r := extract_files sample_machine ["dl"; "server.tar.gz"] ["srv"; "updateinfo"]
                         (World fresh_disk []) in
  tar_ok "server" build_server ∧
  r.2 = Ret tt ∧
  fs r.1 !! ["srv"; "updateinfo"; "server"] = Some Dir ∧
  fs r.1 !! ["srv"; "updateinfo"; "server"; "a.so"] = Some (File "SO1").
Proof.
  cbv zeta. split; [|split; [|split]].
  - apply (bool_decide_unpack _). vm_compute. reflexivity.
  - vm_compute. reflexivity.
  - vm_compute. reflexivity.
  - vm_compute. reflexivity.
Qed.


End unpacking.

(** ** Frames *)

(** The three ways of leaving an entry alone are preorders, and so is
    leaving the disk alone. *)
Global Instance same_at_po q : PreOrder (same_at q).
Proof. unfold same_at. split; [done|]. intros f1 f2 f3 ??. congruence. Qed.

Global Instance kept_at_po q : PreOrder (kept_at q).
Proof.
  unfold kept_at. split; [by left|].
  intros f1 f2 f3 [H12|[H1 H2]] [H23|[H2' H3]].
  - left. congruence.
  - right. split; congruence.
  - right. split; congruence.
  - congruence.
Qed.

Global Instance dir_at_po q : PreOrder (dir_at q).
Proof. unfold dir_at. split; [by intros f ? | intros f1 f2 f3 ???; auto]. Qed.

Global Instance same_disk_po : PreOrder same_disk.
Proof. unfold same_disk. split; [done|]. intros f1 f2 f3 ??. congruence. Qed.

Lemma same_kept q f f' : same_at q f f' → kept_at q f f'.
Proof. by left. Qed.

Lemma same_dir q f f' : same_at q f f' → dir_at q f f'.
Proof. unfold same_at, dir_at. congruence. Qed.

Lemma same_disk_at q f f' : same_disk f f' → same_at q f f'.
Proof. unfold same_disk, same_at. by intros ->. Qed.

Section holds.
Context (R : filesystem → filesystem → Prop) `{!PreOrder R}.

Lemma holds_bind_post {A B} (m : M A) (k : A → M B) (Q : A → Prop) :
  holds R m → returns m Q → (∀ a, Q a → holds R (k a)) → holds R (m ≫= k).
Proof.
  intros Hm HQ Hk w w' o. unfold mbind, M_bind.
  destruct (m w) as [w1 [a|e|c]] eqn:Hrun.
  - intros Hrun2. etrans; [by eapply Hm|]. eapply Hk; [by eapply HQ | done].
  - intros [= <- <-]. by eapply Hm.
  - intros [= <- <-]. by eapply Hm.
Qed.

Lemma holds_bind {A B} (m : M A) (k : A → M B) :
  holds R m → (∀ a, holds R (k a)) → holds R (m ≫= k).
Proof.
  intros Hm Hk. apply (holds_bind_post m k (λ _, True)); [done | done | auto].
Qed.

Lemma holds_for {A} (xs : list A) (body : A → M unit) :
  (∀ x, x ∈ xs → holds R (body x)) → holds R (for_ xs body).
Proof.
  induction xs as [|x xs IH]; intros Hbody; simpl.
  - by intros w w' o [= <- <-].
  - apply holds_bind; [apply Hbody, list_elem_of_here|].
    intros _. apply IH. intros y Hy. by apply Hbody, list_elem_of_further.
Qed.

(** Calls that do not write at all. *)
Lemma holds_reader {A} (m : M A) : (∀ w, fs (m w).1 = fs w) → holds R m.
Proof.
  intros Hread w w' o Hrun. pose proof (Hread w) as Hw. rewrite Hrun in Hw.
  simpl in Hw. by rewrite Hw.
Qed.

Lemma holds_mret {A} (a : A) : holds R (mret a).
Proof. by apply holds_reader. Qed.
Lemma holds_raise {A} e : holds R (raise (A:=A) e).
Proof. by apply holds_reader. Qed.
Lemma holds_exit {A} c : holds R (exit (A:=A) c).
Proof. by apply holds_reader. Qed.
Lemma holds_exists p : holds R (os_path_exists p).
Proof. by apply holds_reader. Qed.
Lemma holds_isdir p : holds R (os_path_isdir p).
Proof. by apply holds_reader. Qed.
Lemma holds_exists_typed K s : holds R (exists_typed K s).
Proof. by apply holds_reader. Qed.
Lemma holds_walk p : holds R (os_walk p).
Proof. by apply holds_reader. Qed.
Lemma holds_print s : holds R (print s).
Proof. by apply holds_reader. Qed.

Lemma holds_if {A} (b : bool) (m1 m2 : M A) :
  holds R m1 → holds R m2 → holds R (if b then m1 else m2).
Proof. by destruct b. Qed.

(** A call that ends with the disk it started on, or with one more step. *)
Lemma holds_step {A} (m : M A) :
  (∀ w w' o, m w = (w', o) → fs w' = fs w ∨ R (fs w) (fs w')) → holds R m.
Proof. intros Hm w w' o Hrun. destruct (Hm _ _ _ Hrun) as [->|?]; done. Qed.

End holds.

Section frames.
Implicit Types (f : filesystem) (p q d : path) (w : world).

(** What the single writes do to the disk. *)
Lemma os_mkdir_effect p w w' o :
  os_mkdir p w = (w', o) →
  fs w' = fs w ∨ (fs w !! p = None ∧ fs w' = <[p := Dir]> (fs w)).
Proof.
  unfold os_mkdir.
  destruct (fs w !! p) as [n|] eqn:Hp; [intros [= <- <-]; by left|].
  destruct p as [|c p']; [intros [= <- <-]; by left|].
  destruct (fs w !! parent (c :: p')) as [[|]|]; intros [= <- <-]; auto.
Qed.

Lemma open_wb_effect p w w' o :
  open_wb p w = (w', o) →
  fs w' = fs w ∨ (fs w !! p ≠ Some Dir ∧ fs w' = <[p := File ""]> (fs w)).
Proof.
  unfold open_wb. destruct (write_obstacle (fs w) p) eqn:Hobs; intros [= <- <-]; [by left|].
  right. apply write_obstacle_None_inv in Hobs as (_ & _ & ?). done.
Qed.

Lemma open_a_effect p w w' o :
  open_a p w = (w', o) →
  fs w' = fs w ∨ (fs w !! p = None ∧ fs w' = <[p := File ""]> (fs w)).
Proof.
  unfold open_a. destruct (write_obstacle (fs w) p); [intros [= <- <-]; by left|].
  destruct (fs w !! p) eqn:Hp; intros [= <- <-]; auto.
Qed.

Lemma write_more_effect p data w w' o :
  write_more p data w = (w', o) →
  fs w' = fs w ∨ ∃ old, fs w !! p = Some (File old) ∧
                        fs w' = <[p := File (old +:+ data)]> (fs w).
Proof.
  unfold write_more. destruct (fs w !! p) as [[old|]|] eqn:Hp; intros [= <- <-]; eauto.
Qed.

Lemma os_remove_effect p w w' o :
  os_remove p w = (w', o) →
  fs w' = fs w ∨ ∃ old, fs w !! p = Some (File old) ∧ fs w' = delete p (fs w).
Proof.
  unfold os_remove. destruct (fs w !! p) as [[old|]|] eqn:Hp; intros [= <- <-]; eauto.
Qed.

(** Making a directory leaves every entry kept, every directory in
    place, and every other place the same. *)
Lemma kept_mkdir q p : holds (kept_at q) (os_mkdir p).
Proof.
  apply holds_step; [apply _|]. intros w w' o [?|[Hp ->]]%os_mkdir_effect; [by left|].
  right. unfold kept_at. rewrite lookup_insert. case_decide; [subst; by right | by left].
Qed.

Lemma dir_mkdir q p : holds (dir_at q) (os_mkdir p).
Proof.
  apply holds_step; [apply _|]. intros w w' o [?|[Hp ->]]%os_mkdir_effect; [by left|].
  right. unfold dir_at. rewrite lookup_insert. by case_decide.
Qed.

Lemma same_mkdir q p : q ≠ p → holds (same_at q) (os_mkdir p).
Proof.
  intros Hne. apply holds_step; [apply _|].
  intros w w' o [?|[Hp ->]]%os_mkdir_effect; [by left|].
  right. unfold same_at. by rewrite lookup_insert_ne.
Qed.

Lemma holds_makedirs R `{!PreOrder R} exist_ok p :
  (∀ a, a `prefix_of` p → holds R (os_mkdir a)) → holds R (os_makedirs exist_ok p).
Proof.
  intros Hmk. unfold os_makedirs. apply holds_bind; [done| |].
  - apply holds_for; [done|]. intros a Ha. apply holds_bind; [done | by apply holds_exists|].
    intros e. apply holds_if; [by apply holds_mret|]. apply Hmk.
    unfold ancestors in Ha. apply list_elem_of_fmap in Ha as (k & -> & _).
    apply prefix_take.
  - intros _. apply holds_bind; [done | by apply holds_isdir|].
    intros d. apply holds_if; [by apply holds_mret | by apply Hmk].
Qed.

Lemma kept_makedirs q exist_ok p : holds (kept_at q) (os_makedirs exist_ok p).
Proof. apply holds_makedirs; [apply _|]. intros a _. apply kept_mkdir. Qed.

Lemma dir_makedirs q exist_ok p : holds (dir_at q) (os_makedirs exist_ok p).
Proof. apply holds_makedirs; [apply _|]. intros a _. apply dir_mkdir. Qed.

Lemma same_makedirs q exist_ok p :
  ¬ q `prefix_of` p → holds (same_at q) (os_makedirs exist_ok p).
Proof.
  intros Hq. apply holds_makedirs; [apply _|]. intros a Ha. apply same_mkdir.
  by intros ->.
Qed.

(** Writing a file leaves every other place the same, and every
    directory in place. *)
Lemma same_open_wb q p : q ≠ p → holds (same_at q) (open_wb p).
Proof.
  intros Hne. apply holds_step; [apply _|].
  intros w w' o [?|[_ ->]]%open_wb_effect; [by left|].
  right. unfold same_at. by rewrite lookup_insert_ne.
Qed.

Lemma dir_open_wb q p : holds (dir_at q) (open_wb p).
Proof.
  apply holds_step; [apply _|]. intros w w' o [?|[Hp ->]]%open_wb_effect; [by left|].
  right. unfold dir_at. rewrite lookup_insert. case_decide; [by subst|done].
Qed.

Lemma same_open_a q p : q ≠ p → holds (same_at q) (open_a p).
Proof.
  intros Hne. apply holds_step; [apply _|].
  intros w w' o [?|[_ ->]]%open_a_effect; [by left|].
  right. unfold same_at. by rewrite lookup_insert_ne.
Qed.


Lemma same_write_more q p data : q ≠ p → holds (same_at q) (write_more p data).
Proof.
  intros Hne. apply holds_step; [apply _|].
  intros w w' o [?|(old & _ & ->)]%write_more_effect; [by left|].
  right. unfold same_at. by rewrite lookup_insert_ne.
Qed.

Lemma dir_write_more q p data : holds (dir_at q) (write_more p data).
Proof.
  apply holds_step; [apply _|].
  intros w w' o [?|(old & Hp & ->)]%write_more_effect; [by left|].
  right. unfold dir_at. rewrite lookup_insert. case_decide; [subst; congruence|done].
Qed.

Lemma same_remove q p : q ≠ p → holds (same_at q) (os_remove p).
Proof.
  intros Hne. apply holds_step; [apply _|].
  intros w w' o [?|(old & _ & ->)]%os_remove_effect; [by left|].
  right. unfold same_at. by rewrite lookup_delete_ne.
Qed.

Lemma dir_remove q p : holds (dir_at q) (os_remove p).
Proof.
  apply holds_step; [apply _|].
  intros w w' o [?|(old & Hp & ->)]%os_remove_effect; [by left|].
  right. unfold dir_at. intros Hq. rewrite lookup_delete_ne; [done|]. congruence.
Qed.

Lemma same_rmtree q p : ¬ p `prefix_of` q → holds (same_at q) (shutil_rmtree p).
Proof.
  intros Hne w w' o. unfold shutil_rmtree.
  destruct (fs w !! p) as [[old|]|]; intros [= <- <-]; try done.
  unfold same_at. simpl. destruct (fs w !! q) as [n|] eqn:Hq.
  - by apply map_lookup_filter_Some.
  - apply map_lookup_filter_None. by left.
Qed.

Lemma same_rename q src dst :
  ¬ src `prefix_of` q → ¬ dst `prefix_of` q → holds (same_at q) (os_rename src dst).
Proof.
  intros Hs Hd w w' o. unfold os_rename.
  assert (Hmoved : same_at q (fs w) (moved (fs w) src dst)).
  { unfold same_at. by rewrite lookup_moved, !decide_False. }
  repeat (match goal with
          | |- context [match ?x with _ => _ end] => destruct x
          end; try (intros [= <- <-]; first [done | exact Hmoved])).
Qed.

End frames.

(** ** Installing the binaries *)

Section installing.
Implicit Types (f : filesystem) (p q d src : path) (w : world) (P : profile).

Lemma basename_snoc d c : basename (d ++ [c]) = c.
Proof. unfold basename. by rewrite last_snoc. Qed.

(** The inner loop over the files of one directory copies its library
    files. *)
Lemma inner_loop_libraries d cs (body : path → M unit) w :
  for_ cs (λ file, if negb (is_library file) then mret tt else body (d ++ [file])) w
  = for_ (filter (λ s, is_library (basename s) = true) ((λ c, d ++ [c]) <$> cs)) body w.
Proof.
  revert w. induction cs as [|c cs IH]; intros w; [done|].
  cbn [for_ fmap list_fmap]. destruct (is_library c) eqn:Hc.
  - rewrite filter_cons_True by (by rewrite basename_snoc).
    cbn [for_ negb]. unfold mbind, M_bind.
    destruct (body (d ++ [c]) w) as [w1 [[]|e|x]]; [apply IH | done | done].
  - rewrite filter_cons_False by (by rewrite basename_snoc, Hc).
    cbn [negb]. run_ret by reflexivity. apply IH.
Qed.

Lemma outer_loop_libraries f ds (body : path → M unit) w :
  for_ ((λ d, (d, dirs_in f d, files_in f d)) <$> ds)
       (λ t : path * list string * list string,
          let '(root, dirs, files) := t in
          for_ files (λ file,
            if negb (is_library file) then mret tt else body (root ++ [file]))) w
  = for_ (filter (λ s, is_library (basename s) = true)
                 (d ← ds; (λ c, d ++ [c]) <$> files_in f d)) body w.
Proof.
  revert w. induction ds as [|d ds IH]; intros w; [done|].
  cbn [fmap list_fmap for_ mbind list_bind]. rewrite filter_app, for_app.
  apply run_bind_ext; [apply inner_loop_libraries | intros _ w1; apply IH].
Qed.

(** The installer is the loop over the library files of the walk,
    followed by the executable. *)
Lemma update_server_unfold P ui sf w :
  update_server P ui sf w
  = (for_ (lib_sources (fs w)
             (os_path_join (ui ++ ["server"]) (SERVER_BINARIES_LOCATION P)))
          (copy_library
             (os_path_join (ui ++ ["server"]) (SERVER_BINARIES_LOCATION P))
             (os_path_join sf (SERVER_BINARIES_LOCATION P)));;
     copy_executable (os_path_join (ui ++ ["server"]) (EXEC_FILE_NAME P))
                     (os_path_join sf (EXEC_FILE_NAME P))) w.
Proof.
  unfold update_server. cbv zeta.
  run_ret by reflexivity.
  apply run_bind_ext; [|done].
  unfold lib_sources, walk_files. case_bool_decide; [|done].
  apply (outer_loop_libraries (fs w) _
           (copy_library
              (os_path_join (ui ++ ["server"]) (SERVER_BINARIES_LOCATION P))
              (os_path_join sf (SERVER_BINARIES_LOCATION P)))).
Qed.

(** What the resolved profiles have in common: the executable's name is
    one plain component and no library name, and the library folder is
    a plain relative path. *)
Lemma profile_paths h w0 w0' P :
  module_init h w0 = (w0', Ret P) →
  (∀ d, os_path_join d (EXEC_FILE_NAME P) = d ++ [EXEC_FILE_NAME P]) ∧
  (∀ d, os_path_join d (SERVER_BINARIES_LOCATION P) = d ++ loc_of P) ∧
  is_library (EXEC_FILE_NAME P) = false ∧
  EXEC_FILE_NAME P ≠ "updates.log".
Proof.
  rewrite module_init_cases. destruct (unsupported h) eqn:Hu; [done|].
  intros [= _ <-]. revert Hu. destruct h as [os b64 arm].
  unfold unsupported, entry_str, entry, loc_of, cpu_arch, os_name, cpu_bits. simpl.
  destruct arm, (String.eqb os "Windows"), b64; intros Hu; try discriminate Hu;
    (split_and!;
       [intros d; vm_compute; reflexivity
       | intros d; vm_compute; first [reflexivity | symmetry; apply app_nil_r]
       | vm_compute; reflexivity
       | vm_compute; discriminate]).
Qed.

(** Copying the libraries of a new build over their older versions. *)
Section replacing.
Context (f0 : filesystem) (binaries dest : path).
Hypothesis Hwf : wf f0.

Let target (src : path) : path := dest ++ relpath src binaries.

Hypothesis Hold : ∀ src, src ∈ lib_sources f0 binaries →
                         ∃ old, f0 !! target src = Some (File old).
Hypothesis Hdisj : ∀ src, src ∈ lib_sources f0 binaries →
                          ¬ binaries `prefix_of` target src.

Lemma lib_source_shape src :
  src ∈ lib_sources f0 binaries →
  ∃ r c data, src = binaries ++ r ++ [c] ∧ is_library c = true ∧
              f0 !! src = Some (File data).
Proof.
  unfold lib_sources. case_bool_decide; [|by intros ?%elem_of_nil].
  intros [Hlib Hwalk]%list_elem_of_filter.
  apply elem_of_walk_files in Hwalk as (d & c & data & -> & Hf & _ & [r ->]).
  exists r, c, data. rewrite basename_snoc in Hlib.
  split_and!; [by rewrite <- app_assoc | done | done].
Qed.

Lemma NoDup_lib_sources : NoDup (lib_sources f0 binaries).
Proof.
  unfold lib_sources. case_bool_decide; [|apply NoDup_nil_2].
  apply NoDup_filter, NoDup_walk_files.
Qed.

Lemma target_shape r c : target (binaries ++ r ++ [c]) = dest ++ r ++ [c].
Proof. unfold target, relpath. by rewrite drop_app_length. Qed.

Lemma target_inj src src' :
  src ∈ lib_sources f0 binaries → src' ∈ lib_sources f0 binaries →
  target src = target src' → src = src'.
Proof.
  intros (r & c & ? & -> & _)%lib_source_shape (r' & c' & ? & -> & _)%lib_source_shape.
  rewrite !target_shape. intros Heq%(inj (app dest)). by rewrite Heq.
Qed.

Lemma target_is_library src :
  src ∈ lib_sources f0 binaries → is_library (basename (target src)) = true.
Proof.
  intros (r & c & ? & -> & Hc & _)%lib_source_shape.
  by rewrite target_shape, app_assoc, basename_snoc.
Qed.

Lemma target_parent src :
  src ∈ lib_sources f0 binaries →
  target src ≠ [] ∧ f0 !! parent (target src) = Some Dir.
Proof.
  intros Hsrc. destruct (Hold _ Hsrc) as [old Ht].
  assert (Hne : target src ≠ []).
  { intros Heq. rewrite Heq in Ht. destruct Hwf as [Hroot _]. congruence. }
  split; [done|].
  apply (wf_prefix f0 _ (target src)); [done | by rewrite Ht | apply parent_prefix |].
  by apply parent_ne.
Qed.

Section copying.
Context (done_ todo : list path) (src : path) (f : filesystem).
Hypothesis Hsplit : lib_sources f0 binaries = done_ ++ src :: todo.
Hypothesis Hcopied : ∀ s, s ∈ done_ → f !! target s = f0 !! s.
Hypothesis Hrest : ∀ q, (∀ s, s ∈ done_ → q ≠ target s) → f !! q = f0 !! q.

Lemma done_source s : s ∈ done_ → s ∈ lib_sources f0 binaries.
Proof. rewrite Hsplit. intros ?. apply elem_of_app. by left. Qed.

Lemma this_source : src ∈ lib_sources f0 binaries.
Proof. rewrite Hsplit. apply elem_of_app. right. apply list_elem_of_here. Qed.

Lemma this_not_done : src ∉ done_.
Proof.
  pose proof NoDup_lib_sources as Hnd. rewrite Hsplit in Hnd.
  apply NoDup_app in Hnd as (_ & Hdis & _). intros Hin.
  apply (Hdis _ Hin), list_elem_of_here.
Qed.

Lemma copy_library_run o :
  ∃ data, f0 !! src = Some (File data) ∧
          copy_library binaries dest src (World f o)
          = (World (<[target src := File data]> f) o, Ret tt).
Proof.
  destruct (lib_source_shape _ this_source) as (r & c & data & Hshape & Hc & Hdata).
  destruct (Hold _ this_source) as [old Hold'].
  destruct (target_parent _ this_source) as [Hne Hpar].
  exists data. split; [done|].
  assert (Htarget : f !! target src = Some (File old)).
  { rewrite Hrest; [done|]. intros s Hs Heq.
    apply this_not_done. by rewrite (target_inj src s this_source (done_source _ Hs) Heq). }
  assert (Hparent : f !! parent (target src) = Some Dir).
  { rewrite Hrest; [done|]. intros s Hs Heq.
    destruct (Hold _ (done_source _ Hs)) as [old' Hold'']. congruence. }
  assert (Hsrc : f !! src = Some (File data)).
  { rewrite Hrest; [done|]. intros s Hs Heq.
    apply (Hdisj _ (done_source _ Hs)). rewrite <- Heq, Hshape. by apply prefix_app_r. }
  assert (Hdiff : src ≠ target src).
  { intros Heq. apply (Hdisj _ this_source). rewrite <- Heq, Hshape. by apply prefix_app_r. }
  unfold copy_library. fold (target src).
  run_ret by (unfold os_path_exists; simpl; rewrite Hparent;
              rewrite bool_decide_eq_true_2 by eauto; reflexivity).
  run_ret by reflexivity.
  unfold shutil_copy2.
  run_ret by (unfold os_path_isdir; simpl; rewrite Htarget;
              rewrite bool_decide_eq_false_2 by done; reflexivity).
  run_ret by reflexivity. simpl. rewrite Hsrc, bool_decide_eq_false_2 by done.
  rewrite write_whole_file; [done|]. simpl.
  apply write_obstacle_None; [done | done | by rewrite Htarget].
Qed.

End copying.

(** The loop replaces every library and touches nothing else. *)
Lemma copy_libraries_run done_ todo f o :
  lib_sources f0 binaries = done_ ++ todo →
  (∀ s, s ∈ done_ → f !! target s = f0 !! s) →
  (∀ q, (∀ s, s ∈ done_ → q ≠ target s) → f !! q = f0 !! q) →
  ∃ f', for_ todo (copy_library binaries dest) (World f o) = (World f' o, Ret tt) ∧
        (∀ s, s ∈ lib_sources f0 binaries → f' !! target s = f0 !! s) ∧
        (∀ q, (∀ s, s ∈ lib_sources f0 binaries → q ≠ target s) → f' !! q = f0 !! q).
Proof.
  revert done_ f. induction todo as [|src todo IH]; intros done_ f Hsplit Hcopied Hrest.
  - rewrite app_nil_r in Hsplit. exists f. rewrite Hsplit. done.
  - destruct (copy_library_run done_ todo src f Hsplit Hrest o) as (data & Hdata & Hrun).
    destruct (IH (done_ ++ [src]) (<[target src := File data]> f))
      as (f' & Hrun' & Hlibs & Hothers).
    + by rewrite <- app_assoc.
    + intros s [Hs| ->%list_elem_of_singleton]%elem_of_app.
      * rewrite lookup_insert_ne; [by apply Hcopied|]. intros Heq.
        apply (this_not_done done_ todo src Hsplit).
        rewrite (target_inj src s); [done | | | done].
        -- by eapply this_source.
        -- by eapply done_source.
      * by rewrite lookup_insert_eq.
    + intros q Hq. rewrite lookup_insert_ne.
      * apply Hrest. intros s Hs. apply Hq, elem_of_app. by left.
      * intros Heq. apply (Hq src); [|done]. apply elem_of_app. right.
        apply list_elem_of_here.
    + exists f'. split; [|done]. simpl. by run_ret by exact Hrun.
Qed.

End replacing.




End installing.

(** ** Frames of the pipeline's stages *)

Section stage_frames.
Implicit Types (f : filesystem) (p q d src dst dest : path) (w : world)
  (E : env) (K : machine) (P : profile).

Lemma holds_get_fs R `{!PreOrder R} : holds R (λ w, (w, Ret (fs w))).
Proof. by apply holds_reader. Qed.

(** Copying a file writes at the destination, or inside it when it is
    a directory. *)
Lemma holds_copy2 R `{!PreOrder R} src dst :
  (∀ p, p = dst ∨ p = dst ++ [basename src] →
        ∀ data, holds R (open_wb p) ∧ holds R (write_more p data)) →
  holds R (shutil_copy2 src dst).
Proof.
  intros Hw. unfold shutil_copy2. apply holds_bind; [done | (apply holds_isdir; first [done | apply _])|].
  intros d. apply holds_bind; [done | (apply holds_get_fs; first [done | apply _])|]. intros f.
  destruct (f !! src) as [n|]; [|(apply holds_raise; first [done | apply _])].
  case_bool_decide; [(apply holds_raise; first [done | apply _])|].
  destruct n as [data|]; [|(apply holds_raise; first [done | apply _])].
  assert (Hp : (if d then dst ++ [basename src] else dst) = dst
               ∨ (if d then dst ++ [basename src] else dst) = dst ++ [basename src])
    by (destruct d; auto).
  destruct (Hw _ Hp data) as [Ho Hm].
  apply holds_bind; [done | done | by intros _].
Qed.

Lemma same_copy2 q src dst :
  q ≠ dst → q ≠ dst ++ [basename src] → holds (same_at q) (shutil_copy2 src dst).
Proof.
  intros H1 H2. apply holds_copy2; [apply _|]. intros p [-> | ->] data;
    (split; [by apply same_open_wb | by apply same_write_more]).
Qed.

Lemma dir_copy2 q src dst : holds (dir_at q) (shutil_copy2 src dst).
Proof.
  apply holds_copy2; [apply _|]. intros p _ data.
  split; [apply dir_open_wb | apply dir_write_more].
Qed.

(** Weakening a frame. *)
Lemma holds_weaken {A : Type} (R R' : filesystem → filesystem → Prop) (m : M A) :
  (∀ f f', R f f' → R' f f') → holds R m → holds R' m.
Proof. intros Himp Hm w w' o Hrun. by eapply Himp, Hm. Qed.

(** Unpacking one member writes at its place and makes directories
    above it. *)
Lemma same_extract_member q dest (m : path * node) :
  ¬ q `prefix_of` dest ++ m.1 → holds (same_at q) (extract_member dest m).
Proof.
  intros Hq. unfold extract_member.
  assert (Hne : q ≠ dest ++ m.1) by (by intros ->).
  apply holds_bind; [apply _ | (apply holds_exists; first [done | apply _])|]. intros e.
  apply holds_bind; [apply _| |].
  - apply holds_if; [(apply holds_mret; first [done | apply _])|]. apply same_makedirs.
    intros Hpre. apply Hq. etrans; [done | apply parent_prefix].
  - intros _. destruct m.2.
    + apply holds_bind; [apply _ | by apply same_open_wb|].
      intros _. by apply same_write_more.
    + apply holds_bind; [apply _ | (apply holds_exists; first [done | apply _])|]. intros d.
      apply holds_if; [(apply holds_mret; first [done | apply _]) | by apply same_mkdir].
Qed.

Lemma dir_extract_member q dest (m : path * node) :
  holds (dir_at q) (extract_member dest m).
Proof.
  unfold extract_member.
  apply holds_bind; [apply _ | (apply holds_exists; first [done | apply _])|]. intros e.
  apply holds_bind; [apply _| |].
  - apply holds_if; [(apply holds_mret; first [done | apply _]) | apply dir_makedirs].
  - intros _. destruct m.2.
    + apply holds_bind; [apply _ | apply dir_open_wb|].
      intros _. apply dir_write_more.
    + apply holds_bind; [apply _ | (apply holds_exists; first [done | apply _])|]. intros d.
      apply holds_if; [(apply holds_mret; first [done | apply _]) | apply dir_mkdir].
Qed.

Lemma holds_as_process R (m : M unit) : holds R m → holds R (as_process m).
Proof.
  intros Hm w w' o. unfold as_process.
  destruct (m w) as [w1 [a|e|c]] eqn:Hrun; intros [= <- <-]; by eapply Hm.
Qed.

(** Extraction into [dest] stays at or below [dest], up to the
    directories it may have to make above it. *)
Lemma holds_extract_files R `{!PreOrder R} K file_path dest :
  (∀ m, holds R (extract_member dest m)) →
  (∀ c, holds R (os_rename (dest ++ [c]) (dest ++ ["server"]))) →
  holds R (extract_files K file_path dest).
Proof.
  intros Hmember Hrename. unfold extract_files.
  destruct (endswith (basename file_path) ".exe").
  - apply holds_bind; [done| |].
    + apply holds_if; [(apply holds_mret; first [done | apply _])|].
      apply holds_bind; [done | (apply holds_print; first [done | apply _]) | intros _; (apply holds_exit; first [done | apply _])].
    + intros _. unfold run_7z. apply holds_as_process. intros w w' o.
      destruct (fs w !! file_path) as [[data|]|]; try (by intros [= <- <-]).
      destruct (un7z K data) as [members|]; [|by intros [= <- <-]].
      apply holds_for; [done|]. intros m _. apply Hmember.
  - destruct (endswith (basename file_path) ".tar.gz").
    + apply holds_bind; [done| |].
      { apply holds_reader; [done|]. intros w. unfold tarfile_open.
        destruct (fs w !! file_path) as [[data|]|]; [|done..].
        by destruct (untar_gz K data). }
      intros members. apply holds_bind; [done| |].
      { apply holds_for; [done|]. intros m _. apply Hmember. }
      intros _. apply holds_bind; [done| |].
      { apply holds_reader; [done|]. intros w. unfold os_listdir.
        by destruct (fs w !! dest) as [[data|]|]. }
      intros listing. apply holds_bind; [done| |].
      { destruct listing; [(apply holds_raise; first [done | apply _]) | (apply holds_mret; first [done | apply _])]. }
      intros c. apply Hrename.
    + apply holds_bind; [done | (apply holds_print; first [done | apply _]) | intros _; (apply holds_exit; first [done | apply _])].
Qed.

Lemma same_extract_files q K file_path dest :
  ¬ dest `prefix_of` q → (∀ rel, ¬ q `prefix_of` dest ++ rel) →
  holds (same_at q) (extract_files K file_path dest).
Proof.
  intros Hd Hq. apply holds_extract_files; [apply _| |].
  - intros m. by apply same_extract_member.
  - intros c. apply same_rename; intros Hpre; apply Hd;
      (etrans; [|exact Hpre]); by apply prefix_app_r.
Qed.

Lemma dir_extract_files K file_path dest :
  holds (dir_at dest) (extract_files K file_path dest).
Proof.
  apply holds_extract_files; [apply _| |].
  - intros m. apply dir_extract_member.
  - intros c. eapply holds_weaken; [apply same_dir|].
    apply same_rename; intros Hpre%prefix_length;
      rewrite length_app in Hpre; simpl in Hpre; lia.
Qed.

(** The download writes its local file only. *)
Lemma holds_download R `{!PreOrder R} E url dest :
  (∀ data, holds R (open_wb (os_path_join dest (last_segment url)))
           ∧ holds R (write_more (os_path_join dest (last_segment url)) data)) →
  holds R (download_file E url dest).
Proof.
  intros Hw. unfold download_file.
  destruct (http_get E url) as [st chunks broken|e]; [|(apply holds_raise; first [done | apply _])].
  apply holds_bind; [done| |].
  { unfold raise_for_status. repeat case_bool_decide;
      first [(apply holds_raise; first [done | apply _]) | (apply holds_mret; first [done | apply _])]. }
  intros _. apply holds_bind; [done | apply (Hw "")|].
  intros _. apply holds_bind; [done| |].
  { apply holds_for; [done|]. intros c _. apply Hw. }
  intros _. destruct broken; [(apply holds_raise; first [done | apply _]) | (apply holds_mret; first [done | apply _])].
Qed.

Lemma same_download q E url dest :
  q ≠ os_path_join dest (last_segment url) → holds (same_at q) (download_file E url dest).
Proof.
  intros Hq. apply holds_download; [apply _|]. intros data.
  split; [by apply same_open_wb | by apply same_write_more].
Qed.

Lemma dir_download q E url dest : holds (dir_at q) (download_file E url dest).
Proof.
  apply holds_download; [apply _|]. intros data.
  split; [apply dir_open_wb | apply dir_write_more].
Qed.

(** Clearing a folder removes files below it. *)
Lemma returns_walk top :
  returns (os_walk top)
          (λ triples, ∀ t, t ∈ triples → top `prefix_of` t.1.1).
Proof.
  intros w w' triples [= <- <-] t. case_bool_decide; [|by intros ?%elem_of_nil].
  intros (d & -> & Hd)%list_elem_of_fmap. simpl.
  by apply elem_of_dirs_under in Hd as [_ ?].
Qed.

Lemma same_clear_folder q folder :
  ¬ folder `prefix_of` q → holds (same_at q) (clear_folder folder).
Proof.
  intros Hq. unfold clear_folder.
  apply holds_bind; [apply _ | (apply holds_exists; first [done | apply _])|]. intros e.
  apply holds_bind; [apply _| |].
  { apply holds_if; [(apply holds_isdir; first [done | apply _]) | (apply holds_mret; first [done | apply _])]. }
  intros d. apply holds_if; [|(apply holds_mret; first [done | apply _])].
  eapply holds_bind_post; [apply _ | (apply holds_walk; first [done | apply _]) | apply returns_walk|].
  intros triples Htriples. apply holds_for; [apply _|].
  intros [[root dirs] files] Ht. apply holds_for; [apply _|].
  intros file _. apply same_remove. intros ->. apply Hq.
  etrans; [apply (Htriples _ Ht)|]. simpl. by apply prefix_app_r.
Qed.

Lemma dir_clear_folder q folder : holds (dir_at q) (clear_folder folder).
Proof.
  unfold clear_folder.
  apply holds_bind; [apply _ | (apply holds_exists; first [done | apply _])|]. intros e.
  apply holds_bind; [apply _| |].
  { apply holds_if; [(apply holds_isdir; first [done | apply _]) | (apply holds_mret; first [done | apply _])]. }
  intros d. apply holds_if; [|(apply holds_mret; first [done | apply _])].
  apply holds_bind; [apply _ | (apply holds_walk; first [done | apply _])|].
  intros triples. apply holds_for; [apply _|].
  intros [[root dirs] files] _. apply holds_for; [apply _|].
  intros file _. apply dir_remove.
Qed.

(** Deleting a folder removes what is at or below it. *)
Lemma same_delete_folder q folder :
  ¬ folder `prefix_of` q → holds (same_at q) (delete_folder folder).
Proof.
  intros Hq. unfold delete_folder.
  apply holds_bind; [apply _ | (apply holds_exists; first [done | apply _])|]. intros e.
  apply holds_bind; [apply _| |].
  { apply holds_if; [(apply holds_isdir; first [done | apply _]) | (apply holds_mret; first [done | apply _])]. }
  intros d. apply holds_if; [by apply same_rmtree | (apply holds_mret; first [done | apply _])].
Qed.

End stage_frames.

(** ** The main run, stage by stage *)

Section stages.
Implicit Types (f : filesystem) (p q d : path) (w : world)
  (E : env) (K : machine) (P : profile).

Lemma main_body_stages E K P args w :
  main_body E K P args w
  = (t ← reach_extraction E K P args;
     extract_files K t.2 t.1.2;;
     finish_install K P t.1.1.1 t.1.1.2 t.1.2) w.
Proof.
  unfold main_body, reach_extraction, install_build, finish_install.
  do 9 (rewrite run_bind_assoc; apply run_bind_ext; [reflexivity | intros ? ?]).
  rewrite run_bind_assoc. apply run_bind_ext; [reflexivity | intros ? ?].
  reflexivity.
Qed.

(** The last segment of a URL has no slash in it. *)
Lemma split_slash_plain s :
  Forall (λ x, split_slash x = [x]) (split_slash s).
Proof.
  induction s as [|c s IH]; [by repeat constructor|].
  cbn [split_slash]. destruct (Ascii.eqb c slash) eqn:Hc.
  - constructor; [done | exact IH].
  - destruct (split_slash s) as [|h t]; [by repeat constructor; cbn; rewrite Hc|].
    apply Forall_cons in IH as [Hh Ht]. constructor; [|done].
    cbn [split_slash]. by rewrite Hc, Hh.
Qed.

Lemma last_segment_plain url :
  split_slash (last_segment url) = [last_segment url].
Proof.
  unfold last_segment. destruct (last (split_slash url)) as [x|] eqn:Hlast; [|done].
  simpl. pose proof (split_slash_plain url) as Hall.
  rewrite Forall_forall in Hall. apply Hall.
  apply last_Some in Hlast as [l' ->]. apply elem_of_app. right. apply list_elem_of_here.
Qed.

(** So the local file of a download is in the folder, the folder itself
    or the folder above. *)
Lemma local_filename_cases dest url :
  os_path_join dest (last_segment url) = dest ++ [last_segment url]
  ∨ os_path_join dest (last_segment url) = dest
  ∨ os_path_join dest (last_segment url) = parent dest.
Proof.
  unfold os_path_join. rewrite last_segment_plain. simpl. unfold step.
  destruct (String.eqb (last_segment url) "" || String.eqb (last_segment url) ".");
    [auto|]. destruct (String.eqb (last_segment url) ".."); auto.
Qed.

(** Choosing the folder and finding the URL leave the disk alone. *)
Lemma same_disk_input prompt answer : holds same_disk (input prompt answer).
Proof.
  unfold input. apply holds_bind; [apply _ | apply holds_print; apply _|].
  intros _. destruct answer; [apply holds_mret | apply holds_raise]; apply _.
Qed.

Lemma same_disk_ask K P : holds same_disk (ask_for_server_folder K P).
Proof.
  unfold ask_for_server_folder.
  apply holds_bind; [apply _ | apply same_disk_input|]. intros typed.
  apply holds_bind; [apply _| |].
  { apply holds_if; [apply holds_exists | apply holds_exists_typed]; apply _. }
  intros e. apply holds_bind; [apply _| |].
  { apply holds_if; [apply holds_mret; apply _|].
    apply holds_bind; [apply _ | apply holds_print; apply _|].
    intros _. apply holds_exit; apply _. }
  intros _. apply holds_bind; [apply _ | apply holds_exists; apply _|]. intros e'.
  apply holds_bind; [apply _| |].
  { apply holds_if; [apply holds_mret; apply _|].
    apply holds_bind; [apply _ | apply holds_print; apply _|]. intros _.
    apply holds_bind; [apply _ | apply same_disk_input|]. intros answer.
    apply holds_if; [apply holds_mret | apply holds_exit]; apply _. }
  intros _. apply holds_mret; apply _.
Qed.

Lemma same_disk_choose K P args : holds same_disk (choose_server_folder K P args).
Proof.
  unfold choose_server_folder. destruct args as [|provided args]; [apply same_disk_ask|].
  destruct (String.eqb provided ""); [apply same_disk_ask|].
  apply holds_bind; [apply _| |].
  { apply holds_exists_typed; apply _. }
  intros e. apply holds_bind; [apply _| |].
  { apply holds_if; [apply holds_mret; apply _|].
    apply holds_bind; [apply _ | apply holds_print; apply _|].
    intros _. apply holds_exit; apply _. }
  intros _. apply holds_bind; [apply _ | apply holds_print; apply _|].
  intros _. apply holds_mret; apply _.
Qed.

Lemma same_disk_fetch E P : holds same_disk (fetch_exe_url E P).
Proof.
  unfold fetch_exe_url. apply holds_bind; [apply _| |].
  { unfold requests_get. destruct (http_get E nightly_url) as [st chunks [e|]|e];
      [apply holds_raise | apply holds_mret | apply holds_raise]; apply _. }
  intros response. apply holds_bind; [apply _| |].
  { apply holds_if; [|apply holds_mret; apply _].
    apply holds_bind; [apply _ | apply holds_print; apply _|].
    intros _. apply holds_exit; apply _. }
  intros _. cbv zeta. apply holds_bind; [apply _| |].
  { apply holds_reader; [apply _|]. intros w.
    destruct (latest_href_pure (BUILD_STRING P) (html_parser E response.2))
      as (o & _ & Ho). by rewrite Ho. }
  intros href. apply holds_bind; [apply _ | apply holds_print; apply _|].
  intros _. apply holds_mret; apply _.
Qed.

(** After [os.makedirs] has returned, the directory is there. *)
Lemma makedirs_ret_dir exist_ok p w w' :
  os_makedirs exist_ok p w = (w', Ret tt) → fs w' !! p = Some Dir.
Proof.
  unfold os_makedirs. intros (w1 & [] & _ & Hrest)%run_bind_inv.
  apply run_bind_inv in Hrest as (w2 & d & Hd & Hrest).
  injection Hd as <- <-. destruct exist_ok; simpl in Hrest.
  - case_bool_decide as Hdir; [by injection Hrest as <-|].
    apply os_mkdir_effect in Hrest as Heff. destruct Heff as [Heq|[_ ->]].
    + revert Hrest. unfold os_mkdir.
      destruct (fs w1 !! p) eqn:Hp; [done|]. destruct p; [done|].
      destruct (fs w1 !! parent (s :: p)) as [[|]|]; [done| |done].
      intros [= <-]. simpl. apply lookup_insert_eq.
    + apply lookup_insert_eq.
  - revert Hrest. unfold os_mkdir.
    destruct (fs w1 !! p) eqn:Hp; [done|]. destruct p; [done|].
    destruct (fs w1 !! parent (s :: p)) as [[|]|]; [done| |done].
    intros [= <-]. simpl. apply lookup_insert_eq.
Qed.

(** The staging folder after it has been prepared. *)
Lemma prepare_ret sf w w' ui :
  prepare_updateinfo_folder sf w = (w', Ret ui) →
  ui = sf ++ ["updateinfo"] ∧
  (fs w' !! ui = Some Dir ∨ ∃ data, fs w !! ui = Some (File data)).
Proof.
  unfold prepare_updateinfo_folder. cbv zeta.
  intros (w1 & e & He & Hrest)%run_bind_inv. injection He as <- <-.
  apply run_bind_inv in Hrest as (w2 & [] & Hmk & Hret). injection Hret as <- <-.
  split; [done|]. case_bool_decide as Hex.
  - injection Hmk as <-. destruct Hex as [[data|] Hn]; eauto.
  - left. by eapply makedirs_ret_dir.
Qed.

Lemma same_prepare q sf :
  ¬ q `prefix_of` sf ++ ["updateinfo"] → holds (same_at q) (prepare_updateinfo_folder sf).
Proof.
  intros Hq. unfold prepare_updateinfo_folder. cbv zeta.
  apply holds_bind; [apply _ | apply holds_exists; apply _|]. intros e.
  apply holds_bind; [apply _| |].
  { apply holds_if; [apply holds_mret; apply _ | by apply same_makedirs]. }
  intros _. apply holds_mret; apply _.
Qed.

Lemma dir_prepare q sf : holds (dir_at q) (prepare_updateinfo_folder sf).
Proof.
  unfold prepare_updateinfo_folder. cbv zeta.
  apply holds_bind; [apply _ | apply holds_exists; apply _|]. intros e.
  apply holds_bind; [apply _| |].
  { apply holds_if; [apply holds_mret; apply _ | apply dir_makedirs]. }
  intros _. apply holds_mret; apply _.
Qed.

(** The installer keeps every path that is neither the executable's
    place nor named like a library, and never removes a directory. *)
Lemma lib_source_is_library f binaries src :
  src ∈ lib_sources f binaries → is_library (basename src) = true.
Proof.
  intros (r & c & data & -> & Hc & _)%lib_source_shape.
  by rewrite app_assoc, basename_snoc.
Qed.

Lemma same_copy_executable q src dst :
  q ≠ dst → holds (same_at q) (copy_executable src dst).
Proof.
  intros Hq w w' o. unfold copy_executable.
  assert (Hcopy : ∀ w1, fs w1 !! dst ≠ Some Dir →
            shutil_copy2 src dst w1 = (w', o) → same_at q (fs w1) (fs w')).
  { intros w1 Hnd. unfold shutil_copy2.
    run_ret by (unfold os_path_isdir; rewrite bool_decide_eq_false_2 by done;
                reflexivity).
    run_ret by reflexivity.
    destruct (fs w1 !! src) as [n|]; [|by intros [= <- <-]].
    case_bool_decide; [by intros [= <- <-]|].
    destruct n as [data|]; [|by intros [= <- <-]].
    apply holds_bind; [apply _ | by apply same_open_wb|].
    intros _. by apply same_write_more. }
  destruct (fs w !! dst) as [[old|]|] eqn:Hdst.
  - run_ret by (unfold os_path_exists; rewrite Hdst;
                rewrite bool_decide_eq_true_2 by eauto; reflexivity).
    run_ret by (unfold os_remove; rewrite Hdst; reflexivity).
    intros Hrun. apply Hcopy in Hrun; simpl in *.
    + unfold same_at in *. by rewrite Hrun, lookup_delete_ne.
    + by rewrite lookup_delete_eq.
  - run_ret by (unfold os_path_exists; rewrite Hdst;
                rewrite bool_decide_eq_true_2 by eauto; reflexivity).
    run_raise by (unfold os_remove; rewrite Hdst; reflexivity).
    by intros [= <- <-].
  - run_ret by (unfold os_path_exists; rewrite Hdst;
                rewrite bool_decide_eq_false_2 by (by intros [??]); reflexivity).
    run_ret by reflexivity.
    apply Hcopy. by rewrite Hdst.
Qed.

Lemma kept_update_server h w0 w0' P ui sf q :
  module_init h w0 = (w0', Ret P) →
  is_library (basename q) = false →
  q ≠ sf ++ [EXEC_FILE_NAME P] →
  holds (kept_at q) (update_server P ui sf).
Proof.
  intros Hinit Hq Hexe w w' o.
  destruct (profile_paths _ _ _ _ Hinit) as (Hexe_join & Hloc_join & _ & _).
  rewrite update_server_unfold, !Hloc_join, !Hexe_join.
  apply holds_bind; [apply _| |].
  - apply holds_for; [apply _|]. intros src Hsrc. unfold copy_library. cbv zeta.
    apply holds_bind; [apply _ | apply holds_exists; apply _|]. intros e.
    apply holds_bind; [apply _| |].
    { apply holds_if; [apply holds_mret; apply _ | apply kept_makedirs]. }
    intros _. eapply holds_weaken; [apply same_kept|].
    pose proof (target_is_library _ _ (sf ++ loc_of P) _ Hsrc) as Ht.
    cbv beta zeta in Ht.
    apply same_copy2.
    + intros ->. congruence.
    + intros ->. rewrite basename_snoc in Hq.
      rewrite (lib_source_is_library _ _ _ Hsrc) in Hq. done.
  - intros _. eapply holds_weaken; [apply same_kept|].
    by apply same_copy_executable.
Qed.

Lemma dir_update_server P ui sf q : holds (dir_at q) (update_server P ui sf).
Proof.
  unfold update_server. cbv zeta.
  apply holds_bind; [apply _ | apply holds_walk; apply _|]. intros triples.
  apply holds_bind; [apply _| |].
  - apply holds_for; [apply _|]. intros [[root dirs] files] _.
    apply holds_for; [apply _|]. intros file _.
    apply holds_if; [apply holds_mret; apply _|].
    apply holds_bind; [apply _ | apply holds_exists; apply _|]. intros e.
    apply holds_bind; [apply _| |].
    { apply holds_if; [apply holds_mret; apply _ | apply dir_makedirs]. }
    intros _. apply dir_copy2.
  - intros _. apply holds_bind; [apply _ | apply holds_exists; apply _|]. intros e.
    apply holds_bind; [apply _| |].
    { apply holds_if; [apply dir_remove | apply holds_mret; apply _]. }
    intros _. apply dir_copy2.
Qed.



Lemma same_log_update K sf url q :
  q ≠ sf ++ ["updates.log"] → holds (same_at q) (log_update K sf url).
Proof.
  intros Hq. unfold log_update. cbv zeta.
  apply holds_bind; [apply _ | by apply same_open_a|]. intros _.
  by apply same_write_more.
Qed.


(** The log and the staging folder are different entries of the server
    folder, neither above the other. *)
Lemma log_not_above_staging sf rel :
  ¬ (sf ++ ["updates.log"]) `prefix_of` (sf ++ ["updateinfo"]) ++ rel.
Proof.
  rewrite <- app_assoc. intros Hpre%prefix_app_inv.
  simpl in Hpre. by apply prefix_cons_inv_1 in Hpre.
Qed.

Lemma log_not_staging sf :
  ¬ (sf ++ ["updates.log"]) `prefix_of` sf ++ ["updateinfo"].
Proof.
  pose proof (log_not_above_staging sf []) as H. by rewrite app_nil_r in H.
Qed.

Lemma staging_not_above_log sf :
  ¬ (sf ++ ["updateinfo"]) `prefix_of` sf ++ ["updates.log"].
Proof.
  intros Hpre%prefix_app_inv. by apply prefix_cons_inv_1 in Hpre.
Qed.

Lemma log_is_not_local sf url :
  sf ++ ["updates.log"] ≠ os_path_join (sf ++ ["updateinfo"]) (last_segment url).
Proof.
  destruct (local_filename_cases (sf ++ ["updateinfo"]) url) as [-> | [-> | ->]].
  - intros Heq. apply (log_not_above_staging sf [last_segment url]). by rewrite <- Heq.
  - intros Heq%(inj (app sf)). done.
  - rewrite parent_snoc. intros Heq%(f_equal length).
    rewrite length_app in Heq. simpl in Heq. lia.
Qed.

Lemma print_ret s w w' (u : unit) : print s w = (w', Ret u) → fs w' = fs w.
Proof. by intros [= <- _]. Qed.

(** What is known when the run has reached the extraction. *)
Lemma reach_extraction_ret E K P args w w1 sf url ui file :
  reach_extraction E K P args w = (w1, Ret (sf, url, ui, file)) →
  ui = sf ++ ["updateinfo"] ∧
  fs w1 !! (sf ++ ["updates.log"]) = fs w !! (sf ++ ["updates.log"]) ∧
  (fs w1 !! ui = Some Dir ∨ ∃ data, fs w !! ui = Some (File data)).
Proof.
  unfold reach_extraction.
  intros (wa & [] & Ha%print_ret & H)%run_bind_inv.
  apply run_bind_inv in H as (wb & [] & Hb%print_ret & H).
  apply run_bind_inv in H as (wc & sf' & Hc%same_disk_choose & H).
  apply run_bind_inv in H as (wd & [] & Hd%print_ret & H).
  apply run_bind_inv in H as (we & url' & He%same_disk_fetch & H).
  apply run_bind_inv in H as (wf' & ui' & Hf & H).
  apply run_bind_inv in H as (wg & [] & Hg & H).
  apply run_bind_inv in H as (wh & [] & Hh%print_ret & H).
  apply run_bind_inv in H as (wi & file' & Hi & H).
  apply run_bind_inv in H as (wj & [] & Hj%print_ret & H).
  injection H as -> -> -> -> ->.
  unfold same_disk in *. simpl in *.
  assert (Hstart : fs we = fs w) by congruence.
  destruct (prepare_ret _ _ _ _ Hf) as [-> Hstaging].
  split; [done|]. split.
  - rewrite Hj.
    rewrite (same_download _ _ _ _ (log_is_not_local sf url) _ _ _ Hi).
    rewrite Hh.
    rewrite (same_clear_folder _ _ (staging_not_above_log sf) _ _ _ Hg).
    rewrite (same_prepare _ _ (log_not_staging sf) _ _ _ Hf).
    by rewrite Hstart.
  - destruct Hstaging as [Hdir|[data Hfile]].
    + left. rewrite Hj. apply (dir_download _ _ _ _ _ _ _ Hi). rewrite Hh.
      by apply (dir_clear_folder _ _ _ _ _ Hg).
    + right. exists data. by rewrite <- Hstart.
Qed.










(** The archives of the sample machine have plain member names. *)
Lemma sample_archives_plain : plain_archives sample_machine.
Proof.
  intros data members [Htar|H7z]; [|done]. simpl in Htar. unfold sample_untar in Htar.
  repeat case_match; simplify_eq;
    apply (bool_decide_unpack _); vm_compute; reflexivity.
Qed.


(** A run whose download cannot be unpacked -- the server answered 304
    with an empty body -- ends in the extraction, with the staging
    folder in place and the log untouched. *)
Example unreadable_download_is_not_logged :
  let r := main_body (Env linux64 web_304 sample_parser) sample_machine linux64_profile
                     ["/srv"] installed_world in
  r.2 = Raise (ReadError "not a gzip file") ∧
  fs r.1 !! ["srv"; "updateinfo"] = Some Dir ∧
  fs r.1 !! ["srv"; "updates.log"] = installed_disk !! ["srv"; "updates.log"].
Proof. cbv zeta. split_and!; vm_compute; reflexivity. Qed.

(** The sample run is such a success: it returns, with one line in the
    log and the staging folder gone. *)
Example sample_run_succeeds :
  let r := main_body sample_env sample_machine linux64_profile ["/srv"] installed_world in
  r.2 = Ret tt ∧
  fs r.1 !! ["srv"; "updates.log"]
  = Some (File ("2024-10-10 09:05:00 - Server updated with "
                +:+ "multitheftauto_linux_x64-1.6-rc-22741.tar.gz"
                +:+ " | Python MTA Server Updater" +:+ nl)) ∧
  fs r.1 !! ["srv"; "updateinfo"] = None ∧
  fs r.1 !! ["srv"; "mta-server64"] = Some (File "ELF1") ∧
  fs r.1 !! ["srv"; "x64"; "a.so"] = Some (File "SO1") ∧
  fs r.1 !! ["srv"; "config.xml"] = Some (File "<config/>").
Proof. cbv zeta. split_and!; vm_compute; reflexivity. Qed.

End stages.

(** * Further properties of the code *)

(** ** The platform tables *)

Section platform_more.
Implicit Types (h : host) (w : world) (P : profile).

(** X1: a host whose system is anything but [Windows] -- Darwin, a BSD,
    an empty answer -- is served as Linux: the module-level code
    resolves the very profile of the Linux host with the same word size
    and architecture, prints nothing and does not exit. *)
Theorem other_systems_get_linux_builds h w :
  OS_SYSTEM h ≠ "Windows" →
  module_init h w = module_init (Host "Linux" (IS_64_BIT h) (IS_ARM h)) w ∧
  ∃ P, module_init h w = (w, Ret P).
Proof.
  intros Hos%String.eqb_neq. rewrite !module_init_cases.
  destruct h as [os b64 arm]. simpl in *.
  unfold unsupported, entry_str, entry, cpu_arch, os_name, cpu_bits. simpl.
  rewrite Hos, andb_false_r. simpl. split; [done | eauto].
Qed.

Lemma other_systems_get_linux_builds_witness :
  module_init darwin64 demo_world = module_init (Host "Linux" true false) demo_world ∧
  ∃ P, module_init darwin64 demo_world = (demo_world, Ret P).
Proof.
  apply (other_systems_get_linux_builds darwin64 demo_world).
  vm_compute. discriminate.
Defined.

(** X2: for every host that resolves, the executable's name is a single
    path component that is neither a library name, nor the log, nor the
    staging folder; and the library folder is the server folder itself
    (the [./] entries) or a single subfolder of it other than the
    staging folder. *)
Theorem install_paths_are_plain h w w' P :
  module_init h w = (w', Ret P) →
  (∀ d, os_path_join d (EXEC_FILE_NAME P) = d ++ [EXEC_FILE_NAME P]) ∧
  is_library (EXEC_FILE_NAME P) = false ∧
  EXEC_FILE_NAME P ≠ "updates.log" ∧ EXEC_FILE_NAME P ≠ "updateinfo" ∧
  ((∀ d, os_path_join d (SERVER_BINARIES_LOCATION P) = d)
   ∨ ∃ c, c ≠ "updateinfo" ∧ c ≠ EXEC_FILE_NAME P ∧
          ∀ d, os_path_join d (SERVER_BINARIES_LOCATION P) = d ++ [c]).
Proof.
  rewrite module_init_cases. destruct (unsupported h) eqn:Hu; [done|].
  intros [= _ <-]. revert Hu. destruct h as [os b64 arm].
  unfold unsupported, entry_str, entry, cpu_arch, os_name, cpu_bits. simpl.
  destruct arm, (String.eqb os "Windows"), b64; intros Hu; try discriminate Hu;
    (split_and!;
       [ intros d; vm_compute; reflexivity
       | vm_compute; reflexivity
       | vm_compute; discriminate
       | vm_compute; discriminate
       | first [ left; intros d; vm_compute; reflexivity
               | right; eexists; split_and!;
                 [ | | intros d; vm_compute; reflexivity ];
                 vm_compute; discriminate ] ]).
Qed.

Lemma install_paths_are_plain_witness :
  (∀ d, os_path_join d "mta-server64" = d ++ ["mta-server64"]) ∧
  is_library "mta-server64" = false ∧
  "mta-server64" ≠ "updates.log" ∧ "mta-server64" ≠ "updateinfo" ∧
  ((∀ d, os_path_join d "x64" = d)
   ∨ ∃ c, c ≠ "updateinfo" ∧ c ≠ "mta-server64" ∧
          ∀ d, os_path_join d "x64" = d ++ [c]).
Proof.
  apply (install_paths_are_plain linux64 (World ∅ [])
           (module_init linux64 (World ∅ [])).1 linux64_profile).
  apply run_outcome. vm_compute. reflexivity.
Defined.

End platform_more.

(** ** Choosing the server folder *)

Section folder_more.
Implicit Types (K : machine) (E : env) (P : profile) (w : world) (f : filesystem).

(** A walk that succeeds ends where the components lead as written. *)
Lemma resolve_lexical f d cs p : resolve_from f d cs = Some p → p = foldl step d cs.
Proof.
  revert d. induction cs as [|c cs IH]; intros d; simpl; [by intros [= <-]|].
  destruct (f !! d) as [[data|]|]; [done | apply IH | done].
Qed.

(** What the system finds under a typed path is there, at the place
    the path leads to. *)
Lemma located_at K f s p : locate K f s = Some p → p = abspath K s ∧ is_Some (f !! p).
Proof.
  unfold locate, abspath. destruct s as [|c s]; [done|].
  remember (split_slash (String c s)) as cs eqn:Hcs. clear Hcs.
  destruct (resolve_from f _ cs) as [p'|] eqn:Hwalk; [|done]. simpl.
  case_bool_decide as Hp; [|done]. intros [= <-]. split; [|done].
  apply resolve_lexical in Hwalk. by destruct (Ascii.eqb c slash).
Qed.

Lemma answer_found_at K f typed :
  answer_found K f typed → is_Some (f !! asked_folder K typed).
Proof.
  unfold answer_found, asked_folder. destruct (String.eqb typed ""); [done|].
  intros [p Hp]. by destruct (located_at _ _ _ _ Hp) as [<- ?].
Qed.

(** The first check of the prompt. *)
Lemma ask_check K typed w :
  (if String.eqb typed "" then os_path_exists (cwd K) else exists_typed K typed) w
  = (w, Ret (bool_decide (answer_found K (fs w) typed))).
Proof.
  unfold os_path_exists, exists_typed.
  destruct (String.eqb typed "") eqn:Hempty; do 2 f_equal; apply bool_decide_ext;
    unfold answer_found; by rewrite Hempty.
Qed.

(** X3: however [ask_for_server_folder] ends, the disk is as before.
    It returns only a folder that the system finds -- the working
    directory or what the typed path names when it is walked on the
    disk -- and only when the executable is in it or the user has
    answered [yes] in any mix of cases.  It exits with code 1 only for
    an answer under which nothing is found, and with code 0 only for an
    answer other than [yes] about a folder that was found without the
    executable; it raises only [EOFError], when the answer it needs is
    missing.  The four cases exclude one another, so each of them is
    also the only way in which its situation can end. *)
Theorem ask_for_server_folder_outcomes K P w w' o :
  ask_for_server_folder K P w = (w', o) →
  fs w' = fs w ∧
  match o with
  | Ret sf =>
      ∃ typed, typed_folder K = Some typed ∧ sf = asked_folder K typed ∧
        answer_found K (fs w) typed ∧
        is_Some (fs w !! sf) ∧
        (is_Some (fs w !! os_path_join sf (EXEC_FILE_NAME P))
         ∨ ∃ answer, typed_confirm K = Some answer ∧ lower answer = "yes")
  | Exit c =>
      ∃ typed, typed_folder K = Some typed ∧
        ((c = 1%Z ∧ ¬ answer_found K (fs w) typed)
         ∨ (c = 0%Z ∧ answer_found K (fs w) typed ∧
            fs w !! os_path_join (asked_folder K typed) (EXEC_FILE_NAME P) = None ∧
            ∃ answer, typed_confirm K = Some answer ∧ lower answer ≠ "yes"))
  | Raise e =>
      e = EOFError "EOF when reading a line" ∧
      (typed_folder K = None
       ∨ ∃ typed, typed_folder K = Some typed ∧
           answer_found K (fs w) typed ∧
           fs w !! os_path_join (asked_folder K typed) (EXEC_FILE_NAME P) = None ∧
           typed_confirm K = None)
  end.
Proof.
  intros Hrun. split; [exact (same_disk_ask K P _ _ _ Hrun)|].
  revert Hrun. unfold ask_for_server_folder, input.
  destruct (typed_folder K) as [typed|] eqn:Htyped; [|intros [= <- <-]; auto].
  fold (asked_folder K typed).
  run_ret by reflexivity. run_ret by apply ask_check.
  unfold mbind, M_bind, print, mret, M_ret, os_path_exists, exit, raise. simpl.
  fold (asked_folder K typed).
  case_bool_decide as Hsf; simpl.
  - pose proof (answer_found_at _ _ _ Hsf) as Hthere.
    case_bool_decide as Hexe; simpl.
    + intros [= <- <-]. exists typed. split_and!; eauto.
    + apply eq_None_not_Some in Hexe.
      destruct (typed_confirm K) as [answer|] eqn:Hanswer.
      2: { intros [= <- <-]. split; [done|]. right. exists typed. split_and!; eauto. }
      destruct (String.eqb (lower answer) "yes") eqn:Hyes; intros [= <- <-].
      * apply String.eqb_eq in Hyes. exists typed. split_and!; eauto.
      * apply String.eqb_neq in Hyes. exists typed. split; [done|]. right.
        split_and!; eauto.
  - intros [= <- <-]. exists typed. split; [done|]. by left.
Qed.

Lemma ask_for_server_folder_outcomes_witness :
  let r := ask_for_server_folder confirming_machine linux64_profile installed_world in
  fs r.1 = fs installed_world ∧
  ∃ typed, typed_folder confirming_machine = Some typed ∧
    ["srv"; "x64"] = asked_folder confirming_machine typed ∧
    answer_found confirming_machine (fs installed_world) typed ∧
    is_Some (fs installed_world !! ["srv"; "x64"]) ∧
    (is_Some (fs installed_world
              !! os_path_join ["srv"; "x64"] (EXEC_FILE_NAME linux64_profile))
     ∨ ∃ answer, typed_confirm confirming_machine = Some answer ∧ lower answer = "yes").
Proof.
  apply (ask_for_server_folder_outcomes confirming_machine linux64_profile
           installed_world _ (Ret ["srv"; "x64"])).
  apply run_outcome. vm_compute. reflexivity.
Defined.

(** X4: a first argument under which the system finds nothing -- a
    missing entry, or a path that leads through a missing entry or
    through a regular file, such as [/srv/missing/..] -- ends the run at
    once: the banner, the host line and the complaint are printed, the
    process exits with code 1, the disk is untouched, and neither the
    web nor further arguments play any part. *)
Theorem provided_folder_must_exist E K P provided rest w :
  provided ≠ "" →
  locate K (fs w) provided = None →
  main E K P (provided :: rest) w
  = (World (fs w)
       (out w ++ [ nl +:+ "---- MTA Server Updater by Fernando ----";
                   nl +:+ "OS: " +:+ OS_SYSTEM (the_host E) +:+ " | 64-bit: "
                     +:+ show_bool (IS_64_BIT (the_host E)) +:+ " | ARM: "
                     +:+ show_bool (IS_ARM (the_host E));
                   "The provided server folder path does not exist: " +:+ provided ]),
     Exit 1).
Proof.
  intros Hne%String.eqb_neq Hmissing. apply main_exit.
  unfold main_body. run_ret by reflexivity. run_ret by reflexivity.
  unfold choose_server_folder, exists_typed. rewrite Hne.
  unfold mbind, M_bind, print, mret, M_ret, exit. simpl.
  rewrite Hmissing, bool_decide_eq_false_2 by (by intros [??]).
  simpl. by rewrite <- !app_assoc.
Qed.

Lemma provided_folder_must_exist_witness :
  main sample_env sample_machine linux64_profile ["/srv/missing/.."; "--force"]
       installed_world
  = (World installed_disk
       [ nl +:+ "---- MTA Server Updater by Fernando ----";
         nl +:+ "OS: " +:+ "Linux" +:+ " | 64-bit: " +:+ "True" +:+ " | ARM: " +:+ "False";
         "The provided server folder path does not exist: " +:+ "/srv/missing/.." ],
     Exit 1).
Proof.
  apply (provided_folder_must_exist sample_env sample_machine linux64_profile
           "/srv/missing/.." ["--force"] installed_world).
  - discriminate.
  - vm_compute. reflexivity.
Defined.

End folder_more.

(** ** Reading the listing *)

Section listing_more.
Implicit Types (E : env) (P : profile) (w : world).

Lemma split_slash_nonempty s : split_slash s ≠ [].
Proof.
  destruct s as [|c s]; [done|]. cbn [split_slash].
  destruct (Ascii.eqb c slash); [done|]. by destruct (split_slash s).
Qed.

(** Splitting at slashes distributes over a slash: Python's
    [(a + "/" + b).split("/") == a.split("/") + b.split("/")]. *)
Lemma split_slash_app a b :
  split_slash (a +:+ String slash b) = split_slash a ++ split_slash b.
Proof.
  induction a as [|c a IH]; [done|].
  change (String c a +:+ String slash b) with (String c (a +:+ String slash b)).
  cbn [split_slash]. rewrite IH. destruct (Ascii.eqb c slash); [done|].
  pose proof (split_slash_nonempty a). by destruct (split_slash a).
Qed.

Lemma last_segment_app a b : last_segment (a +:+ String slash b) = last_segment b.
Proof.
  unfold last_segment. rewrite split_slash_app.
  destruct (last (split_slash b)) as [x|] eqn:Hlast.
  - by rewrite last_app, Hlast.
  - apply last_None in Hlast. by destruct (split_slash_nonempty b).
Qed.

(** X5: any status of the listing page other than 200 -- another
    success code, a redirect, an error -- makes [fetch_exe_url] print
    the code and exit with 1; the body is not parsed and the disk is
    not touched. *)
Theorem listing_status_must_be_200 E P w st chunks :
  http_get E nightly_url = Response st chunks None →
  st ≠ 200%Z →
  fetch_exe_url E P w
  = (World (fs w)
       (out w ++ ["Error fetching the nightly builds page: Website responded with code "
                  +:+ pretty st]),
     Exit 1).
Proof.
  intros Hget Hst. unfold fetch_exe_url, requests_get. rewrite Hget.
  run_ret by reflexivity. simpl. rewrite bool_decide_eq_true_2 by done.
  reflexivity.
Qed.

Lemma listing_status_must_be_200_witness :
  fetch_exe_url (Env linux64 web_503 sample_parser) linux64_profile installed_world
  = (World installed_disk
       ["Error fetching the nightly builds page: Website responded with code "
        +:+ pretty 503%Z],
     Exit 1).
Proof.
  apply (listing_status_must_be_200 (Env linux64 web_503 sample_parser)
           linux64_profile installed_world 503 ["<html>maintenance</html>"]).
  - reflexivity.
  - discriminate.
Defined.

(** X6: when [fetch_exe_url] returns, the listing was served whole with
    status 200, the URL is the listing's address followed by the [href]
    that the chain of lookups found, its last segment -- the name under
    which the build is stored and logged -- is the last segment of that
    [href], the one line that announces the build has been printed, and
    the disk is as before. *)
Theorem fetched_url_names_the_build E P w w' url :
  fetch_exe_url E P w = (w', Ret url) →
  ∃ chunks href,
    http_get E nightly_url = Response 200 chunks None ∧
    latest_href (BUILD_STRING P)
      (html_parser E (fold_right String.append "" chunks)) w = (w, Ret href) ∧
    url = nightly_url +:+ href ∧
    last_segment url = last_segment href ∧
    w' = World (fs w) (out w ++ [found_message P url]).
Proof.
  unfold fetch_exe_url, requests_get.
  destruct (http_get E nightly_url) as [st chunks [e|]|e] eqn:Hget; [done| |done].
  run_ret by reflexivity. simpl. case_bool_decide as Hst; [done|].
  subst st.
  run_ret by reflexivity.
  destruct (latest_href_pure (BUILD_STRING P)
              (html_parser E (fold_right String.append "" chunks))) as (o & _ & Ho).
  intros (w1 & href & Hhref & Hrest)%run_bind_inv.
  rewrite Ho in Hhref. injection Hhref as <- ->.
  injection Hrest as <- <-. exists chunks, href. split_and!; try done.
  apply (last_segment_app "https://nightly.multitheftauto.com" href).
Qed.

Lemma fetched_url_names_the_build_witness :
  ∃ chunks href,
    http_get sample_env nightly_url = Response 200 chunks None ∧
    latest_href (BUILD_STRING linux64_profile)
      (html_parser sample_env (fold_right String.append "" chunks)) installed_world
    = (installed_world, Ret href) ∧
    nightly_url +:+ "multitheftauto_linux_x64-1.6-rc-22741.tar.gz" = nightly_url +:+ href ∧
    last_segment (nightly_url +:+ "multitheftauto_linux_x64-1.6-rc-22741.tar.gz")
    = last_segment href ∧
    (fetch_exe_url sample_env linux64_profile installed_world).1
    = World (fs installed_world)
        (out installed_world
         ++ [found_message linux64_profile
               (nightly_url +:+ "multitheftauto_linux_x64-1.6-rc-22741.tar.gz")]).
Proof.
  apply (fetched_url_names_the_build sample_env linux64_profile installed_world).
  apply run_outcome. vm_compute. reflexivity.
Defined.

End listing_more.

(** ** The staging folder, from preparation to removal *)

Section staging_more.
Implicit Types (f : filesystem) (p q d sf folder : path) (w : world).

(** Where there is no directory, neither function does anything. *)
Lemma not_a_folder_noop folder w :
  fs w !! folder ≠ Some Dir →
  clear_folder folder w = (w, Ret tt) ∧ delete_folder folder w = (w, Ret tt).
Proof.
  intros Hnd. unfold clear_folder, delete_folder.
  unfold os_path_exists, os_path_isdir, mbind, M_bind, mret, M_ret. simpl.
  by case_bool_decide; simpl; rewrite ?bool_decide_eq_false_2 by done.
Qed.

(** Where there is one, [delete_folder] filters the disk. *)
Lemma delete_folder_dir folder w :
  fs w !! folder = Some Dir →
  delete_folder folder w
  = (World (filter (λ qn : path * node, ¬ folder `prefix_of` qn.1) (fs w)) (out w),
     Ret tt).
Proof.
  intros Hdir. unfold delete_folder.
  run_ret by (unfold os_path_exists; rewrite Hdir;
              rewrite bool_decide_eq_true_2 by eauto; reflexivity).
  run_ret by (unfold os_path_isdir; rewrite bool_decide_eq_true_2 by done;
              reflexivity).
  unfold shutil_rmtree. by rewrite Hdir.
Qed.

Lemma lookup_rmtree f folder q :
  filter (λ qn : path * node, ¬ folder `prefix_of` qn.1) f !! q
  = if decide (folder `prefix_of` q) then None else f !! q.
Proof.
  case_decide as Hq.
  - apply map_lookup_filter_None. right. intros n _ Hn. by apply Hn.
  - destruct (f !! q) as [n|] eqn:Hn.
    + by apply map_lookup_filter_Some.
    + apply map_lookup_filter_None. by left.
Qed.

(** Nothing lies below a path that is missing from a well-formed disk. *)
Lemma wf_nothing_below f p q : wf f → f !! p = None → p `prefix_of` q → f !! q = None.
Proof.
  intros Hwf Hp Hpre. destruct (f !! q) as [n|] eqn:Hq; [|done].
  destruct (decide (p = q)) as [->|Hne]; [congruence|].
  rewrite (wf_prefix f p q) in Hp; [done | done | by rewrite Hq | done | done].
Qed.

(** Making the staging folder where it is missing. *)
Lemma prepare_run sf w :
  fs w !! [] = Some Dir →
  (∀ q data, q `prefix_of` sf → fs w !! q ≠ Some (File data)) →
  fs w !! (sf ++ ["updateinfo"]) = None →
  ∃ f', prepare_updateinfo_folder sf w
        = (World f' (out w), Ret (sf ++ ["updateinfo"])) ∧
        ∀ q, f' !! q = if decide (q `prefix_of` sf ++ ["updateinfo"])
                       then Some Dir else fs w !! q.
Proof.
  intros Hroot Hfiles Hmissing.
  destruct (os_makedirs_ok false (sf ++ ["updateinfo"]) w) as (f' & Hrun & Hf');
    [done | | by left |].
  { intros q data [Heq|Hpre]%prefix_snoc_inv Hne; [done | by apply Hfiles]. }
  exists f'. split; [|done].
  unfold prepare_updateinfo_folder. cbv zeta.
  run_ret by (unfold os_path_exists; rewrite Hmissing;
              rewrite bool_decide_eq_false_2 by (by intros [??]); reflexivity).
  by run_ret by exact Hrun.
Qed.

(** X7: on a disk where no regular file stands in the way,
    [prepare_updateinfo_folder] returns [<server_folder>/updateinfo]
    and prints nothing.  When something is already there under that
    name -- a directory or even a regular file -- the disk is left as it
    is; when nothing is, the folder is made together with every missing
    folder above it, and nothing else changes. *)
Theorem staging_folder_prepared sf w :
  fs w !! [] = Some Dir →
  (∀ q data, q `prefix_of` sf → fs w !! q ≠ Some (File data)) →
  ∃ f', prepare_updateinfo_folder sf w
        = (World f' (out w), Ret (sf ++ ["updateinfo"])) ∧
        ∀ q, f' !! q = if decide (fs w !! (sf ++ ["updateinfo"]) = None
                                  ∧ q `prefix_of` sf ++ ["updateinfo"])
                       then Some Dir else fs w !! q.
Proof.
  intros Hroot Hfiles. destruct (fs w !! (sf ++ ["updateinfo"])) as [n|] eqn:Hui.
  - exists (fs w). split.
    + unfold prepare_updateinfo_folder. cbv zeta.
      run_ret by (unfold os_path_exists; rewrite Hui;
                  rewrite bool_decide_eq_true_2 by eauto; reflexivity).
      run_ret by reflexivity. by destruct w.
    + intros q. rewrite decide_False; [done | by intros [? _]].
  - destruct (prepare_run sf w Hroot Hfiles Hui) as (f' & Hrun & Hf').
    exists f'. split; [done|]. intros q. rewrite Hf'.
    destruct (decide (q `prefix_of` sf ++ ["updateinfo"])) as [Hq|Hq].
    + by rewrite decide_True.
    + by rewrite decide_False by (by intros [_ ?]).
Qed.

Lemma staging_folder_prepared_witness :
  ∃ f', prepare_updateinfo_folder ["srv"] installed_world
        = (World f' (out installed_world), Ret (["srv"] ++ ["updateinfo"])) ∧
        ∀ q, f' !! q = if decide (fs installed_world !! (["srv"] ++ ["updateinfo"]) = None
                                  ∧ q `prefix_of` ["srv"] ++ ["updateinfo"])
                       then Some Dir else fs installed_world !! q.
Proof.
  apply (staging_folder_prepared ["srv"] installed_world).
  - vm_compute. reflexivity.
  - intros q data Hpre Hq.
    assert (q = [] ∨ q = ["srv"]) as [-> | ->].
    { destruct Hpre as [k Hk]. destruct q as [|c [|c' q]]; simplify_eq/=; auto. }
    + vm_compute in Hq. discriminate.
    + vm_compute in Hq. discriminate.
Defined.

(** X8: making the staging folder and deleting it again is a round
    trip: on a well-formed disk whose server folder is a directory with
    no [updateinfo] in it, [prepare_updateinfo_folder] followed by
    [delete_folder] on the path it returned gives back the very same
    disk and console. *)
Theorem staging_round_trip sf w :
  wf (fs w) →
  fs w !! sf = Some Dir →
  fs w !! (sf ++ ["updateinfo"]) = None →
  (ui ← prepare_updateinfo_folder sf; delete_folder ui) w = (w, Ret tt).
Proof.
  intros Hwf Hsf Hmissing.
  assert (Habove : ∀ q, q `prefix_of` sf → fs w !! q = Some Dir).
  { intros q Hq. destruct (decide (q = sf)) as [->|Hne]; [done|].
    apply (wf_prefix (fs w) q sf); [done | by rewrite Hsf | done | done]. }
  destruct (prepare_run sf w) as (f' & Hrun & Hf'); [apply Hwf | | done |].
  { intros q data Hq. rewrite (Habove q Hq). done. }
  run_ret by exact Hrun. rewrite delete_folder_dir; simpl.
  - destruct w as [f o]. simpl in *. do 2 f_equal. apply map_eq. intros q.
    rewrite lookup_rmtree, Hf'. case_decide as Hbelow.
    + symmetry. by apply (wf_nothing_below f (sf ++ ["updateinfo"])).
    + case_decide as Hup; [|done].
      apply prefix_snoc_inv in Hup as [->|Hup]; [by destruct Hbelow|].
      by rewrite Habove.
  - by rewrite Hf', decide_True.
Qed.

Lemma staging_round_trip_witness :
  (ui ← prepare_updateinfo_folder ["srv"]; delete_folder ui) installed_world
  = (installed_world, Ret tt).
Proof.
  apply (staging_round_trip ["srv"] installed_world).
  - apply (bool_decide_unpack _). vm_compute. reflexivity.
  - vm_compute. reflexivity.
  - vm_compute. reflexivity.
Defined.

(** X9: on a well-formed disk, [delete_folder] applied to a directory
    other than the root returns normally and prints nothing; afterwards
    nothing exists at or below the directory, every other entry is as it
    was, and the disk is still well formed. *)
Theorem delete_folder_removes_tree folder w :
  wf (fs w) →
  fs w !! folder = Some Dir →
  folder ≠ [] →
  ∃ f', delete_folder folder w = (World f' (out w), Ret tt) ∧
        (∀ q, folder `prefix_of` q → f' !! q = None) ∧
        (∀ q, ¬ folder `prefix_of` q → f' !! q = fs w !! q) ∧
        wf f'.
Proof.
  intros Hwf Hdir Hne. eexists. split; [by apply delete_folder_dir|].
  split_and!.
  - intros q Hq. by rewrite lookup_rmtree, decide_True.
  - intros q Hq. by rewrite lookup_rmtree, decide_False.
  - split.
    + rewrite lookup_rmtree, decide_False; [apply Hwf|].
      intros Hpre. by apply prefix_nil_inv in Hpre.
    + intros p n. rewrite !lookup_rmtree. case_decide as Hp; [done|]. intros Hn.
      destruct Hwf as [_ Hall]. destruct (Hall _ _ Hn) as [?|Hpar]; [by left|].
      right. rewrite decide_False; [done|]. intros Hpre. apply Hp.
      etrans; [exact Hpre | apply parent_prefix].
Qed.

Lemma delete_folder_removes_tree_witness :
  ∃ f', delete_folder ["srv"; "updateinfo"] demo_world
        = (World f' (out demo_world), Ret tt) ∧
        (∀ q, ["srv"; "updateinfo"] `prefix_of` q → f' !! q = None) ∧
        (∀ q, ¬ ["srv"; "updateinfo"] `prefix_of` q → f' !! q = fs demo_world !! q) ∧
        wf f'.
Proof.
  apply (delete_folder_removes_tree ["srv"; "updateinfo"] demo_world).
  - apply (bool_decide_unpack _). vm_compute. reflexivity.
  - vm_compute. reflexivity.
  - discriminate.
Defined.

(** The files that [clear_folder] removes lie below the folder. *)
Lemma walk_files_below f folder p : p ∈ walk_files f folder → folder `prefix_of` p.
Proof.
  intros (d & c & data & -> & _ & _ & Hd)%elem_of_walk_files. by apply prefix_app_r.
Qed.

(** X10: clearing the staging folder before deleting it changes
    nothing about the result: on every disk and for every path,
    [clear_folder] followed by [delete_folder] ends exactly as
    [delete_folder] alone. *)
Theorem clear_then_delete_is_delete folder w :
  (clear_folder folder;; delete_folder folder) w = delete_folder folder w.
Proof.
  destruct (decide (fs w !! folder = Some Dir)) as [Hdir|Hnd].
  - run_ret by (by apply clear_folder_run).
    assert (Hstill : delete_all (fs w) (walk_files (fs w) folder) !! folder = Some Dir).
    { rewrite lookup_delete_all, decide_False; [done|].
      intros (d & c & data & -> & Hf & _)%elem_of_walk_files. congruence. }
    rewrite !delete_folder_dir by done. simpl. do 2 f_equal.
    apply map_eq. intros q. rewrite !lookup_rmtree, lookup_delete_all.
    case_decide as Hq; [done|]. rewrite decide_False; [done|].
    intros Hin. by apply Hq, (walk_files_below (fs w)).
  - destruct (not_a_folder_noop folder w Hnd) as [Hclear Hdelete].
    by run_ret by exact Hclear.
Qed.

(** X11: [clear_folder] is idempotent: on every disk and for every
    path, clearing twice ends exactly as clearing once. *)
Theorem clear_folder_idempotent folder w :
  (clear_folder folder;; clear_folder folder) w = clear_folder folder w.
Proof.
  destruct (decide (fs w !! folder = Some Dir)) as [Hdir|Hnd].
  - rewrite (clear_folder_run folder w Hdir).
    run_ret by (by apply clear_folder_run).
    set (f1 := delete_all (fs w) (walk_files (fs w) folder)).
    assert (Hstill : f1 !! folder = Some Dir).
    { unfold f1. rewrite lookup_delete_all, decide_False; [done|].
      intros (d & c & data & -> & Hf & _)%elem_of_walk_files. congruence. }
    rewrite clear_folder_run by done. simpl.
    assert (Hnone : walk_files f1 folder = []).
    { apply elem_of_nil_inv. intros p Hp.
      apply elem_of_walk_files in Hp as (d & c & data & -> & Hf & Hd & Hpre).
      unfold f1 in Hf, Hd. rewrite lookup_delete_all in Hf.
      rewrite lookup_delete_all in Hd.
      destruct (decide (d ++ [c] ∈ walk_files (fs w) folder)) as [Hin|Hin]; [done|].
      destruct (decide (d ∈ walk_files (fs w) folder)) as [Hin'|Hin']; [done|].
      apply Hin, elem_of_walk_files. by exists d, c, data. }
    by rewrite Hnone.
  - destruct (not_a_folder_noop folder w Hnd) as [Hclear _].
    by run_ret by exact Hclear.
Qed.

End staging_more.

(** ** What a download leaves on the disk *)

Section download_more.
Implicit Types (f : filesystem) (p q dest : path) (w : world) (E : env).

(** A segment other than the empty one, [.] and [..] names an entry of
    the folder. *)
Lemma local_filename_plain dest url :
  last_segment url ∉ [""; "."; ".."] →
  os_path_join dest (last_segment url) = dest ++ [last_segment url].
Proof.
  intros Hseg. unfold os_path_join. rewrite last_segment_plain. simpl. unfold step.
  destruct (String.eqb (last_segment url) "") eqn:H1.
  { apply String.eqb_eq in H1. destruct Hseg. rewrite H1. set_solver. }
  destruct (String.eqb (last_segment url) ".") eqn:H2.
  { apply String.eqb_eq in H2. destruct Hseg. rewrite H2. set_solver. }
  destruct (String.eqb (last_segment url) "..") eqn:H3; [|done].
  apply String.eqb_eq in H3. destruct Hseg. rewrite H3. set_solver.
Qed.

(** However a download ends, the world is the one it started in, or
    that world with the local file written afresh. *)
Lemma download_effect E url dest w w' o :
  download_file E url dest w = (w', o) →
  w' = w ∨
  (write_obstacle (fs w) (os_path_join dest (last_segment url)) = None ∧
   ∃ data, w' = World (<[os_path_join dest (last_segment url) := File data]> (fs w))
                      (out w)).
Proof.
  unfold download_file. destruct (http_get E url) as [st chunks broken|e].
  - unfold raise_for_status.
    destruct (bool_decide (400 ≤ st < 500)%Z); [intros [= <- <-]; by left|].
    destruct (bool_decide (500 ≤ st < 600)%Z); [intros [= <- <-]; by left|].
    run_ret by reflexivity.
    destruct (write_obstacle (fs w) (os_path_join dest (last_segment url)))
      as [e1|] eqn:Hobs.
    { run_raise by (unfold open_wb; rewrite Hobs; reflexivity).
      intros [= <- <-]. by left. }
    run_ret by (unfold open_wb; rewrite Hobs; reflexivity).
    run_ret by (apply write_chunks with (old := ""); simpl; apply lookup_insert_eq).
    simpl. rewrite insert_insert_eq. intros Hrun. right. split; [done|].
    destruct broken; injection Hrun as <- <-; eauto.
  - intros [= <- <-]. by left.
Qed.

(** X12: a download that is answered with a status outside 400-599 and
    whose transfer completes stores exactly the bytes served: in a
    staging directory, under the last segment of the URL (when that
    segment names an entry and no directory has the name), the file
    holds the chunks in the order they came, replacing whatever file was
    there; the path of that file is returned, nothing is printed and
    nothing else on the disk changes. *)
Theorem download_stores_the_body E url dest w st chunks :
  http_get E url = Response st chunks None →
  ¬ (400 ≤ st < 600)%Z →
  fs w !! dest = Some Dir →
  last_segment url ∉ [""; "."; ".."] →
  fs w !! (dest ++ [last_segment url]) ≠ Some Dir →
  download_file E url dest w
  = (World (<[dest ++ [last_segment url]
              := File (fold_right String.append "" chunks)]> (fs w)) (out w),
     Ret (dest ++ [last_segment url])).
Proof.
  intros Hget Hst Hdest Hseg Hnd. unfold download_file.
  rewrite Hget, (local_filename_plain dest url Hseg).
  assert (Hobs : write_obstacle (fs w) (dest ++ [last_segment url]) = None).
  { apply write_obstacle_None; [by destruct dest | by rewrite parent_snoc | done]. }
  run_ret by (by apply raise_for_status_ok).
  run_ret by (unfold open_wb; rewrite Hobs; reflexivity).
  run_ret by (apply write_chunks with (old := ""); simpl; apply lookup_insert_eq).
  simpl. by rewrite insert_insert_eq.
Qed.

Lemma download_stores_the_body_witness :
  download_file sample_env
    (nightly_url +:+ "multitheftauto_linux_x64-1.6-rc-22741.tar.gz")
    ["srv"; "updateinfo"] demo_world
  = (World (<[["srv"; "updateinfo"]
              ++ [last_segment (nightly_url
                                +:+ "multitheftauto_linux_x64-1.6-rc-22741.tar.gz")]
              := File (fold_right String.append "" ["TGZ"; "22741"])]> (fs demo_world))
           (out demo_world),
     Ret (["srv"; "updateinfo"]
          ++ [last_segment (nightly_url
                            +:+ "multitheftauto_linux_x64-1.6-rc-22741.tar.gz")])).
Proof.
  apply (download_stores_the_body sample_env
           (nightly_url +:+ "multitheftauto_linux_x64-1.6-rc-22741.tar.gz")
           ["srv"; "updateinfo"] demo_world 200 ["TGZ"; "22741"]).
  - vm_compute. reflexivity.
  - lia.
  - vm_compute. reflexivity.
  - apply (bool_decide_unpack _). vm_compute. reflexivity.
  - vm_compute. discriminate.
Defined.

(** X13: however a download into a directory of a well-formed disk
    ends -- returned, refused, broken off -- it has printed nothing and
    has written at one place at most, the entry of that directory named
    by the last segment of the URL: every other path is as it was.  A
    URL that ends in a slash, in [.] or in [..] therefore writes
    nothing. *)
Theorem download_writes_one_place E url dest w w' o :
  wf (fs w) →
  fs w !! dest = Some Dir →
  download_file E url dest w = (w', o) →
  out w' = out w ∧
  ∀ q, q ≠ dest ++ [last_segment url] → fs w' !! q = fs w !! q.
Proof.
  intros Hwf Hdest [->|(Hobs & data & ->)]%download_effect; [done|].
  split; [done|]. intros q Hq. simpl.
  apply write_obstacle_None_inv in Hobs as (_ & _ & Hnd).
  destruct (local_filename_cases dest url) as [Heq | [Heq | Heq]]; rewrite Heq in *.
  - by rewrite lookup_insert_ne.
  - by destruct Hnd.
  - destruct Hnd. destruct (decide (parent dest = dest)) as [->|Hne]; [done|].
    apply (wf_prefix (fs w) _ dest); [done | by rewrite Hdest | apply parent_prefix | done].
Qed.

Lemma download_writes_one_place_witness :
  let url := nightly_url +:+ "multitheftauto_linux_x64-1.6-rc-22741.tar.gz" in
  let r := download_file sample_env url ["srv"; "updateinfo"] demo_world in
  out r.1 = out demo_world ∧
  ∀ q, q ≠ ["srv"; "updateinfo"] ++ [last_segment url] →
       fs r.1 !! q = fs demo_world !! q.
Proof.
  apply (download_writes_one_place sample_env
           (nightly_url +:+ "multitheftauto_linux_x64-1.6-rc-22741.tar.gz")
           ["srv"; "updateinfo"] demo_world _
           (Ret ["srv"; "updateinfo"; "multitheftauto_linux_x64-1.6-rc-22741.tar.gz"])).
  - apply (bool_decide_unpack _). vm_compute. reflexivity.
  - vm_compute. reflexivity.
  - apply run_outcome. vm_compute. reflexivity.
Defined.

End download_more.

(** ** Unpacking a Windows installer *)

Section installer_more.
Implicit Types (f : filesystem) (p q dest : path) (w : world) (K : machine)
  (m : path * node).

(** What 7z is asked to unpack: the members at or below [server]. *)
Lemma holds_run_7z R `{!PreOrder R} K file_path dest :
  (∀ m, ["server"] `prefix_of` m.1 → holds R (extract_member dest m)) →
  holds R (run_7z K file_path dest).
Proof.
  intros Hmember. unfold run_7z. apply holds_as_process. intros w w' o.
  destruct (fs w !! file_path) as [[data|]|]; try (by intros [= <- <-]).
  destruct (un7z K data) as [members|]; [|by intros [= <- <-]].
  apply holds_for; [done|]. intros m Hm. apply Hmember.
  by apply list_elem_of_filter in Hm as [? _].
Qed.

Lemma holds_extract_installer R `{!PreOrder R} K file_path dest :
  endswith (basename file_path) ".exe" = true →
  (∀ m, ["server"] `prefix_of` m.1 → holds R (extract_member dest m)) →
  holds R (extract_files K file_path dest).
Proof.
  intros Hname Hmember. unfold extract_files. rewrite Hname.
  apply holds_bind; [done| |].
  - apply holds_if; [by apply holds_mret|].
    apply holds_bind; [done | by apply holds_print | intros _; by apply holds_exit].
  - intros _. by apply holds_run_7z.
Qed.

Lemma windows_archives_plain : plain_archives windows_machine.
Proof.
  intros data members [Htar|H7z]; [done|]. simpl in H7z.
  destruct (String.eqb data "NSIS1"); [|done]. injection H7z as <-.
  apply (bool_decide_unpack _). vm_compute. reflexivity.
Qed.

(** X14: unpacking a Windows installer (with plain member names)
    writes below [<dest_folder>/server] only: on a well-formed disk
    with the destination a directory, every path that is not at or
    below that folder is after the call what it was before it, however
    the call ends -- members of the installer outside its [server] tree
    are not unpacked. *)
Theorem installer_stays_below_server K file_path dest w w' o q :
  plain_archives K →
  wf (fs w) →
  fs w !! dest = Some Dir →
  endswith (basename file_path) ".exe" = true →
  extract_files K file_path dest w = (w', o) →
  ¬ (dest ++ ["server"]) `prefix_of` q →
  fs w' !! q = fs w !! q.
Proof.
  intros _ Hwf Hdest Hname Hrun Hq.
  destruct (decide (q `prefix_of` dest)) as [Habove|Habove].
  - assert (Hdir : fs w !! q = Some Dir).
    { destruct (decide (q = dest)) as [->|Hne]; [done|].
      apply (wf_prefix (fs w) q dest); [done | by rewrite Hdest | done | done]. }
    rewrite Hdir. revert Hdir.
    refine (holds_extract_installer (dir_at q) K file_path dest Hname _ _ _ _ Hrun).
    intros m _. apply dir_extract_member.
  - refine (holds_extract_installer (same_at q) K file_path dest Hname _ _ _ _ Hrun).
    intros m [r Hr]. apply same_extract_member. rewrite Hr.
    intros [?|(r' & Hr' & -> & Hpre)]%prefix_app_split; [done|].
    apply Hq. destruct r' as [|c r']; [done|].
    apply prefix_cons_inv_1 in Hpre as ->.
    by apply prefix_app, prefix_cons, prefix_nil.
Qed.

Lemma installer_stays_below_server_witness :
  let r := extract_files windows_machine
             ["srv"; "updateinfo"; "mtasa-1.6-rc-22741-setup.exe"]
             ["srv"; "updateinfo"] (World installer_disk []) in
  fs r.1 !! ["srv"; "updateinfo"; "MTA"; "cgui.dll"]
  = installer_disk !! ["srv"; "updateinfo"; "MTA"; "cgui.dll"].
Proof.
  apply (installer_stays_below_server windows_machine
           ["srv"; "updateinfo"; "mtasa-1.6-rc-22741-setup.exe"]
           ["srv"; "updateinfo"] (World installer_disk []) _ (Ret tt)
           ["srv"; "updateinfo"; "MTA"; "cgui.dll"]).
  - exact windows_archives_plain.
  - apply (bool_decide_unpack _). vm_compute. reflexivity.
  - vm_compute. reflexivity.
  - vm_compute. reflexivity.
  - apply run_outcome. vm_compute. reflexivity.
  - apply (bool_decide_unpack _). vm_compute. reflexivity.
Defined.

(** X15: a Windows installer with plain member names whose members at
    or below [server] form a tree (no path stored twice, no regular
    file above another member),
    unpacked on a machine with 7z into a staging directory that has no
    [server] yet, leaves a directory [server] holding exactly the
    installer's files of that tree, byte for byte; nothing is printed
    and nothing outside [server] changes. *)
Theorem installer_becomes_server K file_path dest w bytes members :
  wf (fs w) →
  fs w !! dest = Some Dir →
  fs w !! (dest ++ ["server"]) = None →
  fs w !! file_path = Some (File bytes) →
  endswith (basename file_path) ".exe" = true →
  has_7z K = true →
  un7z K bytes = Some members →
  Forall plain_member members →
  tar_ok "server" (filter (λ m : path * node, ["server"] `prefix_of` m.1) members) →
  ∃ f', extract_files K file_path dest w = (World f' (out w), Ret tt) ∧
        f' !! (dest ++ ["server"]) = Some Dir ∧
        (∀ r data, f' !! (dest ++ "server" :: r) = Some (File data)
                   ↔ ("server" :: r, File data) ∈ members) ∧
        (∀ q, ¬ (dest ++ ["server"]) `prefix_of` q → f' !! q = fs w !! q).
Proof.
  destruct w as [f0 o]. simpl.
  intros Hwf Hdest Hfree Hfile Hname H7z Hun _ Hok.
  set (served := filter (λ m : path * node, ["server"] `prefix_of` m.1) members) in *.
  destruct (extractall_run f0 dest "server" served Hwf Hdest Hfree Hok o)
    as (f1 & Hrun1 & Hf1).
  exists f1. split_and!.
  - unfold extract_files. rewrite Hname, H7z. run_ret by reflexivity.
    unfold run_7z, as_process. simpl. rewrite Hfile, Hun. fold served.
    by rewrite Hrun1.
  - rewrite Hf1. by apply (unpacked_top f0 dest "server" served).
  - intros r data. rewrite Hf1.
    etrans;
      [apply (unpacked_file f0 dest "server" served);
         [done.. | by apply prefix_cons, prefix_nil]|].
    unfold served. rewrite list_elem_of_filter. simpl. split; [by intros [_ ?]|].
    intros Hin. split; [by apply prefix_cons, prefix_nil | done].
  - intros q Hq. rewrite Hf1. by apply (unpacked_outside f0 dest "server" served).
Qed.

Lemma installer_becomes_server_witness :
  ∃ f', extract_files windows_machine
          ["srv"; "updateinfo"; "mtasa-1.6-rc-22741-setup.exe"]
          ["srv"; "updateinfo"] (World installer_disk [])
        = (World f' [], Ret tt) ∧
        f' !! (["srv"; "updateinfo"] ++ ["server"]) = Some Dir ∧
        (∀ r data, f' !! (["srv"; "updateinfo"] ++ "server" :: r) = Some (File data)
                   ↔ ("server" :: r, File data) ∈ installer_members) ∧
        (∀ q, ¬ (["srv"; "updateinfo"] ++ ["server"]) `prefix_of` q →
              f' !! q = installer_disk !! q).
Proof.
  apply (installer_becomes_server windows_machine
           ["srv"; "updateinfo"; "mtasa-1.6-rc-22741-setup.exe"]
           ["srv"; "updateinfo"] (World installer_disk []) "NSIS1" installer_members).
  - apply (bool_decide_unpack _). vm_compute. reflexivity.
  - vm_compute. reflexivity.
  - vm_compute. reflexivity.
  - vm_compute. reflexivity.
  - vm_compute. reflexivity.
  - reflexivity.
  - reflexivity.
  - apply (bool_decide_unpack _). vm_compute. reflexivity.
  - apply (bool_decide_unpack _). vm_compute. reflexivity.
Defined.

End installer_more.

(** ** An install without the executable, and the log over many runs *)

Section install_more.
Implicit Types (f : filesystem) (p q d src sf ui : path) (w : world) (P : profile)
  (K : machine).

(** X16: when the staged tree lacks the executable, [update_server]
    does not notice before it is too late: with an older build
    installed as for a normal update, the libraries are replaced, the
    installed executable is removed, and only then the copy raises
    [FileNotFoundError] -- the server folder is left without any
    executable, and every other path is as before. *)
Theorem missing_executable_breaks_install h w0 w0' P ui sf w old_exe :
  module_init h w0 = (w0', Ret P) →
  wf (fs w) →
  let binaries := (ui ++ ["server"]) ++ loc_of P in
  let target := λ src, (sf ++ loc_of P) ++ relpath src binaries in
  let server_exe := (ui ++ ["server"]) ++ [EXEC_FILE_NAME P] in
  let dest_server_exe := sf ++ [EXEC_FILE_NAME P] in
  fs w !! (ui ++ ["server"]) = Some Dir →
  fs w !! server_exe = None →
  fs w !! dest_server_exe = Some (File old_exe) →
  (∀ src, src ∈ lib_sources (fs w) binaries →
          ∃ old, fs w !! target src = Some (File old)) →
  (∀ src, src ∈ lib_sources (fs w) binaries →
          ¬ (ui ++ ["server"]) `prefix_of` target src) →
  ∃ f',
    update_server P ui sf w = (World f' (out w), Raise no_such_file) ∧
    f' !! dest_server_exe = None ∧
    (∀ src, src ∈ lib_sources (fs w) binaries → f' !! target src = fs w !! src) ∧
    (∀ q, q ≠ dest_server_exe →
          (∀ src, src ∈ lib_sources (fs w) binaries → q ≠ target src) →
          f' !! q = fs w !! q).
Proof.
  destruct w as [f0 o]. simpl.
  intros Hinit Hwf Hstaged Hnone Hold_exe Hold Hdisj.
  destruct (profile_paths _ _ _ _ Hinit) as (Hexe_join & Hloc_join & Hnolib & _).
  set (binaries := (ui ++ ["server"]) ++ loc_of P) in *.
  set (dest := sf ++ loc_of P) in *.
  set (server_exe := (ui ++ ["server"]) ++ [EXEC_FILE_NAME P]) in *.
  set (dest_server_exe := sf ++ [EXEC_FILE_NAME P]) in *.
  assert (Hdisj' : ∀ src, src ∈ lib_sources f0 binaries →
                          ¬ binaries `prefix_of` dest ++ relpath src binaries).
  { intros src Hsrc Hpre. apply (Hdisj _ Hsrc). etrans; [|exact Hpre].
    by apply prefix_app_r. }
  destruct (copy_libraries_run f0 binaries dest Hwf Hold Hdisj' [] _ f0 o eq_refl)
    as (fL & HrunL & Hlibs & Hothers).
  { by intros s ?%elem_of_nil. }
  { done. }
  cbv beta zeta in Hlibs, Hothers.
  assert (Hnot_target : ∀ src, src ∈ lib_sources f0 binaries →
                               dest_server_exe ≠ dest ++ relpath src binaries).
  { intros src Hsrc Heq.
    pose proof (target_is_library f0 binaries dest src Hsrc) as Hlib.
    cbv beta zeta in Hlib. rewrite <- Heq in Hlib. unfold dest_server_exe in Hlib.
    rewrite basename_snoc in Hlib. congruence. }
  assert (HexeL : fL !! dest_server_exe = Some (File old_exe)).
  { rewrite Hothers; [done|]. intros s Hs. by apply Hnot_target. }
  assert (HsrcL : fL !! server_exe = None).
  { rewrite Hothers; [done|]. intros s Hs Heq. apply (Hdisj _ Hs).
    rewrite <- Heq. by apply prefix_app_r. }
  assert (Hdiff : server_exe ≠ dest_server_exe) by congruence.
  exists (delete dest_server_exe fL). split_and!.
  - rewrite update_server_unfold, !Hloc_join, !Hexe_join. simpl.
    fold binaries dest server_exe dest_server_exe.
    run_ret by exact HrunL.
    unfold copy_executable.
    run_ret by (unfold os_path_exists; simpl; rewrite HexeL;
                rewrite bool_decide_eq_true_2 by eauto; reflexivity).
    run_ret by (unfold os_remove; simpl; rewrite HexeL; reflexivity).
    unfold shutil_copy2.
    run_ret by (unfold os_path_isdir; simpl; rewrite lookup_delete_eq;
                rewrite bool_decide_eq_false_2 by done; reflexivity).
    run_ret by reflexivity.
    simpl. by rewrite lookup_delete_ne, HsrcL.
  - apply lookup_delete_eq.
  - intros src Hsrc. rewrite lookup_delete_ne by (by apply Hnot_target).
    by apply Hlibs.
  - intros q Hq Hnt. rewrite lookup_delete_ne by done. by apply Hothers.
Qed.

Lemma missing_executable_breaks_install_witness :
  let ui := ["srv"; "updateinfo"] in
  let sf := ["srv"] in
  let binaries := (ui ++ ["server"]) ++ loc_of linux64_profile in
  let target := λ src, (sf ++ loc_of linux64_profile) ++ relpath src binaries in
  let dest_server_exe := sf ++ [EXEC_FILE_NAME linux64_profile] in
  ∃ f',
    update_server linux64_profile ui sf (World headless_disk [])
      = (World f' [], Raise no_such_file) ∧
    f' !! dest_server_exe = None ∧
    (∀ src, src ∈ lib_sources headless_disk binaries →
            f' !! target src = headless_disk !! src) ∧
    (∀ q, q ≠ dest_server_exe →
          (∀ src, src ∈ lib_sources headless_disk binaries → q ≠ target src) →
          f' !! q = headless_disk !! q).
Proof.
  assert (Hlibs : lib_sources headless_disk
                    ((["srv"; "updateinfo"] ++ ["server"]) ++ loc_of linux64_profile)
                  = [["srv"; "updateinfo"; "server"; "x64"; "a.so"]])
    by (vm_compute; reflexivity).
  apply (missing_executable_breaks_install linux64 (World ∅ [])
           (module_init linux64 (World ∅ [])).1 linux64_profile
           ["srv"; "updateinfo"] ["srv"] (World headless_disk []) "ELF0").
  - apply run_outcome. vm_compute. reflexivity.
  - apply (bool_decide_unpack _). vm_compute. reflexivity.
  - vm_compute. reflexivity.
  - vm_compute. reflexivity.
  - vm_compute. reflexivity.
  - intros src Hsrc.
    change (src ∈ lib_sources headless_disk
                    ((["srv"; "updateinfo"] ++ ["server"]) ++ loc_of linux64_profile))
      in Hsrc.
    rewrite Hlibs in Hsrc.
    apply list_elem_of_singleton in Hsrc as ->. exists "SO0". vm_compute. reflexivity.
  - intros src Hsrc.
    change (src ∈ lib_sources headless_disk
                    ((["srv"; "updateinfo"] ++ ["server"]) ++ loc_of linux64_profile))
      in Hsrc.
    rewrite Hlibs in Hsrc.
    apply list_elem_of_singleton in Hsrc as ->.
    apply (bool_decide_unpack _). vm_compute. reflexivity.
Defined.

(** One log entry, where the log can be written. *)
Lemma log_update_run K sf url w :
  fs w !! sf = Some Dir →
  fs w !! (sf ++ ["updates.log"]) ≠ Some Dir →
  log_update K sf url w
  = (World (<[sf ++ ["updates.log"]
              := File (log_text (fs w !! (sf ++ ["updates.log"])) +:+ log_line K url)]>
              (fs w)) (out w),
     Ret tt).
Proof.
  intros Hsf Hnd. unfold log_update. cbv zeta.
  assert (Hobs : write_obstacle (fs w) (sf ++ ["updates.log"]) = None).
  { apply write_obstacle_None; [by destruct sf | by rewrite parent_snoc | done]. }
  unfold open_a, write_more, mbind, M_bind. rewrite Hobs.
  destruct (fs w !! (sf ++ ["updates.log"])) as [[old|]|] eqn:Hlog; simpl.
  - by rewrite Hlog.
  - done.
  - by rewrite lookup_insert_eq, insert_insert_eq.
Qed.

(** X17: the log only grows, one line per call and in the order of the
    calls: after any number of [log_update]s on a server folder whose
    [updates.log] is a file or missing, the log is its old text (empty
    when it was missing) followed by the lines of the calls, first to
    last; nothing is printed and no other path changes. *)
Theorem log_lines_accumulate sf K url (later : list (machine * string)) w :
  fs w !! sf = Some Dir →
  fs w !! (sf ++ ["updates.log"]) ≠ Some Dir →
  for_ ((K, url) :: later) (λ r, log_update r.1 sf r.2) w
  = (World (<[sf ++ ["updates.log"]
              := File (log_text (fs w !! (sf ++ ["updates.log"]))
                       +:+ fold_right String.append ""
                             ((λ r, log_line r.1 r.2) <$> (K, url) :: later))]>
              (fs w)) (out w),
     Ret tt).
Proof.
  revert K url w. induction later as [|[K' url'] later IH]; intros K url w Hsf Hnd.
  - simpl. run_ret by (by apply log_update_run). by rewrite append_empty_r.
  - change (for_ ((K, url) :: (K', url') :: later) (λ r, log_update r.1 sf r.2))
      with (log_update K sf url;; for_ ((K', url') :: later) (λ r, log_update r.1 sf r.2)).
    run_ret by (by apply log_update_run).
    assert (Hne : sf ≠ sf ++ ["updates.log"]).
    { intros Heq%(f_equal length). rewrite length_app in Heq. simpl in Heq. lia. }
    rewrite IH; simpl.
    + rewrite lookup_insert_eq, insert_insert_eq. simpl.
      by rewrite append_assoc.
    + by rewrite lookup_insert_ne.
    + by rewrite lookup_insert_eq.
Qed.

Lemma log_lines_accumulate_witness :
  for_ [(sample_machine, "https://nightly.multitheftauto.com/a.tar.gz");
        (files_first_machine, "https://nightly.multitheftauto.com/b.tar.gz")]
       (λ r, log_update r.1 ["srv"] r.2) installed_world
  = (World (<[["srv"] ++ ["updates.log"]
              := File (log_text (fs installed_world !! (["srv"] ++ ["updates.log"]))
                       +:+ fold_right String.append ""
                             ((λ r, log_line r.1 r.2)
                                <$> [(sample_machine,
                                      "https://nightly.multitheftauto.com/a.tar.gz");
                                     (files_first_machine,
                                      "https://nightly.multitheftauto.com/b.tar.gz")]))]>
              (fs installed_world)) (out installed_world),
     Ret tt).
Proof.
  apply (log_lines_accumulate ["srv"] sample_machine
           "https://nightly.multitheftauto.com/a.tar.gz"
           [(files_first_machine, "https://nightly.multitheftauto.com/b.tar.gz")]
           installed_world).
  - vm_compute. reflexivity.
  - vm_compute. discriminate.
Defined.

End install_more.

(** ** Exit codes *)

Create HintDb prims discriminated.
#[global] Hint Unfold print get_fs put_fs os_path_exists os_path_isdir os_walk
  os_remove shutil_rmtree open_wb write_more open_a os_mkdir tarfile_open
  os_listdir first_item os_rename raise raise_for_status requests_get : prims.

Section exit_codes.
Context (C : Z → Prop).
Implicit Types (w : world) (K : machine) (E : env) (P : profile) (p : path).

Lemma exits_bind {A B} (m : M A) (k : A → M B) :
  exits_within C m → (∀ a, exits_within C (k a)) → exits_within C (m ≫= k).
Proof.
  intros Hm Hk w w' c. unfold mbind, M_bind.
  destruct (m w) as [w1 [a|e|c1]] eqn:Hrun.
  - apply Hk.
  - done.
  - intros [= <- <-]. by eapply Hm.
Qed.

Lemma exits_for {A} (xs : list A) (body : A → M unit) :
  (∀ x, exits_within C (body x)) → exits_within C (for_ xs body).
Proof.
  intros Hbody. induction xs as [|x xs IH]; simpl.
  - by intros w w' c.
  - apply exits_bind; [apply Hbody | by intros _].
Qed.

Lemma exits_exit {A} c : C c → exits_within C (exit (A:=A) c).
Proof. by intros Hc w w' c' [= _ <-]. Qed.

(** A call that never exits. *)
Lemma exits_never {A} (m : M A) :
  (∀ w c, (m w).2 ≠ Exit c) → exits_within C m.
Proof. intros Hm w w' c Hrun. destruct (Hm w c). by rewrite Hrun. Qed.

Lemma exits_as_process (m : M unit) : exits_within C m → exits_within C (as_process m).
Proof.
  intros Hm w w' c. unfold as_process.
  destruct (m w) as [w1 [a|e|c1]] eqn:Hrun; intros [= <- <-]. by eapply Hm.
Qed.

End exit_codes.

Ltac exits_prim :=
  apply exits_never; intros ? ?; autounfold with prims; simpl;
  repeat case_match; simpl; congruence.

Ltac solve_exits :=
  lazymatch goal with
  | |- exits_within _ (_ ≫= _) =>
      apply exits_bind; [solve_exits | intros ?; solve_exits]
  | |- exits_within _ (for_ _ _) => apply exits_for; intros ?; solve_exits
  | |- exits_within _ (if ?b then _ else _) => destruct b; solve_exits
  | |- exits_within _ (match ?x with _ => _ end) => destruct x; solve_exits
  | |- exits_within _ (exit _) => apply exits_exit; auto
  | |- exits_within _ (as_process _) => apply exits_as_process; solve_exits
  | |- exits_within _ _ => first [ by auto with exits | exits_prim ]
  end.

Create HintDb exits discriminated.

Section never_exit.
Implicit Types (w : world) (K : machine) (E : env) (P : profile) (p : path).

Lemma exits_makedirs C exist_ok p : exits_within C (os_makedirs exist_ok p).
Proof. unfold os_makedirs. solve_exits. Qed.

Lemma exits_extract_member C dest (m : path * node) :
  exits_within C (extract_member dest m).
Proof.
  pose proof (exits_makedirs C) as Hmk. unfold extract_member. cbv zeta.
  apply exits_bind; [exits_prim|]. intros e.
  apply exits_bind; [destruct e; [exits_prim | apply Hmk]|]. intros _.
  destruct m.2; solve_exits.
Qed.

Lemma exits_run_7z C K file_path dest : exits_within C (run_7z K file_path dest).
Proof.
  unfold run_7z. apply exits_as_process. intros w w' c.
  destruct (fs w !! file_path) as [[data|]|]; [|done..].
  destruct (un7z K data) as [members|]; [|done].
  apply exits_for. intros m. apply exits_extract_member.
Qed.

Lemma exits_copy2 C src dst : exits_within C (shutil_copy2 src dst).
Proof. unfold shutil_copy2. solve_exits. Qed.

Lemma exits_download C E url dest : exits_within C (download_file E url dest).
Proof. unfold download_file. cbv zeta. solve_exits. Qed.

Lemma exits_update_server C P ui sf : exits_within C (update_server P ui sf).
Proof.
  pose proof (exits_makedirs C) as Hmk. pose proof (exits_copy2 C) as Hcp.
  unfold update_server. cbv zeta.
  apply exits_bind; [exits_prim|]. intros triples.
  apply exits_bind.
  - apply exits_for. intros [[root dirs] files]. apply exits_for. intros file.
    destruct (negb (is_library file)); [exits_prim|].
    apply exits_bind; [exits_prim|]. intros e.
    apply exits_bind; [destruct e; [exits_prim | apply Hmk]|]. intros _. apply Hcp.
  - intros _. apply exits_bind; [exits_prim|]. intros e.
    apply exits_bind; [destruct e; exits_prim|]. intros _. apply Hcp.
Qed.

Lemma exits_log_update C K sf url : exits_within C (log_update K sf url).
Proof. unfold log_update. cbv zeta. solve_exits. Qed.

Lemma exits_delete_folder C folder : exits_within C (delete_folder folder).
Proof. unfold delete_folder. solve_exits. Qed.

Lemma exits_clear_folder C folder : exits_within C (clear_folder folder).
Proof.
  unfold clear_folder.
  apply exits_bind; [exits_prim|]. intros e.
  apply exits_bind; [destruct e; exits_prim|]. intros d.
  destruct d; [|exits_prim].
  apply exits_bind; [exits_prim|]. intros triples.
  apply exits_for. intros [[root dirs] files]. apply exits_for. intros file.
  exits_prim.
Qed.

Lemma exits_prepare C sf : exits_within C (prepare_updateinfo_folder sf).
Proof.
  pose proof (exits_makedirs C) as Hmk. unfold prepare_updateinfo_folder. cbv zeta.
  apply exits_bind; [exits_prim|]. intros e.
  apply exits_bind; [destruct e; [exits_prim | apply Hmk]|]. intros _. exits_prim.
Qed.

Lemma exits_latest_href C label soup : exits_within C (latest_href label soup).
Proof.
  destruct (latest_href_pure label soup) as (o & Ho & Hrun).
  intros w w' c. rewrite Hrun. intros [= _ ->]. by destruct (Ho c).
Qed.

End never_exit.

#[global] Hint Resolve exits_makedirs exits_extract_member exits_run_7z exits_copy2
  exits_download exits_update_server exits_log_update exits_delete_folder
  exits_clear_folder exits_prepare exits_latest_href : exits.

Section exit_status_more.
Implicit Types (w : world) (K : machine) (E : env) (P : profile) (p : path).

(** The two tarball and installer paths never exit. *)
Lemma exits_untar (C : Z → Prop) K file_path dest :
  exits_within C
    (members ← tarfile_open K file_path;
     for_ members (extract_member dest);;
     listing ← os_listdir K dest;
     first ← first_item listing;
     os_rename (dest ++ [first]) (dest ++ ["server"])).
Proof.
  apply exits_bind; [exits_prim|]. intros members.
  apply exits_bind; [apply exits_for; intros m; apply exits_extract_member|].
  intros _. solve_exits.
Qed.

Lemma exits_extract_files (C : Z → Prop) K file_path dest :
  C 1%Z → exits_within C (extract_files K file_path dest).
Proof.
  intros HC. unfold extract_files.
  destruct (endswith (basename file_path) ".exe").
  - apply exits_bind; [|intros _; apply exits_run_7z].
    destruct (has_7z K); [exits_prim|].
    apply exits_bind; [exits_prim | intros _; by apply exits_exit].
  - destruct (endswith (basename file_path) ".tar.gz"); [apply exits_untar|].
    apply exits_bind; [exits_prim | intros _; by apply exits_exit].
Qed.

(** X18: [extract_files] calls [exit] in two situations only, both with
    code 1 and both before anything is written: an installer on a
    machine without 7z, and a file whose name ends neither in [.exe]
    nor in [.tar.gz].  In each, one line has been printed -- the
    request to install 7z, or [Unsupported file format:] followed by
    the path -- and the disk is as it was. *)
Theorem extract_files_exit K file_path dest w w' c :
  extract_files K file_path dest w = (w', Exit c) →
  c = 1%Z ∧ fs w' = fs w ∧
  ((endswith (basename file_path) ".exe" = true ∧ has_7z K = false ∧
    out w' = out w ++ ["7z is required to extract the downloaded file. Please install 7z and add it to PATH."])
   ∨ (endswith (basename file_path) ".exe" = false ∧
      endswith (basename file_path) ".tar.gz" = false ∧
      ∃ shown, out w' = out w ++ ["Unsupported file format: " +:+ shown])).
Proof.
  unfold extract_files.
  destruct (endswith (basename file_path) ".exe") eqn:Hexe.
  - destruct (has_7z K) eqn:H7z.
    + run_ret by reflexivity. intros Hrun.
      by destruct (exits_run_7z (λ _, False) _ _ _ _ _ _ Hrun).
    + intros [= <- <-]. split_and!; [done | done |]. left. done.
  - destruct (endswith (basename file_path) ".tar.gz") eqn:Htar.
    + intros Hrun. by destruct (exits_untar (λ _, False) _ _ _ _ _ _ Hrun).
    + intros [= <- <-]. split_and!; [done | done |]. right. eauto.
Qed.

Lemma extract_files_exit_witness :
  let r := extract_files sample_machine ["srv"; "updateinfo"; "build.zip"]
                         ["srv"; "updateinfo"] demo_world in
  1%Z = 1%Z ∧ fs r.1 = fs demo_world ∧
  ((endswith (basename ["srv"; "updateinfo"; "build.zip"]) ".exe" = true ∧
    has_7z sample_machine = false ∧
    out r.1 = out demo_world ++ ["7z is required to extract the downloaded file. Please install 7z and add it to PATH."])
   ∨ (endswith (basename ["srv"; "updateinfo"; "build.zip"]) ".exe" = false ∧
      endswith (basename ["srv"; "updateinfo"; "build.zip"]) ".tar.gz" = false ∧
      ∃ shown, out r.1 = out demo_world ++ ["Unsupported file format: " +:+ shown])).
Proof.
  apply (extract_files_exit sample_machine ["srv"; "updateinfo"; "build.zip"]
           ["srv"; "updateinfo"] demo_world).
  apply run_outcome. vm_compute. reflexivity.
Defined.


(** The main run exits with 0 or 1 only. *)
Lemma exits_ask K P :
  exits_within (λ c, c = 0 ∨ c = 1)%Z (ask_for_server_folder K P).
Proof.
  unfold ask_for_server_folder, input. cbv zeta.
  apply exits_bind; [solve_exits|]. intros typed.
  apply exits_bind; [exits_prim|]. intros e.
  apply exits_bind.
  { destruct e; [exits_prim|].
    apply exits_bind; [exits_prim | intros _; apply exits_exit; by right]. }
  intros _. apply exits_bind; [exits_prim|]. intros e'.
  apply exits_bind; [|intros _; exits_prim].
  destruct e'; [exits_prim|].
  apply exits_bind; [exits_prim|]. intros _.
  apply exits_bind; [solve_exits|]. intros answer.
  destruct (String.eqb (lower answer) "yes"); [exits_prim | apply exits_exit; by left].
Qed.

Lemma exits_choose K P args :
  exits_within (λ c, c = 0 ∨ c = 1)%Z (choose_server_folder K P args).
Proof.
  unfold choose_server_folder. destruct args as [|provided args]; [apply exits_ask|].
  destruct (String.eqb provided ""); [apply exits_ask|].
  apply exits_bind.
  { unfold exists_typed. destruct (String.eqb provided ""); exits_prim. }
  intros e. apply exits_bind; [|intros _; solve_exits].
  destruct e; [exits_prim|].
  apply exits_bind; [exits_prim | intros _; apply exits_exit; by right].
Qed.

Lemma exits_fetch E P :
  exits_within (λ c, c = 0 ∨ c = 1)%Z (fetch_exe_url E P).
Proof.
  unfold fetch_exe_url. cbv zeta.
  apply exits_bind; [exits_prim|]. intros response.
  apply exits_bind.
  { case_bool_decide; [|exits_prim].
    apply exits_bind; [exits_prim | intros _; apply exits_exit; by right]. }
  intros _. apply exits_bind; [apply exits_latest_href|]. intros href. solve_exits.
Qed.

Lemma exits_main_body E K P args :
  exits_within (λ c, c = 0 ∨ c = 1)%Z (main_body E K P args).
Proof.
  unfold main_body, install_build.
  apply exits_bind; [exits_prim|]. intros _.
  apply exits_bind; [exits_prim|]. intros _.
  apply exits_bind; [apply exits_choose|]. intros sf.
  apply exits_bind; [exits_prim|]. intros _.
  apply exits_bind; [apply exits_fetch|]. intros url.
  apply exits_bind; [apply exits_prepare|]. intros ui.
  apply exits_bind; [apply exits_clear_folder|]. intros _.
  apply exits_bind; [exits_prim|]. intros _.
  apply exits_bind; [apply exits_download|]. intros file.
  apply exits_bind; [exits_prim|]. intros _.
  apply exits_bind; [apply exits_extract_files; by right|]. intros _.
  apply exits_bind; [apply exits_update_server|]. intros _.
  apply exits_bind; [apply exits_log_update|]. intros _.
  apply exits_bind; [apply exits_delete_folder|]. intros _.
  exits_prim.
Qed.

(** X19: once its imports have succeeded, and whatever the host, the
    web, the machine, the arguments and the disk, the script never ends
    with an exception -- the module level raises none and the handler
    of the main block catches every one -- and the status of the
    process is 0 or 1. *)
Theorem script_exit_status E K args w :
  (∀ e, (script E K args w).2 ≠ Raise e) ∧
  (exit_status (script E K args w).2 = 0%Z ∨ exit_status (script E K args w).2 = 1%Z).
Proof.
  unfold script, mbind, M_bind. rewrite module_init_cases.
  destruct (unsupported (the_host E)); [split; [done | by right]|].
  unfold main.
  destruct (main_body E K _ args w) as [w1 [[]|e|c]] eqn:Hrun; simpl.
  - split; [done | by left].
  - split; [done | by left].
  - split; [done|]. exact (exits_main_body _ _ _ _ _ _ _ Hrun).
Qed.

End exit_status_more.

(** ** The whole run and the rest of the disk *)

Section whole_run.
Implicit Types (f : filesystem) (p q d sf ui : path) (w : world)
  (E : env) (K : machine) (P : profile).

(** Whether the listing yields a URL does not depend on the disk or on
    what has been printed. *)
Lemma fetch_outcome_fixed E P w1 w2 :
  (fetch_exe_url E P w1).2 = (fetch_exe_url E P w2).2.
Proof.
  unfold fetch_exe_url, requests_get, mbind, M_bind, mret, M_ret, raise, print, exit.
  destruct (http_get E nightly_url) as [st chunks [e|]|e]; [done| |done].
  simpl. case_bool_decide; [done|]. simpl.
  destruct (latest_href_pure (BUILD_STRING P)
              (html_parser E (fold_right String.append "" chunks))) as (o & _ & Ho).
  rewrite !Ho. by destruct o.
Qed.

(** X20: nothing is written before the listing has yielded a URL.  If
    [fetch_exe_url] does not return on this host and web -- no answer,
    a status other than 200, a page without the expected elements --
    then the run does not complete, and however it ends (declined,
    folder missing, failure printed as a traceback) the disk is exactly
    as it was: not even the staging folder has been made. *)
Theorem failed_listing_leaves_disk E K P args w :
  is_ret (fetch_exe_url E P w).2 = false →
  fs (main E K P args w).1 = fs w ∧
  is_ret (main_body E K P args w).2 = false.
Proof.
  intros Hfetch.
  assert (Hbody : fs (main_body E K P args w).1 = fs w
                  ∧ is_ret (main_body E K P args w).2 = false).
  { unfold main_body. run_ret by reflexivity. run_ret by reflexivity.
    match goal with
    | |- context [(choose_server_folder K P args ≫= _) ?w2] =>
        destruct (choose_server_folder K P args w2) as [w3 [sf|e|c]] eqn:Hchoose;
        pose proof (same_disk_choose K P args _ _ _ Hchoose) as Hsame
    end; unfold same_disk in Hsame; simpl in Hsame.
    - run_ret by exact Hchoose. run_ret by reflexivity.
      match goal with
      | |- context [(fetch_exe_url E P ≫= _) ?w4] =>
          pose proof (fetch_outcome_fixed E P w4 w) as Hfixed;
          destruct (fetch_exe_url E P w4) as [w5 [url|e|c]] eqn:Hurl;
          pose proof (same_disk_fetch E P _ _ _ Hurl) as Hsame'
      end; unfold same_disk in Hsame'; simpl in *.
      + rewrite <- Hfixed in Hfetch. done.
      + run_raise by exact Hurl. simpl. split; [congruence | done].
      + run_exit by exact Hurl. simpl. split; [congruence | done].
    - run_raise by exact Hchoose. done.
    - run_exit by exact Hchoose. done. }
  split; [|apply Hbody]. destruct Hbody as [Hfs Hnot]. unfold main.
  destruct (main_body E K P args w) as [w1 [[]|e|c]]; done.
Qed.

Lemma failed_listing_leaves_disk_witness :
  fs (main (serving "other") sample_machine linux64_profile ["/srv"] installed_world).1
  = fs installed_world ∧
  is_ret (main_body (serving "other") sample_machine linux64_profile ["/srv"]
                    installed_world).2 = false.
Proof.
  apply (failed_listing_leaves_disk (serving "other") sample_machine linux64_profile
           ["/srv"] installed_world).
  vm_compute. reflexivity.
Defined.

(** The folder a run works on is the chosen one. *)
Lemma returns_ask K P :
  returns (ask_for_server_folder K P)
          (λ sf, sf = asked_folder K (default "" (typed_folder K))).
Proof.
  intros w w' sf. unfold ask_for_server_folder, input. cbv zeta.
  intros (w1 & typed & Hin & Hrest)%run_bind_inv.
  apply run_bind_inv in Hin as (w2 & [] & _ & Hin).
  destruct (typed_folder K) as [typed'|]; [injection Hin as _ ->|done].
  apply run_bind_inv in Hrest as (w3 & e & _ & Hrest).
  apply run_bind_inv in Hrest as (w4 & [] & _ & Hrest).
  apply run_bind_inv in Hrest as (w5 & e' & _ & Hrest).
  apply run_bind_inv in Hrest as (w6 & [] & _ & Hrest).
  by injection Hrest as _ <-.
Qed.

Lemma returns_choose K P args :
  returns (choose_server_folder K P args) (λ sf, sf = chosen_folder K args).
Proof.
  unfold choose_server_folder, chosen_folder.
  destruct args as [|provided args]; [apply returns_ask|].
  destruct (String.eqb provided ""); [apply returns_ask|].
  intros w w' sf (w1 & e & _ & Hrest)%run_bind_inv.
  apply run_bind_inv in Hrest as (w2 & [] & _ & Hrest).
  apply run_bind_inv in Hrest as (w3 & [] & _ & Hrest).
  by injection Hrest as _ <-.
Qed.

(** Unpacking keeps what lies outside the destination. *)
Lemma kept_extract_member q dest (m : path * node) :
  ¬ dest `prefix_of` q → holds (kept_at q) (extract_member dest m).
Proof.
  intros Hq. unfold extract_member.
  assert (Hne : q ≠ dest ++ m.1) by (intros ->; by apply Hq, prefix_app_r).
  apply holds_bind; [apply _ | apply holds_exists; apply _|]. intros e.
  apply holds_bind; [apply _| |].
  - apply holds_if; [apply holds_mret; apply _ | apply kept_makedirs].
  - intros _. destruct m.2.
    + eapply holds_weaken; [apply same_kept|].
      apply holds_bind; [apply _ | by apply same_open_wb|].
      intros _. by apply same_write_more.
    + apply holds_bind; [apply _ | apply holds_exists; apply _|]. intros d.
      apply holds_if; [apply holds_mret; apply _ | apply kept_mkdir].
Qed.

Lemma kept_extract_files q K file_path dest :
  ¬ dest `prefix_of` q → holds (kept_at q) (extract_files K file_path dest).
Proof.
  intros Hq. apply holds_extract_files; [apply _| |].
  - intros m. by apply kept_extract_member.
  - intros c. eapply holds_weaken; [apply same_kept|].
    apply same_rename; intros Hpre; apply Hq;
      (etrans; [|exact Hpre]); by apply prefix_app_r.
Qed.

Lemma kept_prepare q sf : holds (kept_at q) (prepare_updateinfo_folder sf).
Proof.
  unfold prepare_updateinfo_folder. cbv zeta.
  apply holds_bind; [apply _ | apply holds_exists; apply _|]. intros e.
  apply holds_bind; [apply _| |].
  { apply holds_if; [apply holds_mret; apply _ | apply kept_makedirs]. }
  intros _. apply holds_mret; apply _.
Qed.

Lemma returns_prepare sf :
  returns (prepare_updateinfo_folder sf) (λ ui, ui = sf ++ ["updateinfo"]).
Proof. intros w w' ui Hrun. by destruct (prepare_ret _ _ _ _ Hrun) as [-> _]. Qed.

(** The stages after the staging folder has been prepared. *)
Lemma kept_install_build h w0 w0' E K P sf url q :
  module_init h w0 = (w0', Ret P) →
  q ≠ sf → q ≠ sf ++ [EXEC_FILE_NAME P] → q ≠ sf ++ ["updates.log"] →
  is_library (basename q) = false →
  ¬ (sf ++ ["updateinfo"]) `prefix_of` q →
  holds (kept_at q) (install_build E K P sf url (sf ++ ["updateinfo"])).
Proof.
  intros Hinit Hsf Hexe Hlog Hlib Hui. unfold install_build.
  apply holds_bind; [apply _ | apply holds_print; apply _|]. intros _.
  apply holds_bind; [apply _| |].
  { eapply holds_weaken; [apply same_kept|]. apply same_download.
    destruct (local_filename_cases (sf ++ ["updateinfo"]) url) as [-> | [-> | ->]].
    - intros ->. by apply Hui, prefix_app_r.
    - by intros ->.
    - by rewrite parent_snoc. }
  intros file. apply holds_bind; [apply _ | apply holds_print; apply _|]. intros _.
  apply holds_bind; [apply _ | by apply kept_extract_files|]. intros _.
  apply holds_bind; [apply _ | by eapply kept_update_server|]. intros _.
  apply holds_bind; [apply _| |].
  { eapply holds_weaken; [apply same_kept|]. by apply same_log_update. }
  intros _. apply holds_bind; [apply _| |].
  { eapply holds_weaken; [apply same_kept|]. by apply same_delete_folder. }
  intros _. apply holds_print; apply _.
Qed.

Lemma kept_main_body h w0 w0' E K P args q :
  module_init h w0 = (w0', Ret P) →
  let sf := chosen_folder K args in
  q ≠ sf → q ≠ sf ++ [EXEC_FILE_NAME P] → q ≠ sf ++ ["updates.log"] →
  is_library (basename q) = false →
  ¬ (sf ++ ["updateinfo"]) `prefix_of` q →
  holds (kept_at q) (main_body E K P args).
Proof.
  intros Hinit sf Hsf Hexe Hlog Hlib Hui. unfold main_body.
  apply holds_bind; [apply _ | apply holds_print; apply _|]. intros _.
  apply holds_bind; [apply _ | apply holds_print; apply _|]. intros _.
  eapply holds_bind_post; [apply _ | | apply returns_choose |].
  { eapply holds_weaken; [|apply same_disk_choose].
    intros f f' ->. reflexivity. }
  intros sf' ->. fold sf.
  apply holds_bind; [apply _ | apply holds_print; apply _|]. intros _.
  apply holds_bind; [apply _| |].
  { eapply holds_weaken; [|apply same_disk_fetch]. intros f f' ->. reflexivity. }
  intros url.
  eapply holds_bind_post; [apply _ | apply kept_prepare | apply returns_prepare |].
  intros ui ->.
  apply holds_bind; [apply _| |].
  { eapply holds_weaken; [apply same_kept|]. by apply same_clear_folder. }
  intros _. by eapply kept_install_build.
Qed.

(** X21: no run of the updater, completed or not, alters or removes
    anything but its own four places.  For a resolved profile, archives
    with plain member names and the server folder the run works on,
    take any path that is not that
    folder, not the executable's place in it, not [updates.log], not
    named like a library ([.dll], [.so]) and not at or below
    [updateinfo]: whatever was at that path before the run is there
    after it, unchanged -- configuration, resources and databases keep
    their bytes; at most a directory has been made where nothing
    was. *)
Theorem other_files_survive h w0 w0' E K P args w w' o q :
  module_init h w0 = (w0', Ret P) →
  plain_archives K →
  main E K P args w = (w', o) →
  let sf := chosen_folder K args in
  q ≠ sf → q ≠ sf ++ [EXEC_FILE_NAME P] → q ≠ sf ++ ["updates.log"] →
  is_library (basename q) = false →
  ¬ (sf ++ ["updateinfo"]) `prefix_of` q →
  fs w' !! q = fs w !! q ∨ (fs w !! q = None ∧ fs w' !! q = Some Dir).
Proof.
  intros Hinit _ Hrun sf Hsf Hexe Hlog Hlib Hui.
  pose proof (kept_main_body h w0 w0' E K P args q Hinit Hsf Hexe Hlog Hlib Hui)
    as Hbody.
  unfold main in Hrun.
  destruct (main_body E K P args w) as [w1 [[]|e|c]] eqn:Hrun1;
    injection Hrun as <- <-; exact (Hbody _ _ _ Hrun1).
Qed.

Lemma other_files_survive_witness :
  let r := main sample_env sample_machine linux64_profile ["/srv"] installed_world in
  fs r.1 !! ["srv"; "config.xml"] = fs installed_world !! ["srv"; "config.xml"]
  ∨ (fs installed_world !! ["srv"; "config.xml"] = None
     ∧ fs r.1 !! ["srv"; "config.xml"] = Some Dir).
Proof.
  apply (other_files_survive linux64 (World ∅ []) (module_init linux64 (World ∅ [])).1
           sample_env sample_machine linux64_profile ["/srv"] installed_world
           _ (Ret tt) ["srv"; "config.xml"]).
  - apply run_outcome. vm_compute. reflexivity.
  - exact sample_archives_plain.
  - apply run_outcome. vm_compute. reflexivity.
  - vm_compute. discriminate.
  - vm_compute. discriminate.
  - vm_compute. discriminate.
  - vm_compute. reflexivity.
  - apply (bool_decide_unpack _). vm_compute. reflexivity.
Defined.

End whole_run.

(** ** Two ways in which an update goes wrong after the download *)

Section mishaps.
Implicit Types (f : filesystem) (p q d sf ui dest : path) (w : world)
  (E : env) (K : machine) (P : profile).

(** X22: [extract_files] renames whatever [os.listdir] names first.
    When the tarball lies in the destination itself, as in the main
    run, and the listing taken after unpacking names the tarball
    first, the call still returns normally -- but it is the tarball
    that is now called [server], a regular file with the archive's
    bytes, while the unpacked tree keeps its own top-level name. *)
Theorem listed_first_archive_becomes_server K dest name w bytes members top others :
  wf (fs w) →
  fs w !! dest = Some Dir →
  fs w !! (dest ++ [name]) = Some (File bytes) →
  endswith name ".tar.gz" = true →
  untar_gz K bytes = Some members →
  Forall plain_member members →
  tar_ok top members →
  top ≠ "server" →
  fs w !! (dest ++ [top]) = None →
  fs w !! (dest ++ ["server"]) = None →
  listdir_order K (fs (for_ members (extract_member dest) w).1) dest = name :: others →
  ∃ f', extract_files K (dest ++ [name]) dest w = (World f' (out w), Ret tt) ∧
        f' !! (dest ++ ["server"]) = Some (File bytes) ∧
        f' !! (dest ++ [name]) = None ∧
        f' !! (dest ++ [top]) = Some Dir ∧
        (∀ r data, f' !! (dest ++ top :: r) = Some (File data)
                   ↔ (top :: r, File data) ∈ members).
Proof.
  destruct w as [f0 o]. simpl.
  intros Hwf Hdest Hfile Hname Huntar _ Hok Htop Hfree Hfree' Hlist.
  destruct (extractall_run f0 dest top members Hwf Hdest Hfree Hok o)
    as (f1 & Hrun1 & Hf1).
  rewrite Hrun1 in Hlist. simpl in Hlist.
  assert (Hname_top : name ≠ top) by (intros ->; congruence).
  assert (Hname_server : name ≠ "server") by (by intros ->).
  assert (Hsnoc : ∀ a b : string, a ≠ b → ¬ (dest ++ [a]) `prefix_of` dest ++ [b]).
  { intros a b Hab [Heq|Hpre]%prefix_snoc_inv.
    - apply (inj (app dest)) in Heq. congruence.
    - apply prefix_length in Hpre. rewrite length_app in Hpre. simpl in Hpre. lia. }
  assert (Hout : ∀ c, c ≠ top → f1 !! (dest ++ [c]) = f0 !! (dest ++ [c])).
  { intros c Hc. rewrite Hf1. apply (unpacked_outside f0 dest top members); [done..|].
    by apply Hsnoc. }
  assert (Hdest1 : f1 !! dest = Some Dir).
  { rewrite Hf1, (unpacked_outside f0 dest top members); [done..|].
    intros Hpre%prefix_length. rewrite length_app in Hpre. simpl in Hpre. lia. }
  assert (Htop1 : f1 !! (dest ++ [top]) = Some Dir).
  { rewrite Hf1. by apply (unpacked_top f0 dest top members). }
  assert (Hfiles1 : ∀ r data, f1 !! (dest ++ top :: r) = Some (File data)
                              ↔ (top :: r, File data) ∈ members).
  { intros r data. rewrite Hf1. apply (unpacked_file f0 dest top members); [done..|].
    by apply prefix_cons, prefix_nil. }
  assert (Hunder : ∀ (a b : string) r, a ≠ b → ¬ (dest ++ [a]) `prefix_of` dest ++ b :: r).
  { intros a b r Hab [k Hk]. rewrite <- app_assoc in Hk.
    apply (inj (app dest)) in Hk. simpl in Hk. congruence. }
  exists (moved f1 (dest ++ [name]) (dest ++ ["server"])). split_and!.
  - unfold extract_files. rewrite basename_snoc, (endswith_tar_not_exe _ Hname), Hname.
    run_ret by (unfold tarfile_open; simpl; rewrite Hfile, Huntar; reflexivity).
    run_ret by exact Hrun1.
    run_ret by (unfold os_listdir; simpl; rewrite Hdest1, Hlist; reflexivity).
    run_ret by reflexivity.
    unfold os_rename. simpl. rewrite (Hout name), Hfile by done.
    rewrite bool_decide_eq_false_2 by (intros Heq%(inj (app dest)); congruence).
    rewrite bool_decide_eq_false_2 by (by apply Hsnoc).
    destruct (dest ++ ["server"]) as [|c0 l0] eqn:Hds; [by destruct dest|].
    rewrite <- Hds in *. rewrite parent_snoc, Hdest1.
    rewrite (Hout "server") by (by apply not_eq_sym). by rewrite Hfree'.
  - rewrite lookup_moved, decide_True by done.
    by rewrite drop_all, app_nil_r, (Hout name), Hfile.
  - rewrite lookup_moved, decide_False by (by apply Hsnoc).
    by rewrite decide_True.
  - rewrite lookup_moved, !decide_False by (by apply Hsnoc). done.
  - intros r data. rewrite lookup_moved, !decide_False by (by apply Hunder).
    apply Hfiles1.
Qed.

Lemma listed_first_archive_becomes_server_witness :
  ∃ f', extract_files files_first_machine (["srv"; "updateinfo"] ++ ["build.tar.gz"])
          ["srv"; "updateinfo"] (World downloaded_disk [])
        = (World f' [], Ret tt) ∧
        f' !! (["srv"; "updateinfo"] ++ ["server"]) = Some (File "TGZxyz") ∧
        f' !! (["srv"; "updateinfo"] ++ ["build.tar.gz"]) = None ∧
        f' !! (["srv"; "updateinfo"] ++ ["buildXYZ"]) = Some Dir ∧
        (∀ r data, f' !! (["srv"; "updateinfo"] ++ "buildXYZ" :: r) = Some (File data)
                   ↔ ("buildXYZ" :: r, File data) ∈ build_xyz).
Proof.
  apply (listed_first_archive_becomes_server files_first_machine ["srv"; "updateinfo"]
           "build.tar.gz" (World downloaded_disk []) "TGZxyz" build_xyz "buildXYZ" ["buildXYZ"]).
  - apply (bool_decide_unpack _). vm_compute. reflexivity.
  - vm_compute. reflexivity.
  - vm_compute. reflexivity.
  - vm_compute. reflexivity.
  - vm_compute. reflexivity.
  - apply (bool_decide_unpack _). vm_compute. reflexivity.
  - apply (bool_decide_unpack _). vm_compute. reflexivity.
  - discriminate.
  - vm_compute. reflexivity.
  - vm_compute. reflexivity.
  - vm_compute. reflexivity.
Defined.

(** X23: the log entry is written only after the install: when the run,
    on a machine whose archives have plain member names, has unpacked
    the build and [update_server] then raises, the run ends there with
    that exception; the staging folder is still a directory, and no
    line has been written to the log -- it is what it was before the
    run, or at most a directory has been made where there was no
    log. *)
Theorem failed_install_is_not_logged E K P args h w0 w0' w w1 w2 w3 o sf url ui file :
  module_init h w0 = (w0', Ret P) →
  plain_archives K →
  reach_extraction E K P args w = (w1, Ret (sf, url, ui, file)) →
  (∀ data, fs w !! (sf ++ ["updateinfo"]) ≠ Some (File data)) →
  extract_files K file ui w1 = (w2, Ret tt) →
  update_server P ui sf w2 = (w3, o) →
  is_ret o = false →
  main_body E K P args w = (w3, o) ∧
  fs w3 !! (sf ++ ["updateinfo"]) = Some Dir ∧
  (fs w3 !! (sf ++ ["updates.log"]) = fs w !! (sf ++ ["updates.log"])
   ∨ (fs w !! (sf ++ ["updates.log"]) = None
      ∧ fs w3 !! (sf ++ ["updates.log"]) = Some Dir)).
Proof.
  intros Hinit _ Hreach Hnofile Hextract Hinstall Hfail.
  destruct (reach_extraction_ret _ _ _ _ _ _ _ _ _ _ Hreach) as (-> & Hlog1 & Hdir1).
  destruct Hdir1 as [Hdir1|[data Hfile]]; [|by destruct (Hnofile data)].
  destruct (profile_paths _ _ _ _ Hinit) as (_ & _ & _ & Hname).
  split_and!.
  - rewrite main_body_stages. run_ret by exact Hreach. simpl.
    run_ret by exact Hextract. unfold finish_install.
    destruct o as [[]|e|c]; [done | |].
    + by run_raise by exact Hinstall.
    + by run_exit by exact Hinstall.
  - apply (dir_update_server _ _ _ _ _ _ _ Hinstall).
    by apply (dir_extract_files _ _ _ _ _ _ Hextract).
  - assert (Hlog2 : fs w2 !! (sf ++ ["updates.log"]) = fs w !! (sf ++ ["updates.log"])).
    { rewrite <- Hlog1.
      exact (same_extract_files _ K file (sf ++ ["updateinfo"])
               (staging_not_above_log sf) (log_not_above_staging sf) _ _ _ Hextract). }
    rewrite <- Hlog2.
    refine (kept_update_server h w0 w0' P (sf ++ ["updateinfo"]) sf _ Hinit
              _ _ _ _ _ Hinstall).
    + by rewrite basename_snoc.
    + intros Heq%(inj (app sf)). congruence.
Qed.

(** The one archive of the headless machine has plain member names. *)
Lemma headless_archives_plain : plain_archives headless_machine.
Proof.
  intros data members [Htar|H7z]; [|done]. simpl in Htar.
  case_match; simplify_eq. apply (bool_decide_unpack _). vm_compute. reflexivity.
Qed.

Lemma failed_install_is_not_logged_witness :
  let E := Env linux64 headless_web sample_parser in
  let sf := ["srv"] in
  let ui := ["srv"; "updateinfo"] in
  let file := ["srv"; "updateinfo"; "multitheftauto_linux_x64-1.6-rc-22741.tar.gz"] in
  let w1 := (reach_extraction E headless_machine linux64_profile ["/srv"]
                              installed_world).1 in
  let w2 := (extract_files headless_machine file ui w1).1 in
  let w3 := (update_server linux64_profile ui sf w2).1 in
  main_body E headless_machine linux64_profile ["/srv"] installed_world
  = (w3, Raise no_such_file) ∧
  fs w3 !! (sf ++ ["updateinfo"]) = Some Dir ∧
  (fs w3 !! (sf ++ ["updates.log"]) = fs installed_world !! (sf ++ ["updates.log"])
   ∨ (fs installed_world !! (sf ++ ["updates.log"]) = None
      ∧ fs w3 !! (sf ++ ["updates.log"]) = Some Dir)).
Proof.
  intros E sf ui file w1 w2 w3.
  apply (failed_install_is_not_logged E headless_machine linux64_profile ["/srv"]
           linux64 (World ∅ []) (module_init linux64 (World ∅ [])).1
           installed_world w1 w2 w3 (Raise no_such_file) sf
           (nightly_url +:+ "multitheftauto_linux_x64-1.6-rc-22741.tar.gz") ui file).
  - apply run_outcome. vm_compute. reflexivity.
  - exact headless_archives_plain.
  - apply (run_outcome (reach_extraction E headless_machine linux64_profile ["/srv"])
             installed_world).
    vm_compute. reflexivity.
  - intros data. vm_compute. discriminate.
  - apply (run_outcome (extract_files headless_machine file ui) w1).
    vm_compute. reflexivity.
  - apply (run_outcome (update_server linux64_profile ui sf) w2).
    vm_compute. reflexivity.
  - reflexivity.
Defined.

End mishaps.

(** ** Installing into any server folder *)

Section installing_afresh.
Context (f0 : filesystem) (binaries dest : path).
Hypothesis Hwf : wf f0.

Let target (src : path) : path := dest ++ relpath src binaries.

Hypothesis Hdisj : ∀ src, src ∈ lib_sources f0 binaries →
                          ¬ binaries `prefix_of` target src.
Hypothesis Hnofile : ∀ src q data, src ∈ lib_sources f0 binaries →
                       q `prefix_of` target src → q ≠ target src →
                       f0 !! q ≠ Some (File data).
Hypothesis Hnodir : ∀ src, src ∈ lib_sources f0 binaries →
                           f0 !! target src ≠ Some Dir.

Implicit Types (f : filesystem) (q src s : path).

Lemma fresh_target_ne src : src ∈ lib_sources f0 binaries → target src ≠ [].
Proof.
  intros (r & c & data & -> & _)%lib_source_shape. unfold target.
  rewrite target_shape. intros Heq%(f_equal length).
  rewrite !length_app in Heq. simpl in Heq. lia.
Qed.

(** No library's place is above another's. *)
Lemma target_not_above s src :
  s ∈ lib_sources f0 binaries → src ∈ lib_sources f0 binaries →
  target s `prefix_of` target src → s = src.
Proof.
  intros Hs Hsrc.
  destruct (lib_source_shape _ _ _ Hs) as (rs & cs & ds & Es & _ & Hfs).
  destruct (lib_source_shape _ _ _ Hsrc) as (r & c & d & E & _ & Hf).
  unfold target. rewrite Es, E, !target_shape. intros Hpre%prefix_app_inv.
  destruct (decide (binaries ++ rs ++ [cs] = binaries ++ r ++ [c])) as [|Hne]; [done|].
  exfalso. rewrite Es in Hfs.
  rewrite (wf_prefix f0 (binaries ++ rs ++ [cs]) (binaries ++ r ++ [c])) in Hfs;
    [done | done | by rewrite <- E, Hf | by apply prefix_app | done].
Qed.

(** A path at or above the folder of a library's place is no other
    library's place. *)
Lemma above_is_no_target s src q :
  s ∈ lib_sources f0 binaries → src ∈ lib_sources f0 binaries →
  q `prefix_of` parent (target src) → q ≠ target s.
Proof.
  intros Hs Hsrc Hq ->.
  assert (s = src) as ->.
  { apply target_not_above; [done..|]. etrans; [exact Hq | apply parent_prefix]. }
  apply prefix_length in Hq. unfold parent in Hq. rewrite length_take in Hq.
  pose proof (fresh_target_ne _ Hsrc). destruct (target src); [done | simpl in Hq; lia].
Qed.

Lemma above_is_no_file src q data :
  src ∈ lib_sources f0 binaries →
  q `prefix_of` parent (target src) → f0 !! q ≠ Some (File data).
Proof.
  intros Hsrc Hq. apply (Hnofile src); [done | |].
  - etrans; [exact Hq | apply parent_prefix].
  - intros ->. apply prefix_length in Hq. unfold parent in Hq.
    rewrite length_take in Hq. pose proof (fresh_target_ne _ Hsrc).
    destruct (target src); [done | simpl in Hq; lia].
Qed.

Section copying.
Context (done_ todo : list path) (src : path) (f : filesystem).
Hypothesis Hsplit : lib_sources f0 binaries = done_ ++ src :: todo.
Hypothesis Hcopied : ∀ s, s ∈ done_ → f !! target s = f0 !! s.
Hypothesis Hrest : ∀ q, (∀ s, s ∈ done_ → q ≠ target s) →
                        f !! q = beside_libraries f0 binaries dest done_ q.

Lemma fresh_done s : s ∈ done_ → s ∈ lib_sources f0 binaries.
Proof. rewrite Hsplit. intros ?. apply elem_of_app. by left. Qed.

Lemma fresh_this : src ∈ lib_sources f0 binaries.
Proof. rewrite Hsplit. apply elem_of_app. right. apply list_elem_of_here. Qed.

Lemma fresh_not_done : src ∉ done_.
Proof.
  pose proof (NoDup_lib_sources f0 binaries) as Hnd. rewrite Hsplit in Hnd.
  apply NoDup_app in Hnd as (_ & Hdis & _). intros Hin.
  apply (Hdis _ Hin), list_elem_of_here.
Qed.

(** At or above the folder of this library's place there is a
    directory or nothing. *)
Lemma fresh_above q :
  q `prefix_of` parent (target src) →
  f !! q = beside_libraries f0 binaries dest done_ q ∧
  ∀ data, f !! q ≠ Some (File data).
Proof.
  intros Hq.
  assert (Hf : f !! q = beside_libraries f0 binaries dest done_ q).
  { apply Hrest. intros s Hs.
    exact (above_is_no_target s src q (fresh_done _ Hs) fresh_this Hq). }
  split; [done|]. intros data. rewrite Hf. unfold beside_libraries.
  case_decide; [done|]. exact (above_is_no_file src q data fresh_this Hq).
Qed.

(** Where the folder exists, everything above it does. *)
Lemma fresh_above_exists q n :
  f !! parent (target src) = Some n → q `prefix_of` parent (target src) →
  f !! q = Some Dir.
Proof.
  intros Hpar Hq.
  destruct (fresh_above q Hq) as [Hf Hnf].
  destruct (fresh_above (parent (target src))) as [Hfp _]; [done|].
  rewrite Hf. unfold beside_libraries. case_decide as Hmade; [done|].
  destruct (f0 !! q) as [[data|]|] eqn:Hq0.
  - exfalso. by apply (above_is_no_file src q data fresh_this Hq).
  - done.
  - exfalso. apply Hmade. split; [done|].
    assert (Hp0 : f0 !! parent (target src) = None)
      by (by apply (wf_nothing_below f0 q)).
    rewrite Hfp in Hpar. unfold beside_libraries in Hpar. rewrite Hp0 in Hpar.
    case_decide as Hmade'; [|done]. destruct Hmade' as [_ Hex].
    eapply Exists_impl; [exact Hex|]. intros s Hs. by etrans.
Qed.

(** The folder of this library's place is there once lines 196-197
    have run. *)
Lemma fresh_folder o :
  ∃ f1, (e ← os_path_exists (parent (target src));
         if e : bool then mret tt else os_makedirs false (parent (target src)))
          (World f o) = (World f1 o, Ret tt) ∧
        ∀ q, f1 !! q = if decide (q `prefix_of` parent (target src))
                       then Some Dir else f !! q.
Proof.
  destruct (f !! parent (target src)) as [n|] eqn:Hpar.
  - exists f. split.
    + by run_ret by (unfold os_path_exists; simpl; rewrite Hpar;
                     rewrite bool_decide_eq_true_2 by eauto; reflexivity).
    + intros q. case_decide as Hq; [|done]. by apply (fresh_above_exists q n).
  - destruct (os_makedirs_ok false (parent (target src)) (World f o))
      as (f1 & Hrun & Hf1); simpl.
    + destruct (fresh_above []) as [Hroot _]; [apply prefix_nil|].
      rewrite Hroot. unfold beside_libraries. destruct Hwf as [Hr _].
      rewrite Hr. by rewrite decide_False by (by intros [? _]).
    + intros q data Hq _. by apply fresh_above.
    + by left.
    + exists f1. split; [|done].
      run_ret by (unfold os_path_exists; simpl; rewrite Hpar;
                  rewrite bool_decide_eq_false_2 by (by intros [??]); reflexivity).
      exact Hrun.
Qed.

Lemma fresh_target_in f1 :
  (∀ q, f1 !! q = if decide (q `prefix_of` parent (target src))
                  then Some Dir else f !! q) →
  f1 !! target src = f0 !! target src.
Proof.
  intros Hf1. pose proof (fresh_target_ne _ fresh_this) as Hne.
  rewrite Hf1, decide_False.
  - rewrite Hrest.
    + unfold beside_libraries. case_decide as Hmade; [|done].
      destruct Hmade as [_ Hex]. apply Exists_exists in Hex as (s & Hs & Hpre).
      destruct fresh_not_done.
      by rewrite (target_not_above src s fresh_this (fresh_done _ Hs) Hpre).
    + intros s Hs Heq. destruct fresh_not_done.
      by rewrite (target_inj f0 binaries dest src s fresh_this (fresh_done _ Hs) Heq).
  - intros Hpre%prefix_length. unfold parent in Hpre. rewrite length_take in Hpre.
    destruct (target src); [done | simpl in Hpre; lia].
Qed.

Lemma fresh_source_in f1 data :
  f0 !! src = Some (File data) →
  (∀ q, f1 !! q = if decide (q `prefix_of` parent (target src))
                  then Some Dir else f !! q) →
  f1 !! src = Some (File data).
Proof.
  intros Hdata Hf1.
  destruct (lib_source_shape _ _ _ fresh_this) as (r & c & d & E & _ & _).
  rewrite Hf1, decide_False.
  - rewrite Hrest.
    + unfold beside_libraries. rewrite decide_False; [done|]. intros [? _]. congruence.
    + intros s Hs Heq. apply (Hdisj s (fresh_done _ Hs)). rewrite <- Heq, E.
      by apply prefix_app_r.
  - intros Hpre. by apply (above_is_no_file src src data fresh_this Hpre).
Qed.

Lemma copy_library_afresh o :
  ∃ data f1,
    f0 !! src = Some (File data) ∧
    (∀ q, f1 !! q = if decide (q `prefix_of` parent (target src))
                    then Some Dir else f !! q) ∧
    copy_library binaries dest src (World f o)
    = (World (<[target src := File data]> f1) o, Ret tt).
Proof.
  destruct (lib_source_shape _ _ _ fresh_this) as (r & c & data & E & _ & Hdata).
  destruct (fresh_folder o) as (f1 & Hrun1 & Hf1).
  exists data, f1. split; [done|]. split; [done|].
  pose proof (fresh_target_in f1 Hf1) as Ht.
  pose proof (fresh_source_in f1 data Hdata Hf1) as Hs.
  assert (Hnd : f1 !! target src ≠ Some Dir).
  { rewrite Ht. apply Hnodir, fresh_this. }
  assert (Hdiff : src ≠ target src).
  { intros Heq. apply (Hdisj _ fresh_this). rewrite <- Heq, E. by apply prefix_app_r. }
  unfold copy_library. fold (target src). cbv zeta.
  rewrite <- (run_bind_assoc (os_path_exists (parent (target src)))
                (λ e : bool, if e then mret tt
                             else os_makedirs false (parent (target src)))
                (λ _, shutil_copy2 src (target src))).
  run_ret by exact Hrun1.
  unfold shutil_copy2.
  run_ret by (unfold os_path_isdir; simpl;
              rewrite bool_decide_eq_false_2 by done; reflexivity).
  run_ret by reflexivity. simpl. rewrite Hs, bool_decide_eq_false_2 by done.
  rewrite write_whole_file; [done|]. simpl.
  apply write_obstacle_None; [apply fresh_target_ne, fresh_this | | done].
  by rewrite Hf1, decide_True.
Qed.

End copying.

(** One more library copied: the directories made for it join the
    others. *)
Lemma beside_snoc done_ src q :
  src ∈ lib_sources f0 binaries → q ≠ target src →
  (if decide (q `prefix_of` parent (target src)) then Some Dir
   else beside_libraries f0 binaries dest done_ q)
  = beside_libraries f0 binaries dest (done_ ++ [src]) q.
Proof.
  intros Hsrc Hq. unfold beside_libraries. fold (target src).
  pose proof (fresh_target_ne _ Hsrc) as Hne.
  destruct (decide (q `prefix_of` parent (target src))) as [Hup|Hup].
  - assert (Hex : Exists (λ s, q `prefix_of` dest ++ relpath s binaries) (done_ ++ [src])).
    { apply Exists_app. right. apply Exists_cons. left.
      etrans; [exact Hup | apply parent_prefix]. }
    case_decide as Hmade; [done|].
    destruct (f0 !! q) as [[data|]|] eqn:Hq0; [|done|by destruct Hmade].
    by destruct (above_is_no_file src q data Hsrc Hup).
  - assert (Hiff : Exists (λ s, q `prefix_of` dest ++ relpath s binaries) (done_ ++ [src])
                   ↔ Exists (λ s, q `prefix_of` dest ++ relpath s binaries) done_).
    { rewrite Exists_app, Exists_cons, Exists_nil. split; [|tauto].
      intros [?|[Hpre|[]]]; [done|]. exfalso.
      apply (prefix_parent_iff q (target src) Hne) in Hpre as [?|?]; done. }
    repeat case_decide; try done; tauto.
Qed.

(** The loop copies every library, makes the folders it needs and
    touches nothing else. *)
Lemma copy_libraries_afresh done_ todo f o :
  lib_sources f0 binaries = done_ ++ todo →
  (∀ s, s ∈ done_ → f !! target s = f0 !! s) →
  (∀ q, (∀ s, s ∈ done_ → q ≠ target s) →
        f !! q = beside_libraries f0 binaries dest done_ q) →
  ∃ f', for_ todo (copy_library binaries dest) (World f o) = (World f' o, Ret tt) ∧
        (∀ s, s ∈ lib_sources f0 binaries → f' !! target s = f0 !! s) ∧
        (∀ q, (∀ s, s ∈ lib_sources f0 binaries → q ≠ target s) →
              f' !! q = beside_libraries f0 binaries dest (lib_sources f0 binaries) q).
Proof.
  revert done_ f. induction todo as [|src todo IH]; intros done_ f Hsplit Hcopied Hrest.
  - rewrite app_nil_r in Hsplit. exists f. rewrite Hsplit. done.
  - destruct (copy_library_afresh done_ todo src f Hsplit Hrest o)
      as (data & f1 & Hdata & Hf1 & Hrun).
    pose proof (fresh_this done_ todo src Hsplit) as Hsrc.
    pose proof (fresh_not_done done_ todo src Hsplit) as Hnew.
    destruct (IH (done_ ++ [src]) (<[target src := File data]> f1))
      as (f' & Hrun' & Hlibs & Hothers).
    + by rewrite <- app_assoc.
    + intros s [Hs| ->%list_elem_of_singleton]%elem_of_app.
      * pose proof (fresh_done done_ todo src Hsplit s Hs) as Hs'.
        rewrite lookup_insert_ne.
        -- rewrite Hf1, decide_False; [by apply Hcopied|].
           intros Hup. by apply (above_is_no_target s src (target s) Hs' Hsrc Hup).
        -- intros Heq. apply Hnew.
           by rewrite (target_inj f0 binaries dest src s Hsrc Hs' Heq).
      * by rewrite lookup_insert_eq.
    + intros q Hq.
      assert (Hq' : q ≠ target src).
      { apply Hq, elem_of_app. right. apply list_elem_of_here. }
      rewrite lookup_insert_ne by done. rewrite Hf1, <- beside_snoc by done.
      case_decide; [done|]. apply Hrest. intros s Hs. apply Hq, elem_of_app. by left.
    + exists f'. split; [|done]. simpl. by run_ret by exact Hrun.
Qed.

End installing_afresh.

(** Checking the places above a path one by one. *)
Lemma no_file_above (f : filesystem) (t : path) :
  forallb (λ k, match f !! take k t with Some (File _) => false | _ => true end)
          (seq 0 (length t)) = true →
  ∀ q data, q `prefix_of` t → q ≠ t → f !! q ≠ Some (File data).
Proof.
  intros Hall q data Hpre Hne Hq. rewrite forallb_forall in Hall.
  pose proof (prefix_length _ _ Hpre) as Hlen.
  assert (Hlt : (length q < length t)%nat).
  { destruct (decide (length q = length t)) as [Heq|]; [|lia].
    destruct Hne. rewrite (prefix_length_eq_take q t Hpre), Heq. apply firstn_all. }
  specialize (Hall (length q)). rewrite <- (prefix_length_eq_take q t Hpre), Hq in Hall.
  discriminate Hall. apply in_seq. lia.
Qed.

Section install_any.
Implicit Types (f : filesystem) (p q d src sf ui : path) (w : world) (P : profile).

(** The installer's run on a staged build, for the theorems that
    follow. *)
Lemma update_server_run h w0 w0' P ui sf w new_exe :
  module_init h w0 = (w0', Ret P) →
  wf (fs w) →
  let binaries := (ui ++ ["server"]) ++ loc_of P in
  let dest := sf ++ loc_of P in
  let libs := lib_sources (fs w) binaries in
  let target := λ src, dest ++ relpath src binaries in
  let server_exe := (ui ++ ["server"]) ++ [EXEC_FILE_NAME P] in
  let dest_server_exe := sf ++ [EXEC_FILE_NAME P] in
  fs w !! server_exe = Some (File new_exe) →
  fs w !! sf = Some Dir →
  fs w !! dest_server_exe ≠ Some Dir →
  ¬ (ui ++ ["server"]) `prefix_of` dest_server_exe →
  (∀ src, src ∈ libs → ¬ (ui ++ ["server"]) `prefix_of` target src) →
  (∀ src, src ∈ libs → ¬ dest_server_exe `prefix_of` target src) →
  (∀ src q data, src ∈ libs → q `prefix_of` target src → q ≠ target src →
                 fs w !! q ≠ Some (File data)) →
  (∀ src, src ∈ libs → fs w !! target src ≠ Some Dir) →
  ∃ f', update_server P ui sf w = (World f' (out w), Ret tt) ∧
        (∀ src, src ∈ libs → f' !! target src = fs w !! src) ∧
        f' !! dest_server_exe = Some (File new_exe) ∧
        (∀ q, q ≠ dest_server_exe → (∀ src, src ∈ libs → q ≠ target src) →
              f' !! q = beside_libraries (fs w) binaries dest libs q).
Proof.
  destruct w as [f0 o]. simpl.
  intros Hinit Hwf Hnew Hsf Hexe_nd Hexe Hdisj Hexe_above Hnofile Hnodir.
  destruct (profile_paths _ _ _ _ Hinit) as (Hexe_join & Hloc_join & Hnolib & _).
  set (binaries := (ui ++ ["server"]) ++ loc_of P) in *.
  set (dest := sf ++ loc_of P) in *.
  set (server_exe := (ui ++ ["server"]) ++ [EXEC_FILE_NAME P]) in *.
  set (dest_server_exe := sf ++ [EXEC_FILE_NAME P]) in *.
  assert (Hdisj' : ∀ src, src ∈ lib_sources f0 binaries →
                          ¬ binaries `prefix_of` dest ++ relpath src binaries).
  { intros src Hsrc Hpre. apply (Hdisj _ Hsrc). etrans; [|exact Hpre].
    by apply prefix_app_r. }
  destruct (copy_libraries_afresh f0 binaries dest Hwf Hdisj' Hnofile Hnodir
              [] _ f0 o eq_refl) as (fL & HrunL & Hlibs & Hothers).
  { by intros s ?%elem_of_nil. }
  { intros q _. unfold beside_libraries. rewrite decide_False; [done|].
    intros [_ Hex]. by apply Exists_nil in Hex. }
  assert (Hnot_target : ∀ src, src ∈ lib_sources f0 binaries →
                               dest_server_exe ≠ dest ++ relpath src binaries).
  { intros src Hsrc Heq.
    pose proof (target_is_library f0 binaries dest src Hsrc) as Hlib.
    cbv beta zeta in Hlib. rewrite <- Heq in Hlib. unfold dest_server_exe in Hlib.
    rewrite basename_snoc in Hlib. congruence. }
  assert (Hkeep : ∀ q, is_Some (f0 !! q) →
                       (∀ src, src ∈ lib_sources f0 binaries →
                               q ≠ dest ++ relpath src binaries) →
                       fL !! q = f0 !! q).
  { intros q [n Hn] Hq. rewrite Hothers by done. unfold beside_libraries.
    rewrite decide_False; [done|]. intros [? _]. congruence. }
  assert (HexeL : fL !! dest_server_exe = f0 !! dest_server_exe).
  { rewrite Hothers by done. unfold beside_libraries.
    rewrite decide_False; [done|]. intros [_ Hex].
    apply Exists_exists in Hex as (s & Hs & Hpre). by apply (Hexe_above s). }
  assert (HsfL : fL !! sf = Some Dir).
  { rewrite Hkeep; [done | by rewrite Hsf |]. intros s Hs Heq.
    apply (Hnodir s Hs). by rewrite <- Heq. }
  assert (HsrcL : fL !! server_exe = Some (File new_exe)).
  { rewrite Hkeep; [done | by rewrite Hnew |]. intros s Hs Heq. apply (Hdisj _ Hs).
    rewrite <- Heq. by apply prefix_app_r. }
  assert (Hdiff : server_exe ≠ dest_server_exe).
  { intros Heq. apply Hexe. rewrite <- Heq. by apply prefix_app_r. }
  assert (Hsf_ne : sf ≠ dest_server_exe).
  { intros Heq%(f_equal length). unfold dest_server_exe in Heq.
    rewrite length_app in Heq. simpl in Heq. lia. }
  exists (<[dest_server_exe := File new_exe]> fL). split_and!.
  - rewrite update_server_unfold, !Hloc_join, !Hexe_join. simpl.
    fold binaries dest server_exe dest_server_exe.
    run_ret by exact HrunL.
    unfold copy_executable.
    destruct (f0 !! dest_server_exe) as [[old|]|] eqn:Hold; [|done|].
    + run_ret by (unfold os_path_exists; simpl; rewrite HexeL;
                  rewrite bool_decide_eq_true_2 by eauto; reflexivity).
      run_ret by (unfold os_remove; simpl; rewrite HexeL; reflexivity).
      unfold shutil_copy2.
      run_ret by (unfold os_path_isdir; simpl; rewrite lookup_delete_eq;
                  rewrite bool_decide_eq_false_2 by done; reflexivity).
      run_ret by reflexivity.
      simpl. rewrite lookup_delete_ne, HsrcL, bool_decide_eq_false_2 by done.
      rewrite write_whole_file; simpl.
      * by rewrite insert_delete_eq.
      * apply write_obstacle_None.
        -- unfold dest_server_exe. by destruct sf.
        -- unfold dest_server_exe. rewrite parent_snoc.
           by rewrite lookup_delete_ne.
        -- by rewrite lookup_delete_eq.
    + run_ret by (unfold os_path_exists; simpl; rewrite HexeL;
                  rewrite bool_decide_eq_false_2 by (by intros [??]); reflexivity).
      run_ret by reflexivity.
      unfold shutil_copy2.
      run_ret by (unfold os_path_isdir; simpl; rewrite HexeL;
                  rewrite bool_decide_eq_false_2 by done; reflexivity).
      run_ret by reflexivity.
      simpl. rewrite HsrcL, bool_decide_eq_false_2 by done.
      rewrite write_whole_file; [done|]. simpl.
      apply write_obstacle_None.
      * unfold dest_server_exe. by destruct sf.
      * unfold dest_server_exe. by rewrite parent_snoc.
      * by rewrite HexeL.
  - intros src Hsrc. rewrite lookup_insert_ne by (by apply Hnot_target).
    by apply Hlibs.
  - apply lookup_insert_eq.
  - intros q Hq Hnt. rewrite lookup_insert_ne by done. by apply Hothers.
Qed.

(** X24: [update_server] installs a staged build into any server
    folder, fresh or not.  On a well-formed disk with the executable
    staged and the server folder a directory, provided that no regular
    file stands above a library's place, no directory stands at a
    library's or at the executable's place, and none of these places
    lies in the staged tree, the call returns normally; afterwards
    every staged [.dll]/[.so] is at its place below the server folder,
    byte for byte, the folders missing above it have been made, the
    executable is the new one whether or not there was an old one, and
    every other path holds what it held.  (The executable's place is
    also taken not to lie above a library's place.) *)
Theorem update_server_installs h w0 w0' P ui sf w new_exe :
  module_init h w0 = (w0', Ret P) →
  wf (fs w) →
  let binaries := (ui ++ ["server"]) ++ loc_of P in
  let dest := sf ++ loc_of P in
  let libs := lib_sources (fs w) binaries in
  let target := λ src, dest ++ relpath src binaries in
  let server_exe := (ui ++ ["server"]) ++ [EXEC_FILE_NAME P] in
  let dest_server_exe := sf ++ [EXEC_FILE_NAME P] in
  fs w !! server_exe = Some (File new_exe) →
  fs w !! sf = Some Dir →
  fs w !! dest_server_exe ≠ Some Dir →
  ¬ (ui ++ ["server"]) `prefix_of` dest_server_exe →
  (∀ src, src ∈ libs → ¬ (ui ++ ["server"]) `prefix_of` target src) →
  (∀ src, src ∈ libs → ¬ dest_server_exe `prefix_of` target src) →
  (∀ src q data, src ∈ libs → q `prefix_of` target src → q ≠ target src →
                 fs w !! q ≠ Some (File data)) →
  (∀ src, src ∈ libs → fs w !! target src ≠ Some Dir) →
  ∃ f', update_server P ui sf w = (World f' (out w), Ret tt) ∧
        (∀ src, src ∈ libs → f' !! target src = fs w !! src) ∧
        f' !! dest_server_exe = Some (File new_exe) ∧
        (∀ q, q ≠ dest_server_exe → (∀ src, src ∈ libs → q ≠ target src) →
              f' !! q = beside_libraries (fs w) binaries dest libs q).
Proof.
  intros Hinit Hwf. cbv zeta. intros Hnew Hsf Hexe_nd Hexe Hdisj Hexe_above Hnofile Hnodir.
  exact (update_server_run h w0 w0' P ui sf w new_exe Hinit Hwf Hnew Hsf Hexe_nd Hexe
           Hdisj Hexe_above Hnofile Hnodir).
Qed.

Lemma update_server_installs_witness :
  let ui := ["srv"; "updateinfo"] in
  let sf := ["srv"] in
  let binaries := (ui ++ ["server"]) ++ loc_of linux64_profile in
  let dest := sf ++ loc_of linux64_profile in
  let libs := lib_sources first_install_disk binaries in
  let target := λ src, dest ++ relpath src binaries in
  let dest_server_exe := sf ++ [EXEC_FILE_NAME linux64_profile] in
  ∃ f', update_server linux64_profile ui sf (World first_install_disk [])
        = (World f' [], Ret tt) ∧
        (∀ src, src ∈ libs → f' !! target src = first_install_disk !! src) ∧
        f' !! dest_server_exe = Some (File "ELF1") ∧
        (∀ q, q ≠ dest_server_exe → (∀ src, src ∈ libs → q ≠ target src) →
              f' !! q = beside_libraries first_install_disk binaries dest libs q).
Proof.
  assert (Hlibs : lib_sources first_install_disk
                    ((["srv"; "updateinfo"] ++ ["server"]) ++ loc_of linux64_profile)
                  = [["srv"; "updateinfo"; "server"; "x64"; "modules"; "b.so"];
                     ["srv"; "updateinfo"; "server"; "x64"; "a.so"]])
    by (vm_compute; reflexivity).
  apply (update_server_installs linux64 (World ∅ []) (module_init linux64 (World ∅ [])).1
           linux64_profile ["srv"; "updateinfo"] ["srv"] (World first_install_disk [])
           "ELF1").
  - apply run_outcome. vm_compute. reflexivity.
  - apply (bool_decide_unpack _). vm_compute. reflexivity.
  - vm_compute. reflexivity.
  - vm_compute. reflexivity.
  - vm_compute. discriminate.
  - apply (bool_decide_unpack _). vm_compute. reflexivity.
  - intros src Hsrc.
    change (src ∈ lib_sources first_install_disk
                    ((["srv"; "updateinfo"] ++ ["server"]) ++ loc_of linux64_profile))
      in Hsrc.
    rewrite Hlibs in Hsrc.
    apply elem_of_cons in Hsrc as [->|Hsrc];
      [|apply list_elem_of_singleton in Hsrc as ->];
      apply (bool_decide_unpack _); vm_compute; reflexivity.
  - intros src Hsrc.
    change (src ∈ lib_sources first_install_disk
                    ((["srv"; "updateinfo"] ++ ["server"]) ++ loc_of linux64_profile))
      in Hsrc.
    rewrite Hlibs in Hsrc.
    apply elem_of_cons in Hsrc as [->|Hsrc];
      [|apply list_elem_of_singleton in Hsrc as ->];
      apply (bool_decide_unpack _); vm_compute; reflexivity.
  - intros src q data Hsrc.
    change (src ∈ lib_sources first_install_disk
                    ((["srv"; "updateinfo"] ++ ["server"]) ++ loc_of linux64_profile))
      in Hsrc.
    rewrite Hlibs in Hsrc.
    apply elem_of_cons in Hsrc as [->|Hsrc];
      [|apply list_elem_of_singleton in Hsrc as ->];
      apply no_file_above; vm_compute; reflexivity.
  - intros src Hsrc.
    change (src ∈ lib_sources first_install_disk
                    ((["srv"; "updateinfo"] ++ ["server"]) ++ loc_of linux64_profile))
      in Hsrc.
    rewrite Hlibs in Hsrc.
    apply elem_of_cons in Hsrc as [->|Hsrc];
      [|apply list_elem_of_singleton in Hsrc as ->];
      vm_compute; discriminate.
Defined.

End install_any.

(** ** The run before and after the extraction *)

Section finishing.
Implicit Types (f : filesystem) (p q d src sf ui : path) (w : world) (P : profile)
  (K : machine).

(** The executable is never called like the staging folder. *)
Lemma exe_not_staging h w0 w0' P :
  module_init h w0 = (w0', Ret P) → EXEC_FILE_NAME P ≠ "updateinfo".
Proof.
  rewrite module_init_cases. destruct (unsupported h) eqn:Hu; [done|].
  intros [= _ <-]. revert Hu. destruct h as [os b64 arm].
  unfold unsupported, entry_str, entry, cpu_arch, os_name, cpu_bits. simpl.
  destruct arm, (String.eqb os "Windows"), b64; intros Hu; try discriminate Hu;
    vm_compute; discriminate.
Qed.

(** X25: what is left of the run once the build is staged.  Under the
    conditions of the installer -- the executable staged, no regular
    file above a library's place, no directory at a library's or at the
    executable's place -- and with [updates.log] a file or missing and
    no library bound for the staging folder or for a place below the
    log or the executable, [update_server], [log_update] and
    [delete_folder] all return: the libraries and the executable are
    installed, the log holds its old text followed by one new line, the
    staging folder is gone with everything in it, the farewell is the
    one line printed, and nothing else has changed but for the folders
    made above the libraries. *)
Theorem staged_build_is_installed h w0 w0' K P sf url w new_exe :
  module_init h w0 = (w0', Ret P) →
  wf (fs w) →
  let ui := sf ++ ["updateinfo"] in
  let binaries := (ui ++ ["server"]) ++ loc_of P in
  let dest := sf ++ loc_of P in
  let libs := lib_sources (fs w) binaries in
  let target := λ src, dest ++ relpath src binaries in
  let dest_server_exe := sf ++ [EXEC_FILE_NAME P] in
  let log := sf ++ ["updates.log"] in
  fs w !! ((ui ++ ["server"]) ++ [EXEC_FILE_NAME P]) = Some (File new_exe) →
  fs w !! dest_server_exe ≠ Some Dir →
  fs w !! log ≠ Some Dir →
  (∀ src, src ∈ libs → ¬ ui `prefix_of` target src) →
  (∀ src, src ∈ libs → ¬ dest_server_exe `prefix_of` target src) →
  (∀ src, src ∈ libs → ¬ log `prefix_of` target src) →
  (∀ src q data, src ∈ libs → q `prefix_of` target src → q ≠ target src →
                 fs w !! q ≠ Some (File data)) →
  (∀ src, src ∈ libs → fs w !! target src ≠ Some Dir) →
  ∃ f', finish_install K P sf url ui w
        = (World f' (out w ++ [nl +:+ "Server binaries were successfully updated. Bye!"
                               +:+ nl]),
           Ret tt) ∧
        (∀ src, src ∈ libs → f' !! target src = fs w !! src) ∧
        f' !! dest_server_exe = Some (File new_exe) ∧
        f' !! log = Some (File (log_text (fs w !! log) +:+ log_line K url)) ∧
        (∀ q, ui `prefix_of` q → f' !! q = None) ∧
        (∀ q, ¬ ui `prefix_of` q → q ≠ dest_server_exe → q ≠ log →
              (∀ src, src ∈ libs → q ≠ target src) →
              f' !! q = beside_libraries (fs w) binaries dest libs q).
Proof.
  destruct w as [f0 o]. simpl.
  intros Hinit Hwf Hnew Hexe_nd Hlog_nd Hstaging Hexe_above Hlog_above Hnofile Hnodir.
  destruct (profile_paths _ _ _ _ Hinit) as (_ & _ & Hnolib & Hexe_log).
  pose proof (exe_not_staging _ _ _ _ Hinit) as Hexe_ui.
  set (ui := sf ++ ["updateinfo"]) in *.
  set (binaries := (ui ++ ["server"]) ++ loc_of P) in *.
  set (dest := sf ++ loc_of P) in *.
  set (dest_server_exe := sf ++ [EXEC_FILE_NAME P]) in *.
  set (log := sf ++ ["updates.log"]) in *.
  assert (Hui : f0 !! ui = Some Dir).
  { apply (wf_above f0 ui (["server"] ++ [EXEC_FILE_NAME P])); [done | | done].
    rewrite app_assoc. by rewrite Hnew. }
  assert (Hsf : f0 !! sf = Some Dir).
  { apply (wf_above f0 sf ["updateinfo"]); [done | by exists Dir | done]. }
  assert (Hlen : ¬ (ui ++ ["server"]) `prefix_of` dest_server_exe).
  { intros Hpre%prefix_length. unfold ui, dest_server_exe in Hpre.
    rewrite !length_app in Hpre. simpl in Hpre. lia. }
  assert (Hdisj : ∀ src, src ∈ lib_sources f0 binaries →
                         ¬ (ui ++ ["server"]) `prefix_of` dest ++ relpath src binaries).
  { intros src Hsrc Hpre. apply (Hstaging _ Hsrc). etrans; [|exact Hpre].
    by apply prefix_app_r. }
  destruct (update_server_run h w0 w0' P ui sf (World f0 o) new_exe Hinit Hwf
              Hnew Hsf Hexe_nd Hlen Hdisj Hexe_above Hnofile Hnodir)
    as (f1 & Hrun1 & Hlibs1 & Hexe1 & Hothers1).
  fold binaries dest dest_server_exe in Hlibs1, Hexe1, Hothers1. simpl in Hlibs1, Hothers1.
  assert (Hlib_name : ∀ src c, src ∈ lib_sources f0 binaries → is_library c = false →
                               sf ++ [c] ≠ dest ++ relpath src binaries).
  { intros src c Hsrc Hc Heq.
    pose proof (target_is_library f0 binaries dest src Hsrc) as Hlib.
    cbv beta zeta in Hlib. rewrite <- Heq, basename_snoc in Hlib. congruence. }
  assert (Hkeep : ∀ q, is_Some (f0 !! q) → q ≠ dest_server_exe →
                       (∀ src, src ∈ lib_sources f0 binaries →
                               q ≠ dest ++ relpath src binaries) →
                       f1 !! q = f0 !! q).
  { intros q [n Hn] Hq Hnt. rewrite Hothers1 by done. unfold beside_libraries.
    rewrite decide_False; [done|]. intros [? _]. congruence. }
  assert (Hsnoc : ∀ a b : string, a ≠ b → sf ++ [a] ≠ sf ++ [b]).
  { intros a b Hab Heq%(inj (app sf)). congruence. }
  assert (Hshort : ∀ c : string, sf ≠ sf ++ [c]).
  { intros c Heq%(f_equal length). rewrite length_app in Heq. simpl in Heq. lia. }
  assert (Hsf1 : f1 !! sf = Some Dir).
  { rewrite Hkeep; [done | by rewrite Hsf | apply Hshort |].
    intros s Hs Heq. apply (Hnodir s Hs). by rewrite <- Heq. }
  assert (Hui1 : f1 !! ui = Some Dir).
  { rewrite Hkeep; [done | by rewrite Hui | by apply Hsnoc, not_eq_sym |].
    intros s Hs Heq. apply (Hstaging s Hs). by rewrite <- Heq. }
  assert (Hlog1 : f1 !! log = f0 !! log).
  { rewrite Hothers1; [| by apply Hsnoc, not_eq_sym | intros s Hs; by apply Hlib_name].
    unfold beside_libraries. rewrite decide_False; [done|]. intros [_ Hex].
    apply Exists_exists in Hex as (s & Hs & Hpre). by apply (Hlog_above s). }
  assert (Hlog_out : ¬ ui `prefix_of` log).
  { intros [Heq|Hpre]%prefix_snoc_inv.
    - apply (inj (app sf)) in Heq. congruence.
    - apply prefix_length in Hpre. unfold ui in Hpre. rewrite length_app in Hpre.
      simpl in Hpre. lia. }
  assert (Hexe_out : ¬ ui `prefix_of` dest_server_exe).
  { intros [Heq|Hpre]%prefix_snoc_inv.
    - apply (inj (app sf)) in Heq. congruence.
    - apply prefix_length in Hpre. unfold ui in Hpre. rewrite length_app in Hpre.
      simpl in Hpre. lia. }
  assert (Hlog1_nd : f1 !! log ≠ Some Dir) by (by rewrite Hlog1).
  assert (Hui2 : <[log := File (log_text (f1 !! log) +:+ log_line K url)]> f1 !! ui
                 = Some Dir).
  { by rewrite lookup_insert_ne by (by apply Hsnoc). }
  exists (filter (λ qn : path * node, ¬ ui `prefix_of` qn.1)
                 (<[log := File (log_text (f1 !! log) +:+ log_line K url)]> f1)).
  split_and!.
  - unfold finish_install.
    run_ret by exact Hrun1.
    run_ret by (apply log_update_run; [exact Hsf1 | exact Hlog1_nd]).
    run_ret by (apply delete_folder_dir; exact Hui2).
    reflexivity.
  - intros src Hsrc. rewrite lookup_rmtree, decide_False by (by apply Hstaging).
    rewrite lookup_insert_ne by (by apply Hlib_name). by apply Hlibs1.
  - rewrite lookup_rmtree, decide_False by done.
    by rewrite lookup_insert_ne by (by apply Hsnoc, not_eq_sym).
  - rewrite lookup_rmtree, decide_False by done.
    by rewrite lookup_insert_eq, Hlog1.
  - intros q Hq. by rewrite lookup_rmtree, decide_True.
  - intros q Hq Hne_exe Hne_log Hnt. rewrite lookup_rmtree, decide_False by done.
    rewrite lookup_insert_ne by done. by apply Hothers1.
Qed.


Lemma staged_build_is_installed_witness :
  let sf := ["srv"] in
  let url := nightly_url +:+ "multitheftauto_linux_x64-1.6-rc-22741.tar.gz" in
  let ui := sf ++ ["updateinfo"] in
  let binaries := (ui ++ ["server"]) ++ loc_of linux64_profile in
  let dest := sf ++ loc_of linux64_profile in
  let libs := lib_sources staged_disk binaries in
  let target := λ src, dest ++ relpath src binaries in
  let dest_server_exe := sf ++ [EXEC_FILE_NAME linux64_profile] in
  let log := sf ++ ["updates.log"] in
  ∃ f', finish_install sample_machine linux64_profile sf url ui (World staged_disk [])
        = (World f' ([] ++ [nl +:+ "Server binaries were successfully updated. Bye!"
                            +:+ nl]),
           Ret tt) ∧
        (∀ src, src ∈ libs → f' !! target src = staged_disk !! src) ∧
        f' !! dest_server_exe = Some (File "ELF1") ∧
        f' !! log = Some (File (log_text (staged_disk !! log)
                                +:+ log_line sample_machine url)) ∧
        (∀ q, ui `prefix_of` q → f' !! q = None) ∧
        (∀ q, ¬ ui `prefix_of` q → q ≠ dest_server_exe → q ≠ log →
              (∀ src, src ∈ libs → q ≠ target src) →
              f' !! q = beside_libraries staged_disk binaries dest libs q).
Proof.
  assert (Hlibs : lib_sources staged_disk
                    (((["srv"] ++ ["updateinfo"]) ++ ["server"]) ++ loc_of linux64_profile)
                  = [["srv"; "updateinfo"; "server"; "x64"; "a.so"]])
    by (vm_compute; reflexivity).
  apply (staged_build_is_installed linux64 (World ∅ []) (module_init linux64 (World ∅ [])).1
           sample_machine linux64_profile ["srv"]
           (nightly_url +:+ "multitheftauto_linux_x64-1.6-rc-22741.tar.gz")
           (World staged_disk []) "ELF1").
  - apply run_outcome. vm_compute. reflexivity.
  - apply (bool_decide_unpack _). vm_compute. reflexivity.
  - vm_compute. reflexivity.
  - vm_compute. discriminate.
  - vm_compute. discriminate.
  - intros src Hsrc.
    change (src ∈ lib_sources staged_disk
              (((["srv"] ++ ["updateinfo"]) ++ ["server"]) ++ loc_of linux64_profile))
      in Hsrc.
    rewrite Hlibs in Hsrc. apply list_elem_of_singleton in Hsrc as ->.
    apply (bool_decide_unpack _). vm_compute. reflexivity.
  - intros src Hsrc.
    change (src ∈ lib_sources staged_disk
              (((["srv"] ++ ["updateinfo"]) ++ ["server"]) ++ loc_of linux64_profile))
      in Hsrc.
    rewrite Hlibs in Hsrc. apply list_elem_of_singleton in Hsrc as ->.
    apply (bool_decide_unpack _). vm_compute. reflexivity.
  - intros src Hsrc.
    change (src ∈ lib_sources staged_disk
              (((["srv"] ++ ["updateinfo"]) ++ ["server"]) ++ loc_of linux64_profile))
      in Hsrc.
    rewrite Hlibs in Hsrc. apply list_elem_of_singleton in Hsrc as ->.
    apply (bool_decide_unpack _). vm_compute. reflexivity.
  - intros src q data Hsrc.
    change (src ∈ lib_sources staged_disk
              (((["srv"] ++ ["updateinfo"]) ++ ["server"]) ++ loc_of linux64_profile))
      in Hsrc.
    rewrite Hlibs in Hsrc. apply list_elem_of_singleton in Hsrc as ->.
    apply no_file_above. vm_compute. reflexivity.
  - intros src Hsrc.
    change (src ∈ lib_sources staged_disk
              (((["srv"] ++ ["updateinfo"]) ++ ["server"]) ++ loc_of linux64_profile))
      in Hsrc.
    rewrite Hlibs in Hsrc. apply list_elem_of_singleton in Hsrc as ->.
    vm_compute. discriminate.
Defined.

End finishing.

Section reaching.
Implicit Types (f : filesystem) (p q d sf ui folder : path) (w : world)
  (E : env) (K : machine) (P : profile).

(** A listing that yields a URL does so in every world, with one line
    printed. *)
Lemma fetch_returns_anywhere E P w url :
  (fetch_exe_url E P w).2 = Ret url →
  ∀ w', fetch_exe_url E P w'
        = (World (fs w') (out w' ++ [found_message P url]), Ret url).
Proof.
  unfold fetch_exe_url, requests_get, mbind, M_bind, mret, M_ret, raise, print, exit.
  destruct (http_get E nightly_url) as [st chunks [e|]|e]; [done| |done].
  simpl. case_bool_decide; [done|]. simpl.
  destruct (latest_href_pure (BUILD_STRING P)
              (html_parser E (fold_right String.append "" chunks))) as (o & _ & Ho).
  rewrite Ho. destruct o as [href|e|c]; [|done..]. simpl.
  intros [= <-] w'. by rewrite Ho.
Qed.

(** The staging folder of a server folder, made or found. *)
Lemma prepare_makes_staging sf w :
  wf (fs w) →
  fs w !! sf = Some Dir →
  (∀ data, fs w !! (sf ++ ["updateinfo"]) ≠ Some (File data)) →
  prepare_updateinfo_folder sf w
  = (World (<[sf ++ ["updateinfo"] := Dir]> (fs w)) (out w), Ret (sf ++ ["updateinfo"])).
Proof.
  intros Hwf Hsf Hnf.
  assert (Habove : ∀ q, q `prefix_of` sf → fs w !! q = Some Dir).
  { intros q Hq. destruct (decide (q = sf)) as [->|Hne]; [done|].
    apply (wf_prefix (fs w) q sf); [done | by rewrite Hsf | done | done]. }
  destruct (fs w !! (sf ++ ["updateinfo"])) as [[data|]|] eqn:Hui.
  - by destruct (Hnf data).
  - rewrite insert_id by done. unfold prepare_updateinfo_folder. cbv zeta.
    run_ret by (unfold os_path_exists; rewrite Hui;
                rewrite bool_decide_eq_true_2 by eauto; reflexivity).
    run_ret by reflexivity. by destruct w.
  - destruct (prepare_run sf w) as (f' & Hrun & Hf'); [apply Hwf | | done |].
    { intros q data Hq. by rewrite (Habove q Hq). }
    rewrite Hrun. do 2 f_equal. apply map_eq. intros q. rewrite Hf'.
    destruct (decide (q = sf ++ ["updateinfo"])) as [->|Hne].
    + by rewrite decide_True, lookup_insert_eq.
    + rewrite lookup_insert_ne by done. case_decide as Hq; [|done].
      apply prefix_snoc_inv in Hq as [?|Hq]; [done|]. by rewrite Habove.
Qed.

(** What [clear_folder] leaves of a well-formed disk. *)
Lemma cleared_disk f folder :
  wf f →
  f !! folder = Some Dir →
  let f' := delete_all f (walk_files f folder) in
  (∀ p data, folder `prefix_of` p → f' !! p ≠ Some (File data)) ∧
  (∀ p, f !! p = Some Dir → f' !! p = Some Dir) ∧
  (∀ p, ¬ folder `prefix_of` p → f' !! p = f !! p) ∧
  (∀ p, f' !! p = Some Dir → f !! p = Some Dir) ∧
  wf f'.
Proof.
  intros Hwf Hdir f'. unfold f'.
  assert (Hdirs : ∀ p, f !! p = Some Dir →
                       delete_all f (walk_files f folder) !! p = Some Dir).
  { intros p Hp. rewrite lookup_delete_all. case_decide as Hin; [|done].
    apply elem_of_walk_files in Hin as (d & c & data & -> & Hf & _). congruence. }
  split_and!.
  - intros p data Hpre. rewrite lookup_delete_all. case_decide as Hin; [done|].
    intros Hf. apply Hin, elem_of_walk_files.
    destruct (decide (p = folder)) as [->|Hne]; [congruence|].
    destruct p as [|c0 p0] using rev_ind; [by apply prefix_nil_inv in Hpre; subst|].
    clear IHp0. exists p0, c0, data. split_and!; [done | done | |].
    + eapply wf_parent; [done | by rewrite Hf].
    + by apply prefix_snoc_inv in Hpre as [?|?].
  - done.
  - intros p Hpre. rewrite lookup_delete_all. case_decide as Hin; [|done].
    apply elem_of_walk_files in Hin as (d & c & data & -> & _ & _ & Hd).
    exfalso. apply Hpre. by apply prefix_app_r.
  - intros p. rewrite lookup_delete_all. by case_decide.
  - split; [apply Hdirs, Hwf|].
    intros p n Hp. rewrite lookup_delete_all in Hp. case_decide; [done|].
    destruct Hwf as [_ Hall]. destruct (Hall _ _ Hp) as [?|?]; [by left|].
    right. by apply Hdirs.
Qed.

(** X26: the run up to the extraction.  Started with a first argument
    under which the system, walking it on a well-formed disk, finds a
    directory, with a listing that yields a URL, a download answered
    outside 400-599 and completed, a last URL segment that names an
    entry, and nothing in the way -- [updateinfo] is a directory or
    missing and holds no directory of the tarball's name -- the run
    reaches the extraction: seven lines have been printed, the staging
    folder exists, the tarball lies in it with the bytes served and is
    the only regular file anywhere below it, every directory is still
    there, and nothing outside the staging folder has changed. *)
Theorem run_reaches_extraction E K P provided rest w sf url st chunks :
  wf (fs w) →
  locate K (fs w) provided = Some sf →
  let ui := sf ++ ["updateinfo"] in
  let file := ui ++ [last_segment url] in
  fs w !! sf = Some Dir →
  (∀ data, fs w !! ui ≠ Some (File data)) →
  (fetch_exe_url E P w).2 = Ret url →
  http_get E url = Response st chunks None →
  ¬ (400 ≤ st < 600)%Z →
  last_segment url ∉ [""; "."; ".."] →
  fs w !! file ≠ Some Dir →
  ∃ f1, reach_extraction E K P (provided :: rest) w
        = (World f1
             (out w ++ [nl +:+ "---- MTA Server Updater by Fernando ----";
                        nl +:+ "OS: " +:+ OS_SYSTEM (the_host E) +:+ " | 64-bit: "
                          +:+ show_bool (IS_64_BIT (the_host E)) +:+ " | ARM: "
                          +:+ show_bool (IS_ARM (the_host E));
                        nl +:+ "Using provided server folder: " +:+ provided;
                        nl +:+ "Beginning the update process...";
                        found_message P url;
                        nl +:+ "Downloading file...";
                        nl +:+ "Extracting the downloaded file..."]),
           Ret (sf, url, ui, file)) ∧
        wf f1 ∧
        f1 !! file = Some (File (fold_right String.append "" chunks)) ∧
        (∀ q data, ui `prefix_of` q → q ≠ file → f1 !! q ≠ Some (File data)) ∧
        (∀ q, fs w !! q = Some Dir → f1 !! q = Some Dir) ∧
        f1 !! ui = Some Dir ∧
        (∀ q, ¬ ui `prefix_of` q → f1 !! q = fs w !! q).
Proof.
  destruct w as [f0 o]. simpl.
  intros Hwf Hfound Hsf Hui_nf Hfetch Hget Hst Hseg Hfile_nd.
  assert (Hprov : provided ≠ "") by (by intros ->).
  destruct (located_at _ _ _ _ Hfound) as [Hlex _].
  set (ui := sf ++ ["updateinfo"]) in *.
  set (file := ui ++ [last_segment url]) in *.
  set (fD := <[ui := Dir]> f0).
  assert (Hui_file : ui ≠ file).
  { intros Heq%(f_equal length). unfold file in Heq. rewrite length_app in Heq.
    simpl in Heq. lia. }
  assert (HwfD : wf fD).
  { apply wf_insert_dir; [done|]. right. unfold ui. by rewrite parent_snoc. }
  assert (HuiD : fD !! ui = Some Dir) by apply lookup_insert_eq.
  destruct (cleared_disk fD ui HwfD HuiD) as (Hnofile & Hdirs & Hout & Hdirs' & HwfE).
  set (fE := delete_all fD (walk_files fD ui)) in *.
  assert (HuiE : fE !! ui = Some Dir) by (by apply Hdirs).
  assert (HfileE : fE !! file ≠ Some Dir).
  { intros Hd%Hdirs'. unfold fD in Hd. by rewrite lookup_insert_ne in Hd. }
  assert (Hobs : write_obstacle fE file = None).
  { apply write_obstacle_None; [by destruct ui | | done].
    unfold file. by rewrite parent_snoc. }
  assert (Hdl : ∀ o', download_file E url ui (World fE o')
                      = (World (<[file := File (fold_right String.append "" chunks)]> fE)
                               o', Ret file)).
  { intros o'. unfold download_file.
    rewrite Hget, (local_filename_plain ui url Hseg). fold file.
    run_ret by (by apply raise_for_status_ok).
    run_ret by (unfold open_wb; simpl; rewrite Hobs; reflexivity).
    run_ret by (apply write_chunks with (old := ""); simpl; apply lookup_insert_eq).
    simpl. by rewrite insert_insert_eq. }
  exists (<[file := File (fold_right String.append "" chunks)]> fE). split_and!.
  - unfold reach_extraction.
    run_ret by reflexivity. run_ret by reflexivity.
    run_ret by (unfold choose_server_folder;
                rewrite (proj2 (String.eqb_neq provided "")) by done;
                run_ret by (unfold exists_typed; simpl; rewrite Hfound;
                            rewrite bool_decide_eq_true_2 by eauto; reflexivity);
                run_ret by reflexivity;
                run_ret by reflexivity; rewrite <- Hlex; reflexivity).
    run_ret by reflexivity.
    run_ret by (apply (fetch_returns_anywhere E P _ url Hfetch)).
    run_ret by (by apply prepare_makes_staging).
    run_ret by (apply clear_folder_run; exact HuiD).
    run_ret by reflexivity.
    run_ret by apply Hdl.
    run_ret by reflexivity.
    simpl. by rewrite <- !app_assoc.
  - apply wf_insert_file; [done | | by destruct ui | done].
    unfold file. by rewrite parent_snoc.
  - apply lookup_insert_eq.
  - intros q data Hq Hne. rewrite lookup_insert_ne by done. by apply Hnofile.
  - intros q Hq. rewrite lookup_insert_ne by congruence. apply Hdirs. unfold fD.
    destruct (decide (q = ui)) as [->|Hne]; [apply lookup_insert_eq|].
    by rewrite lookup_insert_ne.
  - by rewrite lookup_insert_ne.
  - intros q Hq. rewrite lookup_insert_ne.
    + rewrite Hout by done. unfold fD. rewrite lookup_insert_ne; [done|].
      by intros <-.
    + intros <-. apply Hq. by apply prefix_app_r.
Qed.


Lemma run_reaches_extraction_witness :
  let url := nightly_url +:+ "multitheftauto_linux_x64-1.6-rc-22741.tar.gz" in
  let sf := ["srv"] in
  let ui := sf ++ ["updateinfo"] in
  let file := ui ++ [last_segment url] in
  ∃ f1, reach_extraction sample_env sample_machine linux64_profile
          ["/srv/updateinfo/.."] demo_world
        = (World f1
             (out demo_world
              ++ [nl +:+ "---- MTA Server Updater by Fernando ----";
                  nl +:+ "OS: " +:+ OS_SYSTEM (the_host sample_env) +:+ " | 64-bit: "
                    +:+ show_bool (IS_64_BIT (the_host sample_env)) +:+ " | ARM: "
                    +:+ show_bool (IS_ARM (the_host sample_env));
                  nl +:+ "Using provided server folder: " +:+ "/srv/updateinfo/..";
                  nl +:+ "Beginning the update process...";
                  found_message linux64_profile url;
                  nl +:+ "Downloading file...";
                  nl +:+ "Extracting the downloaded file..."]),
           Ret (sf, url, ui, file)) ∧
        wf f1 ∧
        f1 !! file = Some (File (fold_right String.append "" ["TGZ"; "22741"])) ∧
        (∀ q data, ui `prefix_of` q → q ≠ file → f1 !! q ≠ Some (File data)) ∧
        (∀ q, fs demo_world !! q = Some Dir → f1 !! q = Some Dir) ∧
        f1 !! ui = Some Dir ∧
        (∀ q, ¬ ui `prefix_of` q → f1 !! q = fs demo_world !! q).
Proof.
  apply (run_reaches_extraction sample_env sample_machine linux64_profile
           "/srv/updateinfo/.." [] demo_world ["srv"]
           (nightly_url +:+ "multitheftauto_linux_x64-1.6-rc-22741.tar.gz")
           200 ["TGZ"; "22741"]).
  - apply (bool_decide_unpack _). vm_compute. reflexivity.
  - vm_compute. reflexivity.
  - vm_compute. reflexivity.
  - intros data. vm_compute. discriminate.
  - vm_compute. reflexivity.
  - vm_compute. reflexivity.
  - lia.
  - apply (bool_decide_unpack _). vm_compute. reflexivity.
  - vm_compute. discriminate.
Defined.

End reaching.

(** ** Leftovers in the staging folder *)

Section leftovers.
Implicit Types (f : filesystem) (p q d dest : path) (w : world) (K : machine).

(** A directory with an entry is not empty. *)
Lemma is_empty_dir_false f d c : is_Some (f !! (d ++ [c])) → is_empty_dir f d = false.
Proof.
  intros [n Hn]. unfold is_empty_dir. apply bool_decide_eq_false_2. intros Hnil.
  assert (Hc : c ∈ entries_of (λ _, true) f d).
  { unfold entries_of. apply list_elem_of_filter. split; [by rewrite Hn|].
    apply elem_of_elements. eapply elem_of_names. eauto. }
  rewrite Hnil in Hc. by apply elem_of_nil in Hc.
Qed.

(** X27: a [server] directory left in the staging folder blocks the
    rename.  When the destination already holds a directory [server]
    with anything in it -- [clear_folder] removes files only -- and the
    listing taken after unpacking names the archive's top-level
    directory first, [extract_files] raises [OSError] (directory not
    empty); the build stays unpacked under its own name and nothing
    else has changed. *)
Theorem leftover_server_blocks_rename K file_path dest w bytes members top others c :
  wf (fs w) →
  fs w !! dest = Some Dir →
  fs w !! (dest ++ [top]) = None →
  fs w !! (dest ++ ["server"]) = Some Dir →
  is_Some (fs w !! (dest ++ ["server"; c])) →
  fs w !! file_path = Some (File bytes) →
  endswith (basename file_path) ".tar.gz" = true →
  untar_gz K bytes = Some members →
  Forall plain_member members →
  tar_ok top members →
  listdir_order K (fs (for_ members (extract_member dest) w).1) dest = top :: others →
  ∃ f', extract_files K file_path dest w
        = (World f' (out w), Raise (OSError "Directory not empty")) ∧
        f' !! (dest ++ [top]) = Some Dir ∧
        (∀ r data, f' !! (dest ++ top :: r) = Some (File data)
                   ↔ (top :: r, File data) ∈ members) ∧
        (∀ q, ¬ (dest ++ [top]) `prefix_of` q → f' !! q = fs w !! q).
Proof.
  destruct w as [f0 o]. simpl.
  intros Hwf Hdest Hfree Hserver Hinside Hfile Hname Huntar _ Hok Hlist.
  destruct (extractall_run f0 dest top members Hwf Hdest Hfree Hok o)
    as (f1 & Hrun1 & Hf1).
  rewrite Hrun1 in Hlist. simpl in Hlist.
  assert (Htop : top ≠ "server") by (intros ->; congruence).
  assert (Hunder : ∀ r, ¬ (dest ++ [top]) `prefix_of` dest ++ "server" :: r).
  { intros r [k Hk]. rewrite <- app_assoc in Hk.
    apply (inj (app dest)) in Hk. simpl in Hk. congruence. }
  assert (Hout : ∀ q, ¬ (dest ++ [top]) `prefix_of` q → f1 !! q = f0 !! q).
  { intros q Hq. rewrite Hf1. by apply (unpacked_outside f0 dest top members). }
  assert (Hdest1 : f1 !! dest = Some Dir).
  { rewrite Hout; [done|].
    intros Hpre%prefix_length. rewrite length_app in Hpre. simpl in Hpre. lia. }
  assert (Htop1 : f1 !! (dest ++ [top]) = Some Dir).
  { rewrite Hf1. by apply (unpacked_top f0 dest top members). }
  exists f1. split_and!.
  - unfold extract_files. rewrite (endswith_tar_not_exe _ Hname), Hname.
    run_ret by (unfold tarfile_open; simpl; rewrite Hfile, Huntar; reflexivity).
    run_ret by exact Hrun1.
    run_ret by (unfold os_listdir; simpl; rewrite Hdest1, Hlist; reflexivity).
    run_ret by reflexivity.
    unfold os_rename. simpl. rewrite Htop1.
    rewrite bool_decide_eq_false_2 by (intros Heq%(inj (app dest)); congruence).
    rewrite bool_decide_eq_false_2 by apply Hunder.
    destruct (dest ++ ["server"]) as [|c0 l0] eqn:Hds; [by destruct dest|].
    rewrite <- Hds in *. rewrite parent_snoc, Hdest1.
    rewrite (Hout (dest ++ ["server"])), Hserver by apply Hunder.
    rewrite (is_empty_dir_false f1 (dest ++ ["server"]) c); [done|].
    rewrite <- app_assoc. simpl. by rewrite Hout by apply Hunder.
  - done.
  - intros r data. rewrite Hf1. apply (unpacked_file f0 dest top members); [done..|].
    by apply prefix_cons, prefix_nil.
  - done.
Qed.


Lemma leftover_server_blocks_rename_witness :
  ∃ f', extract_files backwards_machine ["srv"; "updateinfo"; "build.tar.gz"]
          ["srv"; "updateinfo"] (World leftover_disk [])
        = (World f' [], Raise (OSError "Directory not empty")) ∧
        f' !! (["srv"; "updateinfo"] ++ ["buildXYZ"]) = Some Dir ∧
        (∀ r data, f' !! (["srv"; "updateinfo"] ++ "buildXYZ" :: r) = Some (File data)
                   ↔ ("buildXYZ" :: r, File data) ∈ build_xyz) ∧
        (∀ q, ¬ (["srv"; "updateinfo"] ++ ["buildXYZ"]) `prefix_of` q →
              f' !! q = leftover_disk !! q).
Proof.
  apply (leftover_server_blocks_rename backwards_machine
           ["srv"; "updateinfo"; "build.tar.gz"]
           ["srv"; "updateinfo"] (World leftover_disk []) "TGZxyz" build_xyz "buildXYZ"
           ["server"; "build.tar.gz"] "x64").
  - apply (bool_decide_unpack _). vm_compute. reflexivity.
  - vm_compute. reflexivity.
  - vm_compute. reflexivity.
  - vm_compute. reflexivity.
  - vm_compute. eauto.
  - vm_compute. reflexivity.
  - vm_compute. reflexivity.
  - vm_compute. reflexivity.
  - apply (bool_decide_unpack _). vm_compute. reflexivity.
  - apply (bool_decide_unpack _). vm_compute. reflexivity.
  - vm_compute. reflexivity.
Defined.

(** X28: when the staging folder already has an entry [server] and the
    listing taken after unpacking names it first, [extract_files]
    returns normally although nothing has been renamed: the build lies
    unpacked under its own top-level name, and [server] is what it was
    before the call. *)
Theorem leftover_server_listed_first K file_path dest w bytes members top others :
  wf (fs w) →
  fs w !! dest = Some Dir →
  fs w !! (dest ++ [top]) = None →
  is_Some (fs w !! (dest ++ ["server"])) →
  fs w !! file_path = Some (File bytes) →
  endswith (basename file_path) ".tar.gz" = true →
  untar_gz K bytes = Some members →
  Forall plain_member members →
  tar_ok top members →
  listdir_order K (fs (for_ members (extract_member dest) w).1) dest
  = "server" :: others →
  ∃ f', extract_files K file_path dest w = (World f' (out w), Ret tt) ∧
        f' !! (dest ++ [top]) = Some Dir ∧
        (∀ r data, f' !! (dest ++ top :: r) = Some (File data)
                   ↔ (top :: r, File data) ∈ members) ∧
        (∀ q, ¬ (dest ++ [top]) `prefix_of` q → f' !! q = fs w !! q).
Proof.
  destruct w as [f0 o]. simpl.
  intros Hwf Hdest Hfree [n Hserver] Hfile Hname Huntar _ Hok Hlist.
  destruct (extractall_run f0 dest top members Hwf Hdest Hfree Hok o)
    as (f1 & Hrun1 & Hf1).
  rewrite Hrun1 in Hlist. simpl in Hlist.
  assert (Htop : top ≠ "server") by (intros ->; congruence).
  assert (Hout : ∀ q, ¬ (dest ++ [top]) `prefix_of` q → f1 !! q = f0 !! q).
  { intros q Hq. rewrite Hf1. by apply (unpacked_outside f0 dest top members). }
  assert (Hdest1 : f1 !! dest = Some Dir).
  { rewrite Hout; [done|].
    intros Hpre%prefix_length. rewrite length_app in Hpre. simpl in Hpre. lia. }
  exists f1. split_and!.
  - unfold extract_files. rewrite (endswith_tar_not_exe _ Hname), Hname.
    run_ret by (unfold tarfile_open; simpl; rewrite Hfile, Huntar; reflexivity).
    run_ret by exact Hrun1.
    run_ret by (unfold os_listdir; simpl; rewrite Hdest1, Hlist; reflexivity).
    run_ret by reflexivity.
    unfold os_rename. simpl. rewrite Hout, Hserver.
    + by rewrite bool_decide_eq_true_2.
    + intros [Heq|Hpre]%prefix_snoc_inv.
      * apply (inj (app dest)) in Heq. congruence.
      * apply prefix_length in Hpre. rewrite length_app in Hpre. simpl in Hpre. lia.
  - rewrite Hf1. by apply (unpacked_top f0 dest top members).
  - intros r data. rewrite Hf1. apply (unpacked_file f0 dest top members); [done..|].
    by apply prefix_cons, prefix_nil.
  - done.
Qed.

Lemma leftover_server_listed_first_witness :
  ∃ f', extract_files sample_machine ["srv"; "updateinfo"; "build.tar.gz"]
          ["srv"; "updateinfo"] (World leftover_disk [])
        = (World f' [], Ret tt) ∧
        f' !! (["srv"; "updateinfo"] ++ ["buildXYZ"]) = Some Dir ∧
        (∀ r data, f' !! (["srv"; "updateinfo"] ++ "buildXYZ" :: r) = Some (File data)
                   ↔ ("buildXYZ" :: r, File data) ∈ build_xyz) ∧
        (∀ q, ¬ (["srv"; "updateinfo"] ++ ["buildXYZ"]) `prefix_of` q →
              f' !! q = leftover_disk !! q).
Proof.
  apply (leftover_server_listed_first sample_machine ["srv"; "updateinfo"; "build.tar.gz"]
           ["srv"; "updateinfo"] (World leftover_disk []) "TGZxyz" build_xyz "buildXYZ"
           ["buildXYZ"; "build.tar.gz"]).
  - apply (bool_decide_unpack _). vm_compute. reflexivity.
  - vm_compute. reflexivity.
  - vm_compute. reflexivity.
  - vm_compute. eauto.
  - vm_compute. reflexivity.
  - vm_compute. reflexivity.
  - vm_compute. reflexivity.
  - apply (bool_decide_unpack _). vm_compute. reflexivity.
  - apply (bool_decide_unpack _). vm_compute. reflexivity.
  - vm_compute. reflexivity.
Defined.

End leftovers.
